(** * firebase_functions: options merging, manifest entries, Pub/Sub event
      adaptation and callable-request checks

    A shallow embedding of [firebase_functions/options.py],
    [firebase_functions/pubsub.py] and [firebase_functions/private/util.py].
    Python values are a first-order data type, Python dictionaries are
    association lists in insertion order, exceptions are an error monad, the
    process-wide default record is passed explicitly, and the library calls
    the code makes (datetime parsing, base64, JSON, the token verifiers) are
    interfaces whose behaviour is quantified over. *)

From Stdlib Require Import List String Ascii ZArith Bool Lia.
Import ListNotations.
Open Scope string_scope.

(* ================================================================== *)
(** * Python values, exceptions and dictionaries *)
(* ================================================================== *)

Module Py.

#[local] Set Warnings "-register-all".

(** Exceptions the modelled code can raise or catch. [Exception msg] stands
    for any other subclass of Python's [Exception]. *)
Inductive exn : Type :=
| KeyError (key : string)
| TypeError
| ValueError
| AttributeError
| AssertionError
| Exception (msg : string).

Inductive result (A : Type) : Type :=
| Ok (a : A)
| Raise (e : exn).
Arguments Ok {A} a.
Arguments Raise {A} e.

Definition bind {A B : Type} (c : result A) (k : A -> result B) : result B :=
  match c with
  | Ok a => k a
  | Raise e => Raise e
  end.

(** [try: c except Exception: h] *)
Definition try_except {A : Type} (c : result A) (h : exn -> result A) : result A :=
  match c with
  | Ok a => Ok a
  | Raise e => h e
  end.

(** [datetime.datetime] with a fixed-offset [tzinfo]; the offset is in seconds. *)
Record datetime : Type := mkDatetime {
  year : Z; month : Z; day : Z;
  hour : Z; minute : Z; second : Z; microsecond : Z;
  utcoffset : Z
}.

(** The values that option fields, event envelopes and request bodies hold.
    [VSentinel d] is an instance of [util.Sentinel] (such as [USE_DEFAULT]);
    [VSentinelClass] is the class object [util.Sentinel] itself; [VEnum]
    is a member of an [enum.Enum] subclass with its [.value]; [VData] is an
    instance of a dataclass (such as [CorsOptions]) with its fields in
    declaration order; [VSecretParam] is an instance of the dataclass
    [SecretParam]. *)
Inductive value : Type :=
| VNone
| VBool (b : bool)
| VInt (z : Z)
| VFloat (literal : string)
| VStr (s : string)
| VList (l : list value)
| VDict (d : list (string * value))
| VDatetime (t : datetime)
| VEnum (cls : string) (val : value)
| VSentinel (description : string)
| VSentinelClass
| VData (cls : string) (fields : list (string * value))
| VSecretParam (name : string) (label description immutable : value).

(** Modelled from the spec: [SecretParam] is declared in
    [firebase_functions/params.py], which is not among the sources. The spec
    calls it a secret reference that carries the referenced name. It is a
    frozen dataclass with the fields [name], [label], [description] and
    [immutable], the last three [None] unless given. *)
Definition isinstance_SecretParam (v : value) : bool :=
  match v with VSecretParam _ _ _ _ => true | _ => false end.

(** Modelled from the spec: [SecretParam(name)], a secret reference given
    by its name alone, the other fields at their default [None]. *)
Definition SecretParam (name : string) : value :=
  VSecretParam name VNone VNone VNone.

Definition dict : Type := list (string * value).

(** [x is None] *)
Definition is_None (v : value) : bool :=
  match v with VNone => true | _ => false end.

(** [isinstance(x, list)] *)
Definition isinstance_list (v : value) : bool :=
  match v with VList _ => true | _ => false end.

(** [isinstance(x, dict)] *)
Definition isinstance_dict (v : value) : bool :=
  match v with VDict _ => true | _ => false end.

(** [x is util.Sentinel]: identity with the class object. No instance of
    the class is identical to the class. *)
Definition is_Sentinel_class (v : value) : bool :=
  match v with VSentinelClass => true | _ => false end.

(** [isinstance(x, util.Sentinel)] *)
Definition isinstance_Sentinel (v : value) : bool :=
  match v with VSentinel _ => true | _ => false end.

(** ** Dictionaries: association lists in insertion order *)

(** [d.get(k)] *)
Fixpoint dict_get (k : string) (d : dict) : option value :=
  match d with
  | [] => None
  | (k', v) :: d' => if String.eqb k k' then Some v else dict_get k d'
  end.

(** [k in d] *)
Definition dict_mem (k : string) (d : dict) : bool :=
  match dict_get k d with Some _ => true | None => false end.

(** [d[k] = v]: overwrite in place, or append a new key *)
Fixpoint dict_set (k : string) (v : value) (d : dict) : dict :=
  match d with
  | [] => [(k, v)]
  | (k', v') :: d' =>
      if String.eqb k k' then (k', v) :: d' else (k', v') :: dict_set k v d'
  end.

(** [del d[k]], also the effect of [d.pop(k, None)] on [d] *)
Definition dict_del (k : string) (d : dict) : dict :=
  filter (fun kv => negb (String.eqb k (fst kv))) d.

(** [d.keys()] *)
Definition dict_keys (d : dict) : list string := map fst d.

(** [{**d1, **d2}] *)
Definition dict_update (d1 d2 : dict) : dict :=
  fold_left (fun acc kv => dict_set (fst kv) (snd kv) acc) d2 d1.

(** [d[k]] *)
Definition dict_item (k : string) (d : dict) : result value :=
  match dict_get k d with
  | Some v => Ok v
  | None => Raise (KeyError k)
  end.

(** [x[k]] for a string key [k]: only a dictionary accepts it. *)
Definition subscript (x : value) (k : string) : result value :=
  match x with
  | VDict d => dict_item k d
  | _ => Raise TypeError
  end.

(** ** Strings

    A Python [str] is a Rocq [string]. Header values are strings of
    characters below 256, one character each. Any other text stands for its
    UTF-8 encoding, on which the operations the code applies to it (tests
    for ['/'] and ['*'], search for an ASCII substring) give the same
    answers. *)

Definition is_slash (c : ascii) : bool := Ascii.eqb c "/"%char.

(** The characters below 256 that [str.isspace] accepts, which are the ones
    [str.strip()] removes. *)
Definition is_space (c : ascii) : bool :=
  let n := nat_of_ascii c in
  ((9 <=? n) && (n <=? 13) || (28 <=? n) && (n <=? 32)
   || (n =? 133) || (n =? 160))%nat.

Fixpoint lstrip (p : ascii -> bool) (s : string) : string :=
  match s with
  | EmptyString => EmptyString
  | String c s' => if p c then lstrip p s' else s
  end.

Fixpoint rstrip (p : ascii -> bool) (s : string) : string :=
  match s with
  | EmptyString => EmptyString
  | String c s' =>
      match rstrip p s' with
      | EmptyString => if p c then EmptyString else String c EmptyString
      | r => String c r
      end
  end.

(** [s.strip(chars)], with [p] the membership test of [chars] *)
Definition strip (p : ascii -> bool) (s : string) : string :=
  rstrip p (lstrip p s).

(** [c in s] for a one-character string [c] *)
Fixpoint contains_char (c : ascii) (s : string) : bool :=
  match s with
  | EmptyString => false
  | String c' s' => Ascii.eqb c c' || contains_char c s'
  end.

(** [s.index(c)] for a one-character string [c]; [None] is [ValueError] *)
Fixpoint index_char (c : ascii) (s : string) : option nat :=
  match s with
  | EmptyString => None
  | String c' s' =>
      if Ascii.eqb c c' then Some 0%nat
      else option_map S (index_char c s')
  end.

(** [s[0:n]] *)
Fixpoint take (n : nat) (s : string) : string :=
  match n, s with
  | S n', String c s' => String c (take n' s')
  | _, _ => EmptyString
  end.

(** [c.lower()] for a character below 256: the letters A to Z and the
    accented capitals from 192 to 222, the multiplication sign 215 apart. *)
Definition lower_char (c : ascii) : ascii :=
  let n := nat_of_ascii c in
  if ((65 <=? n) && (n <=? 90)
      || (192 <=? n) && (n <=? 222) && negb (n =? 215))%nat
  then ascii_of_nat (n + 32) else c.

(** [s.lower()] *)
Fixpoint lower (s : string) : string :=
  match s with
  | EmptyString => EmptyString
  | String c s' => String (lower_char c) (lower s')
  end.

(** [s.startswith(p)] *)
Definition startswith (s p : string) : bool := String.prefix p s.

(** [s.replace(old, "")] for a non-empty [old]: every occurrence, left to
    right, without overlap. [skip] counts the characters of a matched
    occurrence that are still to be dropped. *)
Fixpoint remove_all_from (old : string) (skip : nat) (s : string) : string :=
  match s with
  | EmptyString => EmptyString
  | String c s' =>
      match skip with
      | S n => remove_all_from old n s'
      | O =>
          if String.prefix old s
          then remove_all_from old (String.length old - 1) s'
          else String c (remove_all_from old 0 s')
      end
  end.

Definition remove_all (old s : string) : string := remove_all_from old 0 s.

(** [needle in x] for a string [needle] *)
Fixpoint substring_of (needle s : string) : bool :=
  String.prefix needle s ||
  match s with
  | EmptyString => false
  | String _ s' => substring_of needle s'
  end.

Definition is_the_str (needle : string) (v : value) : bool :=
  match v with VStr s => String.eqb needle s | _ => false end.

Definition contains (needle : string) (x : value) : result bool :=
  match x with
  | VDict d => Ok (dict_mem needle d)
  | VList l => Ok (existsb (is_the_str needle) l)
  | VStr s => Ok (substring_of needle s)
  | _ => Raise TypeError
  end.

End Py.

Declare Scope py_scope.
Delimit Scope py_scope with py.
Notation "x <- c ;; k" := (Py.bind c (fun x => k))
  (at level 61, c at next level, right associativity) : py_scope.
Open Scope py_scope.

(* ================================================================== *)
(** * options.py *)
(* ================================================================== *)

Module Options.
Import Py.

(** [USE_DEFAULT = util.Sentinel("Value used to reset an option to factory defaults")] *)
Definition USE_DEFAULT : value :=
  VSentinel "Value used to reset an option to factory defaults".

(** [VpcEgressSetting], a [str] enumeration *)
Definition PRIVATE_RANGES_ONLY : value :=
  VEnum "VpcEgressSetting" (VStr "PRIVATE_RANGES_ONLY").
Definition ALL_TRAFFIC : value :=
  VEnum "VpcEgressSetting" (VStr "ALL_TRAFFIC").

(** [x.value] *)
Definition enum_value (x : value) : result value :=
  match x with
  | VEnum _ v => Ok v
  | _ => Raise AttributeError
  end.

(** [dataclasses.asdict] on a field value: dataclass instances become
    dictionaries, lists and dictionaries are rebuilt element by element, and
    anything else goes through [copy.deepcopy], which returns a copy with
    the same content: for an instance of [util.Sentinel], a new instance
    with the same description. Values here carry no object identity, so the
    copy is the value itself. *)
Fixpoint asdict_inner (v : value) : value :=
  match v with
  | VList l => VList (map asdict_inner l)
  | VDict d => VDict (map (fun kv => (fst kv, asdict_inner (snd kv))) d)
  | VData _ fields =>
      VDict (map (fun kv => (fst kv, asdict_inner (snd kv))) fields)
  | VSecretParam name label description immutable =>
      VDict [("name", VStr name);
             ("label", asdict_inner label);
             ("description", asdict_inner description);
             ("immutable", asdict_inner immutable)]
  | _ => v
  end.

(** A value with no dataclass instance anywhere inside it. *)
Fixpoint plain (v : value) : bool :=
  match v with
  | VList l => forallb plain l
  | VDict d => forallb (fun kv => plain (snd kv)) d
  | VData _ _ => false
  | VSecretParam _ _ _ _ => false
  | _ => true
  end.

(** [class RuntimeOptions]: the thirteen fields every trigger shares, each
    defaulting to [None]. *)
Record RuntimeOptions : Type := mkRuntimeOptions {
  region : value;
  memory : value;
  timeout_sec : value;
  min_instances : value;
  max_instances : value;
  concurrency : value;
  cpu : value;
  vpc_connector : value;
  vpc_connector_egress_settings : value;
  service_account : value;
  ingress : value;
  labels : value;
  secrets : value
}.

(** [dataclasses.fields(RuntimeOptions)], in declaration order *)
Definition RuntimeOptions_fields : list (string * (RuntimeOptions -> value)) :=
  [ ("region", region);
    ("memory", memory);
    ("timeout_sec", timeout_sec);
    ("min_instances", min_instances);
    ("max_instances", max_instances);
    ("concurrency", concurrency);
    ("cpu", cpu);
    ("vpc_connector", vpc_connector);
    ("vpc_connector_egress_settings", vpc_connector_egress_settings);
    ("service_account", service_account);
    ("ingress", ingress);
    ("labels", labels);
    ("secrets", secrets) ].

Definition RuntimeOptions_field_names : list string :=
  map fst RuntimeOptions_fields.

(** [RuntimeOptions()] *)
Definition RuntimeOptions_default : RuntimeOptions :=
  mkRuntimeOptions VNone VNone VNone VNone VNone VNone VNone
                   VNone VNone VNone VNone VNone VNone.

(** [class PubSubOptions(RuntimeOptions)] *)
Record PubSubOptions : Type := mkPubSubOptions {
  pubsub_runtime : RuntimeOptions;
  retry : option bool;
  topic : string
}.

(** [class DatabaseOptions(RuntimeOptions)] *)
Record DatabaseOptions : Type := mkDatabaseOptions {
  database_runtime : RuntimeOptions;
  reference : string;
  instance : option string
}.

(** [class HttpsOptions(RuntimeOptions)]; its [region] redeclares the base
    field and keeps the base field's place. *)
Record HttpsOptions : Type := mkHttpsOptions {
  https_runtime : RuntimeOptions;
  invoker : value;
  cors : value
}.

(** [CorsOptions(cors_origins=o, cors_methods=m)] *)
Definition CorsOptions (cors_origins cors_methods : value) : value :=
  VData "CorsOptions"
        [("cors_origins", cors_origins); ("cors_methods", cors_methods)].

Definition of_option_bool (b : option bool) : value :=
  match b with Some b => VBool b | None => VNone end.

Definition of_option_str (s : option string) : value :=
  match s with Some s => VStr s | None => VNone end.

(** What every option class provides to [dataclasses.asdict]: the base
    fields and the fields the subclass adds, in declaration order. *)
Class Fields (A : Type) : Type := {
  runtime : A -> RuntimeOptions;
  specific_fields : A -> dict
}.

(** [dataclasses.asdict(r)] for a [RuntimeOptions] *)
Definition RuntimeOptions_asdict (r : RuntimeOptions) : dict :=
  map (fun kf => (fst kf, asdict_inner (snd kf r))) RuntimeOptions_fields.

(** [dataclasses.asdict(self)] *)
Definition asdict {A : Type} `{Fields A} (self : A) : dict :=
  (RuntimeOptions_asdict (runtime self)
   ++ map (fun kv => (fst kv, asdict_inner (snd kv))) (specific_fields self))%list.

(** One turn of the loop [for key in provider_options] of
    [RuntimeOptions._asdict_with_global_options]. *)
Definition fallback_step (provider_options global_options : dict)
    (merged_options : dict) (key : string) : dict :=
  match dict_get key provider_options with
  | Some pv =>
      if is_None pv && dict_mem key global_options
      then match dict_get key global_options with
           | Some gv => dict_set key gv merged_options
           | None => merged_options
           end
      else merged_options
  | None => merged_options
  end.

(** [RuntimeOptions._asdict_with_global_options(self)], reading the
    process-wide [_GLOBAL_OPTIONS] *)
Definition RuntimeOptions_asdict_with_global_options {A : Type} `{Fields A}
    (self : A) (_GLOBAL_OPTIONS : RuntimeOptions) : dict :=
  let provider_options := asdict self in
  let global_options := RuntimeOptions_asdict _GLOBAL_OPTIONS in
  let merged_options := dict_update global_options provider_options in
  fold_left (fallback_step provider_options global_options)
            (dict_keys provider_options) merged_options.

(** [HttpsOptions._asdict_with_global_options(self)] *)
Definition HttpsOptions_asdict_with_global_options {A : Type} `{Fields A}
    (self : A) (_GLOBAL_OPTIONS : RuntimeOptions) : dict :=
  let merged_options :=
    RuntimeOptions_asdict_with_global_options self _GLOBAL_OPTIONS in
  dict_del "cors" merged_options.

(** The method [_asdict_with_global_options] as each class resolves it. *)
Class OptionsClass (A : Type) `{Fields A} : Type := {
  asdict_with_global_options : A -> RuntimeOptions -> dict
}.

#[export] Instance RuntimeOptions_Fields : Fields RuntimeOptions :=
  {| runtime := fun self => self; specific_fields := fun _ => [] |}.

#[export] Instance PubSubOptions_Fields : Fields PubSubOptions :=
  {| runtime := pubsub_runtime;
     specific_fields := fun self =>
       [("retry", of_option_bool (retry self)); ("topic", VStr (topic self))] |}.

#[export] Instance DatabaseOptions_Fields : Fields DatabaseOptions :=
  {| runtime := database_runtime;
     specific_fields := fun self =>
       [("reference", VStr (reference self));
        ("instance", of_option_str (instance self))] |}.

#[export] Instance HttpsOptions_Fields : Fields HttpsOptions :=
  {| runtime := https_runtime;
     specific_fields := fun self =>
       [("invoker", invoker self); ("cors", cors self)] |}.

#[export] Instance RuntimeOptions_Class : OptionsClass RuntimeOptions :=
  {| asdict_with_global_options := RuntimeOptions_asdict_with_global_options |}.

#[export] Instance PubSubOptions_Class : OptionsClass PubSubOptions :=
  {| asdict_with_global_options := RuntimeOptions_asdict_with_global_options |}.

#[export] Instance DatabaseOptions_Class : OptionsClass DatabaseOptions :=
  {| asdict_with_global_options := RuntimeOptions_asdict_with_global_options |}.

#[export] Instance HttpsOptions_Class : OptionsClass HttpsOptions :=
  {| asdict_with_global_options := HttpsOptions_asdict_with_global_options |}.

(** ** Manifest entries *)

(** [manifest.EventTrigger(eventType=, retry=, eventFilters=,
    eventFilterPathPatterns=)] *)
Record EventTrigger : Type := mkEventTrigger {
  eventType : value;
  eventTrigger_retry : bool;
  eventFilters : dict;
  eventFilterPathPatterns : dict
}.

(** Modelled from the spec: [ManifestEndpoint] is declared in
    [firebase_functions/private/manifest.py], which is not among the
    sources. The record has the fields the constructor calls of
    [options.py] name; the spec has the event-trigger description only on
    event-triggered functions, so [eventTrigger] is absent unless a caller
    passes it. *)
Record ManifestEndpoint : Type := mkManifestEndpoint {
  entryPoint : value;
  endpoint_region : value;
  availableMemoryMb : value;
  endpoint_labels : value;
  maxInstances : value;
  minInstances : value;
  endpoint_concurrency : value;
  serviceAccountEmail : value;
  timeoutSeconds : value;
  endpoint_cpu : value;
  ingressSettings : value;
  secretEnvironmentVariables : value;
  vpc : value;
  eventTrigger : option EventTrigger
}.

(** [{**dataclasses.asdict(endpoint), "eventTrigger": t}] passed back to
    the [ManifestEndpoint] constructor. *)
Definition with_eventTrigger (e : ManifestEndpoint) (t : EventTrigger)
    : ManifestEndpoint :=
  {| entryPoint := asdict_inner (entryPoint e);
     endpoint_region := asdict_inner (endpoint_region e);
     availableMemoryMb := asdict_inner (availableMemoryMb e);
     endpoint_labels := asdict_inner (endpoint_labels e);
     maxInstances := asdict_inner (maxInstances e);
     minInstances := asdict_inner (minInstances e);
     endpoint_concurrency := asdict_inner (endpoint_concurrency e);
     serviceAccountEmail := asdict_inner (serviceAccountEmail e);
     timeoutSeconds := asdict_inner (timeoutSeconds e);
     endpoint_cpu := asdict_inner (endpoint_cpu e);
     ingressSettings := asdict_inner (ingressSettings e);
     secretEnvironmentVariables := asdict_inner (secretEnvironmentVariables e);
     vpc := asdict_inner (vpc e);
     eventTrigger := Some t |}.

(** [d.get(k)] as a keyword argument whose parameter defaults to [None] *)
Definition kwarg (k : string) (d : dict) : value :=
  match dict_get k d with Some v => v | None => VNone end.

(** The base fields of the instance that [self.__class__] builds from the
    keyword arguments [options_dict]. The keys of a
    merged dictionary are fields of the class of [self], so the constructor
    accepts them; a base field with no key takes its default [None]. *)
Definition options_of_dict (options_dict : dict) : RuntimeOptions :=
  {| region := kwarg "region" options_dict;
     memory := kwarg "memory" options_dict;
     timeout_sec := kwarg "timeout_sec" options_dict;
     min_instances := kwarg "min_instances" options_dict;
     max_instances := kwarg "max_instances" options_dict;
     concurrency := kwarg "concurrency" options_dict;
     cpu := kwarg "cpu" options_dict;
     vpc_connector := kwarg "vpc_connector" options_dict;
     vpc_connector_egress_settings :=
       kwarg "vpc_connector_egress_settings" options_dict;
     service_account := kwarg "service_account" options_dict;
     ingress := kwarg "ingress" options_dict;
     labels := kwarg "labels" options_dict;
     secrets := kwarg "secrets" options_dict |}.

(** [assert c] *)
Definition assert (c : bool) : result unit :=
  if c then Ok tt else Raise AssertionError.

Definition convert_secret (secret : value) : value :=
  let secret_value :=
    match secret with
    | VSecretParam name _ _ _ => VStr name
    | _ => secret
    end in
  VDict [("key", secret_value)].

(** The [secret_envs] that [RuntimeOptions._endpoint] computes from
    [options.secrets]. *)
Definition secret_envs_of (options_secrets : value) : value :=
  if negb (is_None options_secrets) then
    match options_secrets with
    | VList l => VList (map convert_secret l)
    | _ =>
        if is_Sentinel_class options_secrets then options_secrets
        else VList []
    end
  else VList [].

Definition region_of (options_region : value) : value :=
  match options_region with
  | VList l => VList l
  | VNone => VNone
  | r => VList [r]
  end.

Definition vpc_of (connector egress : value) : result value :=
  if negb (is_None connector) then
    if negb (is_None egress) then
      e <- enum_value egress ;;
      Ok (VDict [("connector", connector); ("egressSettings", e)])
    else Ok (VDict [("connector", connector)])
  else Ok VNone.

(** [RuntimeOptions._endpoint(self, **kwargs)] *)
Definition RuntimeOptions_endpoint {A : Type} `{OptionsClass A}
    (self : A) (_GLOBAL_OPTIONS : RuntimeOptions) (kwargs : dict)
    : result ManifestEndpoint :=
  func_name <- dict_item "func_name" kwargs ;;
  _ <- assert (negb (is_None func_name)) ;;
  let options_dict := asdict_with_global_options self _GLOBAL_OPTIONS in
  let options := options_of_dict options_dict in
  let secret_envs := secret_envs_of (secrets options) in
  let region := region_of (region options) in
  vpc <- vpc_of (vpc_connector options) (vpc_connector_egress_settings options) ;;
  Ok {| entryPoint := func_name;
        endpoint_region := region;
        availableMemoryMb := memory options;
        endpoint_labels := labels options;
        maxInstances := max_instances options;
        minInstances := min_instances options;
        endpoint_concurrency := concurrency options;
        serviceAccountEmail := service_account options;
        timeoutSeconds := timeout_sec options;
        endpoint_cpu := cpu options;
        ingressSettings := ingress options;
        secretEnvironmentVariables := secret_envs;
        vpc := vpc;
        eventTrigger := None |}.

(** The event trigger that [DatabaseOptions._endpoint] builds. *)
Definition DatabaseOptions_event_trigger (self : DatabaseOptions)
    (event_type : value) : EventTrigger :=
  let event_filter_instance :=
    match instance self with Some i => i | None => "*" end in
  let event_filters : dict := [] in
  let event_filters_path_patterns : dict :=
    [("ref", VStr (strip is_slash (reference self)))] in
  if contains_char "*"%char event_filter_instance
  then {| eventType := event_type;
          eventTrigger_retry := false;
          eventFilters := event_filters;
          eventFilterPathPatterns :=
            dict_set "instance" (VStr event_filter_instance)
                     event_filters_path_patterns |}
  else {| eventType := event_type;
          eventTrigger_retry := false;
          eventFilters :=
            dict_set "instance" (VStr event_filter_instance) event_filters;
          eventFilterPathPatterns := event_filters_path_patterns |}.

(** [DatabaseOptions._endpoint(self, **kwargs)] *)
Definition DatabaseOptions_endpoint (self : DatabaseOptions)
    (_GLOBAL_OPTIONS : RuntimeOptions) (kwargs : dict)
    : result ManifestEndpoint :=
  event_type <- dict_item "event_type" kwargs ;;
  _ <- assert (negb (is_None event_type)) ;;
  let event_trigger := DatabaseOptions_event_trigger self event_type in
  base <- RuntimeOptions_endpoint self _GLOBAL_OPTIONS kwargs ;;
  Ok (with_eventTrigger base event_trigger).

(** [PubSubOptions] defines no [_endpoint]: the attribute resolves to
    [RuntimeOptions._endpoint]. *)
Definition PubSubOptions_endpoint (self : PubSubOptions)
    (_GLOBAL_OPTIONS : RuntimeOptions) (kwargs : dict)
    : result ManifestEndpoint :=
  RuntimeOptions_endpoint self _GLOBAL_OPTIONS kwargs.

(** ** The process-wide default record *)

(** The keyword arguments of one call of [set_global_options]; [None] is an
    argument the call does not pass. *)
Record global_kwargs : Type := mkGlobalKwargs {
  kw_region : option value;
  kw_memory : option value;
  kw_timeout_sec : option value;
  kw_min_instances : option value;
  kw_max_instances : option value;
  kw_concurrency : option value;
  kw_cpu : option value;
  kw_vpc_connector : option value;
  kw_vpc_connector_egress_settings : option value;
  kw_service_account : option value;
  kw_ingress : option value;
  kw_labels : option value;
  kw_secrets : option value
}.

(** A parameter with a default value *)
Definition param (passed : option value) (default : value) : value :=
  match passed with Some v => v | None => default end.

(** [set_global_options] as a transformer of [_GLOBAL_OPTIONS] *)
Definition set_global_options (kwargs : global_kwargs)
    (_GLOBAL_OPTIONS : RuntimeOptions) : RuntimeOptions :=
  let region := param (kw_region kwargs) VNone in
  let memory := param (kw_memory kwargs) VNone in
  let timeout_sec := param (kw_timeout_sec kwargs) VNone in
  let min_instances := param (kw_min_instances kwargs) VNone in
  let max_instances := param (kw_max_instances kwargs) VNone in
  let concurrency := param (kw_concurrency kwargs) VNone in
  let cpu := param (kw_cpu kwargs) (VStr "gcf_gen1") in
  let vpc_connector := param (kw_vpc_connector kwargs) VNone in
  let vpc_connector_egress_settings :=
    param (kw_vpc_connector_egress_settings kwargs) VNone in
  let service_account := param (kw_service_account kwargs) VNone in
  let ingress := param (kw_ingress kwargs) VNone in
  let labels := param (kw_labels kwargs) VNone in
  let secrets := param (kw_secrets kwargs) VNone in
  mkRuntimeOptions region memory timeout_sec min_instances max_instances
                   concurrency cpu vpc_connector
                   vpc_connector_egress_settings service_account ingress
                   labels secrets.

End Options.

(* ================================================================== *)
(** * pubsub.py *)
(* ================================================================== *)

Module PubSub.
Import Py.

(** The library calls of [pubsub.py]. [strptime s] is
    [datetime.strptime(s, "%Y-%m-%dT%H:%M:%S.%f%z")], [b64decode] is
    [base64.b64decode] on a string, [decode_utf8] is [bytes.decode("utf-8")]
    and [json_loads] is [json.loads]; [None] stands for the exception each
    raises on input it rejects. *)
Class Library : Type := {
  strptime : string -> option datetime;
  b64decode : string -> option string;
  decode_utf8 : string -> option string;
  json_loads : string -> option value
}.

(** [class Message]; the dataclass checks no field type. *)
Record Message : Type := mkMessage {
  message_id : value;
  publish_time : value;
  attributes : value;
  data : value;
  ordering_key : value
}.

(** [class MessagePublishedData] *)
Record MessagePublishedData : Type := mkMessagePublishedData {
  message : Message;
  subscription : value
}.

(** Modelled from the spec: [CloudEvent] is declared in
    [firebase_functions/core.py], which is not among the sources. The spec
    gives it a payload and the metadata identifier, source, spec version,
    optional subject, timestamp and type tag, the keyword arguments
    [_message_handler] passes. *)
Record CloudEvent : Type := mkCloudEvent {
  event_data : MessagePublishedData;
  event_id : value;
  event_source : value;
  event_specversion : value;
  event_subject : value;
  event_time : value;
  event_type : value
}.

(** The raw [cloudevents.http.CloudEvent]: what [raw._get_attributes()] and
    [raw.get_data()] return. *)
Record RawEvent : Type := mkRawEvent {
  raw_attributes : dict;
  raw_data : value
}.

Definition Message_fields : list string :=
  ["message_id"; "publish_time"; "attributes"; "data"; "ordering_key"].

(** The generated [Message.__init__] applied to keyword arguments: every
    field is required and no other keyword is accepted. *)
Definition Message_init (kwargs : dict) : result Message :=
  if forallb (fun k => existsb (String.eqb k) Message_fields) (dict_keys kwargs)
  then
    match dict_get "message_id" kwargs, dict_get "publish_time" kwargs,
          dict_get "attributes" kwargs, dict_get "data" kwargs,
          dict_get "ordering_key" kwargs with
    | Some i, Some p, Some a, Some d, Some o => Ok (mkMessage i p a d o)
    | _, _, _, _, _ => Raise TypeError
    end
  else Raise TypeError.

(** The call that unpacks [message_dict] and adds the keyword
    [ordering_key]: a key passed twice is a [TypeError]. *)
Definition Message_call (message_dict : dict) (ordering_key : value)
    : result Message :=
  if dict_mem "ordering_key" message_dict then Raise TypeError
  else Message_init (message_dict ++ [("ordering_key", ordering_key)])%list.

(** [d.pop(k, None)]: the value returned *)
Definition dict_pop_value (k : string) (d : dict) : value :=
  match dict_get k d with Some v => v | None => VNone end.

(** [d.get(k, default)] *)
Definition dict_get_default (k : string) (d : dict) (default : value) : value :=
  match dict_get k d with Some v => v | None => default end.

Section WithLibrary.
Context {L : Library}.

(** [datetime.strptime(x, "%Y-%m-%dT%H:%M:%S.%f%z")] *)
Definition strptime_value (x : value) : result datetime :=
  match x with
  | VStr s =>
      match strptime s with
      | Some t => Ok t
      | None => Raise ValueError
      end
  | _ => Raise TypeError
  end.

(** [json.loads(base64.b64decode(x).decode("utf-8"))] *)
Definition loads_b64 (x : value) : result value :=
  match x with
  | VStr s =>
      match b64decode s with
      | Some bytes =>
          match decode_utf8 bytes with
          | Some text =>
              match json_loads text with
              | Some v => Ok v
              | None => Raise (Exception "JSONDecodeError")
              end
          | None => Raise (Exception "UnicodeDecodeError")
          end
      | None => Raise (Exception "binascii.Error")
      end
  | _ => Raise TypeError
  end.

(** The property [Message.json] *)
Definition Message_json (self : Message) : result value :=
  try_except
    (if negb (is_None (data self)) then loads_b64 (data self)
     else Ok VNone)
    (fun error => Raise ValueError).

(** [_message_handler] up to the call of [func]: the event it builds.
    [message_dict] is the dictionary inside the raw event's data and is
    updated in place; nothing reads the raw event through another path
    afterwards. *)
Definition typed_event (raw : RawEvent) : result CloudEvent :=
  let event_attributes := raw_attributes raw in
  let event_data := raw_data raw in
  let event_dict := dict_update [("data", event_data)] event_attributes in
  data <- dict_item "data" event_dict ;;
  message_value <- subscript data "message" ;;
  time <- (x <- dict_item "time" event_dict ;; strptime_value x) ;;
  publish_time <-
    (x <- subscript message_value "publish_time" ;; strptime_value x) ;;
  let event_dict := dict_set "time" (VDatetime time) event_dict in
  match message_value with
  | VDict message_dict =>
      let message_dict :=
        dict_set "publish_time" (VDatetime publish_time) message_dict in
      let message_dict := dict_del "messageId" message_dict in
      let message_dict := dict_del "publishTime" message_dict in
      let ordering_key := dict_pop_value "orderingKey" message_dict in
      let message_dict := dict_del "orderingKey" message_dict in
      let message_dict :=
        dict_set "attributes"
                 (dict_get_default "attributes" message_dict (VDict []))
                 message_dict in
      m <- Message_call message_dict ordering_key ;;
      subscription <- subscript data "subscription" ;;
      let message := mkMessagePublishedData m subscription in
      id <- dict_item "id" event_dict ;;
      source <- dict_item "source" event_dict ;;
      specversion <- dict_item "specversion" event_dict ;;
      let subject :=
        if dict_mem "subject" event_dict
        then dict_get_default "subject" event_dict VNone
        else VNone in
      time <- dict_item "time" event_dict ;;
      type <- dict_item "type" event_dict ;;
      Ok (mkCloudEvent message id source specversion subject time type)
  | _ => Raise TypeError
  end.

(** [_message_handler(func, raw)]. The developer's handler acts on a
    state [S] of its own and may raise; its return value is dropped. *)
Definition _message_handler {S : Type}
    (func : CloudEvent -> S -> result S) (raw : RawEvent) (s : S)
    : result S :=
  event <- typed_event raw ;;
  func event s.

(** [on_message_published] applied to the keyword arguments that make
    [options] and then to [func]: the manifest entry stored on the
    wrapper as [__firebase_endpoint__]. *)
Definition on_message_published (options : Options.PubSubOptions)
    (_GLOBAL_OPTIONS : Options.RuntimeOptions) (func_name : string)
    : result Options.ManifestEndpoint :=
  Options.PubSubOptions_endpoint options _GLOBAL_OPTIONS
                                 [("func_name", VStr func_name)].
End WithLibrary.

End PubSub.

(* ================================================================== *)
(** * private/util.py *)
(* ================================================================== *)

Module Util.
Import Py.

(** What the code reads of a [flask.Request]: the method, the headers,
    each under the spelling of its name that the code looks up, and the
    outcome of the property [request.json], a parsed body or the exception
    the parser raises. Calls of [logging] write a record and return
    nothing; they are left out. *)
Record Request : Type := mkRequest {
  method : string;
  headers : list (string * string);
  json : result value
}.

(** [request.headers.get(name)] *)
Fixpoint headers_get (name : string) (hs : list (string * string))
    : option string :=
  match hs with
  | [] => None
  | (n, v) :: hs' => if String.eqb name n then Some v else headers_get name hs'
  end.

(** [x.keys()] *)
Definition keys_of (x : value) : result (list string) :=
  match x with
  | VDict d => Ok (dict_keys d)
  | _ => Raise AttributeError
  end.

Definition _on_call_valid_body (request : Request) : result bool :=
  j <- json request ;;
  if is_None j then Ok false
  else
    j <- json request ;;
    missing <- (if is_None j then Ok true
                else (b <- contains "data" j ;; Ok (negb b))) ;;
    if missing : bool then Ok false
    else
      j <- json request ;;
      keys <- keys_of j ;;
      let extra_keys := filter (fun key => negb (String.eqb key "data")) keys in
      if negb (Nat.eqb (List.length extra_keys) 0) then Ok false
      else Ok true.

Definition _on_call_valid_method (request : Request) : bool :=
  if negb (String.eqb (method request) "POST") then false else true.

Definition _on_call_valid_content_type (request : Request) : bool :=
  match headers_get "Content-Type" (headers request) with
  | None => false
  | Some content_type =>
      let content_type :=
        match index_char ";"%char content_type with
        | Some semi_colon =>
            if (0 <=? semi_colon)%nat
            then strip is_space (take semi_colon content_type)
            else content_type
        | None => content_type
        end in
      if negb (String.eqb (lower content_type) "application/json") then false
      else true
  end.

Definition valid_on_call_request (request : Request) : result bool :=
  if _on_call_valid_method request then
    if _on_call_valid_content_type request then
      b <- _on_call_valid_body request ;;
      if b : bool then Ok true else Ok false
    else Ok false
  else Ok false.

(** [class OnCallTokenState] *)
Inductive OnCallTokenState : Type := MISSING | VALID | INVALID.

(** The member [OnCallTokenState.INVALID] as a value a function returns. *)
Definition INVALID_member : value := VEnum "OnCallTokenState" (VStr "INVALID").

(** [class _OnCallTokenVerification] *)
Record OnCallTokenVerification : Type := mkVerification {
  app : OnCallTokenState;
  app_token : value;
  auth : OnCallTokenState;
  auth_token : value
}.

(** [_OnCallTokenVerification()] *)
Definition OnCallTokenVerification_default : OnCallTokenVerification :=
  mkVerification INVALID VNone INVALID VNone.

(** The external verifiers [firebase_admin.auth.verify_id_token] and
    [firebase_admin.app_check.verify_token]: each returns a value or raises. *)
Class Verifiers : Type := {
  verify_id_token : string -> result value;
  verify_token : string -> result value
}.

Section WithVerifiers.
Context {V : Verifiers}.

Definition _on_call_check_auth_token (request : Request) : result value :=
  match headers_get "Authorization" (headers request) with
  | None => Ok VNone
  | Some authorization =>
      if negb (startswith authorization "Bearer ") then Ok INVALID_member
      else
        try_except
          (let id_token := remove_all "Bearer " authorization in
           auth_token <- verify_id_token id_token ;;
           Ok auth_token)
          (fun err => Ok INVALID_member)
  end.

Definition _on_call_check_app_token (request : Request) : result value :=
  match headers_get "X-Firebase-AppCheck" (headers request) with
  | None => Ok VNone
  | Some app_check =>
      try_except
        (app_token <- verify_token app_check ;;
         Ok app_token)
        (fun err => Ok INVALID_member)
  end.

Definition on_call_check_tokens (request : Request)
    : result OnCallTokenVerification :=
  let verifications := OnCallTokenVerification_default in
  auth_token <- _on_call_check_auth_token request ;;
  let verifications :=
    if is_None auth_token
    then mkVerification (app verifications) (app_token verifications)
                        MISSING (Util.auth_token verifications)
    else if isinstance_dict auth_token
    then mkVerification (app verifications) (app_token verifications)
                        VALID auth_token
    else verifications in
  app_token <- _on_call_check_app_token request ;;
  let verifications :=
    if is_None app_token
    then mkVerification MISSING (Util.app_token verifications)
                        (auth verifications) (Util.auth_token verifications)
    else if isinstance_dict app_token
    then mkVerification VALID app_token
                        (auth verifications) (Util.auth_token verifications)
    else verifications in
  Ok verifications.
End WithVerifiers.

End Util.

(* ================================================================== *)
(** * Facts about dictionaries and strings *)
(* ================================================================== *)

Module PyFacts.
Import Py.

Lemma dict_get_set_eq (k : string) (v : value) (d : dict) :
  dict_get k (dict_set k v d) = Some v.
Proof.
  induction d as [|[k' v'] d IH]; simpl.
  - now rewrite String.eqb_refl.
  - destruct (String.eqb k k') eqn:E; simpl; rewrite E; auto.
Qed.

Lemma dict_get_set_ne (k k' : string) (v : value) (d : dict) :
  k <> k' -> dict_get k (dict_set k' v d) = dict_get k d.
Proof.
  intros Hne. induction d as [|[k0 v0] d IH]; simpl.
  - apply String.eqb_neq in Hne. now rewrite Hne.
  - destruct (String.eqb k' k0) eqn:E; simpl.
    + apply String.eqb_eq in E. subst k0.
      apply String.eqb_neq in Hne. now rewrite Hne.
    + now rewrite IH.
Qed.

Lemma dict_get_del_eq (k : string) (d : dict) :
  dict_get k (dict_del k d) = None.
Proof.
  induction d as [|[k' v'] d IH]; simpl; auto.
  destruct (String.eqb k k') eqn:E; simpl; auto. now rewrite E.
Qed.

Lemma dict_get_del_ne (k k' : string) (d : dict) :
  k <> k' -> dict_get k (dict_del k' d) = dict_get k d.
Proof.
  intros Hne. induction d as [|[k0 v0] d IH]; simpl; auto.
  destruct (String.eqb k' k0) eqn:E; simpl.
  - apply String.eqb_eq in E. subst k0.
    apply String.eqb_neq in Hne. now rewrite Hne.
  - now rewrite IH.
Qed.

Lemma dict_get_not_key (k : string) (d : dict) :
  ~ In k (dict_keys d) -> dict_get k d = None.
Proof.
  induction d as [|[k' v'] d IH]; simpl; auto.
  intros Hn. destruct (String.eqb k k') eqn:E.
  - apply String.eqb_eq in E. subst. tauto.
  - apply IH. tauto.
Qed.

Lemma dict_get_key (k : string) (d : dict) :
  In k (dict_keys d) -> exists v, dict_get k d = Some v.
Proof.
  induction d as [|[k' v'] d IH]; simpl; [tauto|].
  intros [Hk|Hk].
  - subst. rewrite String.eqb_refl. eauto.
  - destruct (String.eqb k k'); eauto.
Qed.

Lemma dict_get_Some_key (k : string) (v : value) (d : dict) :
  dict_get k d = Some v -> In k (dict_keys d).
Proof.
  induction d as [|[k' v'] d IH]; simpl; [discriminate|].
  destruct (String.eqb k k') eqn:E.
  - apply String.eqb_eq in E. auto.
  - auto.
Qed.

Lemma dict_get_app (k : string) (d1 d2 : dict) :
  dict_get k (d1 ++ d2)%list =
  match dict_get k d1 with Some v => Some v | None => dict_get k d2 end.
Proof.
  induction d1 as [|[k' v'] d1 IH]; simpl; auto.
  destruct (String.eqb k k'); auto.
Qed.

(** [{**d1, **d2}] looks a key up in [d2] first. *)
Lemma dict_get_update (k : string) (d1 d2 : dict) :
  NoDup (dict_keys d2) ->
  dict_get k (dict_update d1 d2) =
  match dict_get k d2 with Some v => Some v | None => dict_get k d1 end.
Proof.
  unfold dict_update. revert d1.
  induction d2 as [|[k2 v2] d2 IH]; intros d1 Hnd; simpl; auto.
  inversion Hnd as [|? ? Hnotin Hnd']; subst.
  rewrite IH by assumption.
  destruct (String.eqb k k2) eqn:E.
  - apply String.eqb_eq in E. subst k2.
    rewrite (dict_get_not_key k d2 Hnotin). apply dict_get_set_eq.
  - apply String.eqb_neq in E. now rewrite dict_get_set_ne.
Qed.

Lemma lstrip_head (p : ascii -> bool) (s : string) :
  match lstrip p s with
  | EmptyString => True
  | String c _ => p c = false
  end.
Proof.
  induction s as [|c s IH]; simpl; auto.
  destruct (p c) eqn:E; simpl; auto.
Qed.

Lemma lstrip_decompose (p : ascii -> bool) (s : string) :
  exists pre, s = (pre ++ lstrip p s)%string /\
              forallb p (list_ascii_of_string pre) = true.
Proof.
  induction s as [|c s [pre [IH1 IH2]]]; simpl.
  - exists EmptyString. auto.
  - destruct (p c) eqn:E.
    + exists (String c pre). simpl. rewrite E, IH2. split; auto. now f_equal.
    + exists EmptyString. auto.
Qed.

Lemma rstrip_decompose (p : ascii -> bool) (s : string) :
  exists suf, s = (rstrip p s ++ suf)%string /\
              forallb p (list_ascii_of_string suf) = true.
Proof.
  induction s as [|c s [suf [IH1 IH2]]]; simpl.
  - exists EmptyString. auto.
  - destruct (rstrip p s) as [|c' r] eqn:Er.
    + destruct (p c) eqn:E.
      * exists (String c suf). simpl in *. rewrite E, IH2. split; auto.
        now f_equal.
      * exists suf. simpl in *. split; auto. now f_equal.
    + exists suf. split; auto. simpl. now f_equal.
Qed.

(** The last character of a non-empty string *)
Fixpoint last_char (s : string) : option ascii :=
  match s with
  | EmptyString => None
  | String c EmptyString => Some c
  | String _ s' => last_char s'
  end.

Lemma rstrip_last (p : ascii -> bool) (s : string) :
  match last_char (rstrip p s) with
  | None => rstrip p s = EmptyString
  | Some c => p c = false
  end.
Proof.
  induction s as [|c s IH]; simpl; auto.
  destruct (rstrip p s) as [|c' r] eqn:Er.
  - destruct (p c) eqn:E; simpl; auto.
  - change (last_char (String c (String c' r))) with (last_char (String c' r)).
    destruct (last_char (String c' r)); [exact IH | discriminate IH].
Qed.

Lemma rstrip_head (p : ascii -> bool) (s : string) :
  match s with
  | EmptyString => True
  | String c _ =>
      p c = false ->
      match rstrip p s with
      | EmptyString => False
      | String c' _ => c' = c
      end
  end.
Proof.
  destruct s as [|c s]; simpl; auto.
  intros E. destruct (rstrip p s); [rewrite E|]; reflexivity.
Qed.

Definition first_char (s : string) : option ascii :=
  match s with
  | EmptyString => None
  | String c _ => Some c
  end.

(** [s.strip(chars)] removes a run of [chars] at each end and leaves a
    string that neither starts nor ends with one of them. *)
Lemma strip_spec (p : ascii -> bool) (s : string) :
  exists pre suf,
    s = (pre ++ strip p s ++ suf)%string
    /\ forallb p (list_ascii_of_string pre) = true
    /\ forallb p (list_ascii_of_string suf) = true
    /\ (forall c, first_char (strip p s) = Some c -> p c = false)
    /\ (forall c, last_char (strip p s) = Some c -> p c = false).
Proof.
  destruct (lstrip_decompose p s) as [pre [Hs Hpre]].
  destruct (rstrip_decompose p (lstrip p s)) as [suf [Hl Hsuf]].
  exists pre, suf. unfold strip. repeat split; auto.
  - rewrite <- Hl. exact Hs.
  - intros c Hc. pose proof (lstrip_head p s) as Hh.
    pose proof (rstrip_head p (lstrip p s)) as Hr.
    destruct (lstrip p s) as [|c0 l0]; simpl in *; [discriminate|].
    specialize (Hr Hh).
    destruct (match rstrip p l0 with
              | EmptyString => if p c0 then EmptyString else String c0 EmptyString
              | String a s0 => String c0 (String a s0)
              end) as [|c1 r1]; [contradiction|].
    simpl in Hc. injection Hc as <-. now subst.
  - intros c Hc. pose proof (rstrip_last p (lstrip p s)) as Hr.
    rewrite Hc in Hr. exact Hr.
Qed.

Example strip_slashes : strip is_slash "/foo/bar/" = "foo/bar".
Proof. reflexivity. Qed.

Example strip_runs : strip is_slash "//foo//" = "foo".
Proof. reflexivity. Qed.

Example strip_only_slashes : strip is_slash "///" = "".
Proof. reflexivity. Qed.

Example strip_spaces : strip is_space " application/json  " = "application/json".
Proof. reflexivity. Qed.

Example lower_mixed : lower "Application/JSON" = "application/json".
Proof. reflexivity. Qed.

Example index_semicolon : index_char ";" "text/plain; q=1;" = Some 10%nat.
Proof. reflexivity. Qed.

Example remove_bearer : remove_all "Bearer " "Bearer badtoken" = "badtoken".
Proof. reflexivity. Qed.

Example remove_every_bearer :
  remove_all "Bearer " "Bearer a Bearer b" = "a b".
Proof. reflexivity. Qed.

Example update_order :
  dict_update [("a", VInt 1); ("b", VInt 2)] [("b", VInt 3); ("c", VInt 4)]
  = [("a", VInt 1); ("b", VInt 3); ("c", VInt 4)].
Proof. reflexivity. Qed.

End PyFacts.

(* ================================================================== *)
(** * Properties of options.py *)
(* ================================================================== *)

Module OptionsSpec.
Import Py PyFacts Options.

Lemma is_None_asdict_inner (v : value) :
  is_None (asdict_inner v) = is_None v.
Proof. destruct v; reflexivity. Qed.

(** [dataclasses.asdict] returns an equal value when no dataclass instance
    is inside. *)
Fixpoint asdict_inner_plain (v : value) : plain v = true -> asdict_inner v = v.
Proof.
  destruct v; simpl; intros Hp; try reflexivity; try discriminate.
  - f_equal. induction l as [|x l IH]; simpl in *; [reflexivity|].
    apply andb_prop in Hp as [Hx Hl].
    f_equal; [apply asdict_inner_plain; exact Hx | apply IH; exact Hl].
  - f_equal. induction d as [|[k x] d IH]; simpl in *; [reflexivity|].
    apply andb_prop in Hp as [Hx Hd].
    f_equal; [f_equal; apply asdict_inner_plain; exact Hx | apply IH; exact Hd].
Qed.

Lemma RuntimeOptions_asdict_keys (r : RuntimeOptions) :
  dict_keys (RuntimeOptions_asdict r) = RuntimeOptions_field_names.
Proof. reflexivity. Qed.

Lemma RuntimeOptions_asdict_get (r : RuntimeOptions) (k : string)
    (f : RuntimeOptions -> value) :
  In (k, f) RuntimeOptions_fields ->
  dict_get k (RuntimeOptions_asdict r) = Some (asdict_inner (f r)).
Proof.
  unfold RuntimeOptions_fields. simpl.
  intros Hin.
  repeat (destruct Hin as [Hin|Hin];
          [injection Hin as <- <-; reflexivity|]).
  contradiction.
Qed.

Lemma field_name_in (k : string) (f : RuntimeOptions -> value) :
  In (k, f) RuntimeOptions_fields -> In k RuntimeOptions_field_names.
Proof. intros Hin. apply (in_map fst) in Hin. exact Hin. Qed.

Lemma existsb_eqb_In (k : string) (ks : list string) :
  existsb (String.eqb k) ks = true <-> In k ks.
Proof.
  rewrite existsb_exists. split.
  - intros [x [Hin He]]. apply String.eqb_eq in He. now subst.
  - intros Hin. exists k. split; auto. apply String.eqb_refl.
Qed.

(** What the fallback loop leaves under [k] once it has visited [k], given
    what was there before. *)
Definition fallback_value (p g : dict) (k : string) (current : option value)
    : option value :=
  match dict_get k p with
  | Some pv => if is_None pv && dict_mem k g then dict_get k g else current
  | None => current
  end.

Lemma fallback_step_get (p g m : dict) (key k : string) :
  dict_get k (fallback_step p g m key) =
  if String.eqb k key then fallback_value p g k (dict_get k m)
  else dict_get k m.
Proof.
  unfold fallback_step, fallback_value.
  destruct (String.eqb k key) eqn:E.
  - apply String.eqb_eq in E. subst key.
    destruct (dict_get k p) as [pv|]; auto.
    destruct (is_None pv && dict_mem k g) eqn:C; auto.
    apply andb_prop in C as [_ C]. unfold dict_mem in C.
    destruct (dict_get k g); [apply dict_get_set_eq | discriminate].
  - apply String.eqb_neq in E.
    destruct (dict_get key p) as [pv|]; auto.
    destruct (is_None pv && dict_mem key g); auto.
    destruct (dict_get key g); auto.
    now apply dict_get_set_ne.
Qed.

Lemma fallback_value_idem (p g : dict) (k : string) (c : option value) :
  fallback_value p g k (fallback_value p g k c) = fallback_value p g k c.
Proof.
  unfold fallback_value. destruct (dict_get k p) as [pv|]; auto.
  destruct (is_None pv && dict_mem k g); auto.
Qed.

Lemma fallback_loop_get (p g : dict) (ks : list string) (m : dict) (k : string) :
  dict_get k (fold_left (fallback_step p g) ks m) =
  if existsb (String.eqb k) ks then fallback_value p g k (dict_get k m)
  else dict_get k m.
Proof.
  revert m. induction ks as [|key ks IH]; intros m; simpl; auto.
  rewrite IH, fallback_step_get.
  destruct (String.eqb k key); simpl.
  - destruct (existsb (String.eqb k) ks); auto using fallback_value_idem.
  - reflexivity.
Qed.

Section Merge.
Context {A : Type} `{Fields A}.
Variables (self : A) (g : RuntimeOptions).
Hypothesis distinct : NoDup (dict_keys (asdict self)).

Let provider_options := asdict self.
Let global_options := RuntimeOptions_asdict g.
Let merged := RuntimeOptions_asdict_with_global_options self g.

Lemma merged_get (k : string) :
  dict_get k merged =
  match dict_get k provider_options with
  | Some pv =>
      if is_None pv && dict_mem k global_options
      then dict_get k global_options else Some pv
  | None => dict_get k global_options
  end.
Proof.
  unfold merged, RuntimeOptions_asdict_with_global_options.
  fold provider_options global_options.
  rewrite fallback_loop_get, dict_get_update by exact distinct.
  unfold fallback_value.
  destruct (dict_get k provider_options) as [pv|] eqn:Ep.
  - apply dict_get_Some_key in Ep. apply existsb_eqb_In in Ep.
    now rewrite Ep.
  - now destruct (existsb _ _).
Qed.

Lemma provider_get_base (k : string) (f : RuntimeOptions -> value) :
  In (k, f) RuntimeOptions_fields ->
  dict_get k provider_options = Some (asdict_inner (f (runtime self))).
Proof.
  intros Hin. unfold provider_options, asdict.
  rewrite dict_get_app, (RuntimeOptions_asdict_get _ _ _ Hin). reflexivity.
Qed.

Lemma merged_get_base (k : string) (f : RuntimeOptions -> value) :
  In (k, f) RuntimeOptions_fields ->
  dict_get k merged =
  Some (asdict_inner (if is_None (f (runtime self)) then f g
                      else f (runtime self))).
Proof.
  intros Hin. rewrite merged_get, (provider_get_base _ _ Hin).
  unfold global_options, dict_mem.
  rewrite (RuntimeOptions_asdict_get g _ _ Hin), is_None_asdict_inner.
  now destruct (is_None (f (runtime self))).
Qed.

Lemma merged_get_specific (k : string) :
  ~ In k RuntimeOptions_field_names ->
  dict_get k merged = dict_get k provider_options.
Proof.
  intros Hn. rewrite merged_get.
  assert (Hg : dict_get k global_options = None).
  { apply dict_get_not_key. exact Hn. }
  unfold dict_mem. rewrite Hg.
  destruct (dict_get k provider_options) as [pv|]; auto.
  now rewrite andb_false_r.
Qed.
End Merge.

Lemma asdict_distinct_RuntimeOptions (self : RuntimeOptions) :
  NoDup (dict_keys (asdict self)).
Proof.
  cbn. repeat (constructor; [simpl; intuition discriminate|]). constructor.
Qed.

Lemma asdict_distinct_PubSubOptions (self : PubSubOptions) :
  NoDup (dict_keys (asdict self)).
Proof.
  cbn. repeat (constructor; [simpl; intuition discriminate|]). constructor.
Qed.

Lemma asdict_distinct_DatabaseOptions (self : DatabaseOptions) :
  NoDup (dict_keys (asdict self)).
Proof.
  cbn. repeat (constructor; [simpl; intuition discriminate|]). constructor.
Qed.

Lemma asdict_distinct_HttpsOptions (self : HttpsOptions) :
  NoDup (dict_keys (asdict self)).
Proof.
  cbn. repeat (constructor; [simpl; intuition discriminate|]). constructor.
Qed.

(** ** The merge *)

Lemma dict_get_In (k : string) (v : value) (d : dict) :
  NoDup (dict_keys d) -> In (k, v) d -> dict_get k d = Some v.
Proof.
  induction d as [|[k' v'] d IH]; simpl; [tauto|].
  intros Hnd [Heq|Hin].
  - injection Heq as -> ->. now rewrite String.eqb_refl.
  - inversion Hnd as [|? ? Hnotin Hnd']; subst.
    destruct (String.eqb k k') eqn:E; [|now apply IH].
    apply String.eqb_eq in E. subst k'. exfalso. apply Hnotin.
    apply (in_map fst) in Hin. exact Hin.
Qed.

Lemma asdict_get_specific {A : Type} `{Fields A} (self : A) (k : string)
    (v : value) :
  NoDup (dict_keys (asdict self)) ->
  In (k, v) (specific_fields self) ->
  dict_get k (asdict self) = Some (asdict_inner v)
  /\ ~ In k RuntimeOptions_field_names.
Proof.
  intros Hnd Hin. split.
  - apply dict_get_In; [exact Hnd|]. unfold asdict. apply in_or_app. right.
    apply (in_map (fun kv => (fst kv, asdict_inner (snd kv)))) in Hin.
    exact Hin.
  - intros Hbase. unfold asdict, dict_keys in Hnd. rewrite map_app in Hnd.
    apply NoDup_app_remove_l in Hnd as Hs.
    assert (Hk : In k (map fst (map (fun kv => (fst kv, asdict_inner (snd kv)))
                                    (specific_fields self)))).
    { rewrite map_map. simpl. apply (in_map fst) in Hin. exact Hin. }
    revert Hnd Hbase Hk. generalize (map fst
      (map (fun kv => (fst kv, asdict_inner (snd kv))) (specific_fields self))).
    change (map fst (RuntimeOptions_asdict (runtime self)))
      with RuntimeOptions_field_names.
    induction RuntimeOptions_field_names as [|n ns IH]; simpl; [tauto|].
    intros l Hnd [->|Hbase] Hk.
    + inversion Hnd as [|? ? Hnotin _]; subst. apply Hnotin.
      apply in_or_app. auto.
    + inversion Hnd; subst. eapply IH; eauto.
Qed.

(** C1, as stated, fails. A dataclass instance in a field does not reach
    the merged dictionary as it is: [dataclasses.asdict] renders it as a
    dictionary of its fields. This happens to the trigger-specific field
    [cors] of an HTTPS record that holds a [CorsOptions], and to the base
    field [secrets] when the list holds a [SecretParam]. *)
Lemma merge_rendering_counterexample :
  ~ (forall (self : HttpsOptions) (g : RuntimeOptions) k v,
       In (k, v) (specific_fields self) ->
       dict_get k (RuntimeOptions_asdict_with_global_options self g) = Some v)
  /\ ~ (forall (self g : RuntimeOptions) k f,
          In (k, f) RuntimeOptions_fields ->
          is_None (f self) = false ->
          dict_get k (RuntimeOptions_asdict_with_global_options self g)
          = Some (f self)).
Proof.
  split; intros Hclaim.
  - specialize (Hclaim
      (mkHttpsOptions RuntimeOptions_default VNone
                      (CorsOptions (VStr "*") VNone))
      RuntimeOptions_default "cors" (CorsOptions (VStr "*") VNone)).
    simpl in Hclaim. specialize (Hclaim (or_intror (or_introl eq_refl))).
    vm_compute in Hclaim. discriminate Hclaim.
  - specialize (Hclaim
      (mkRuntimeOptions VNone VNone VNone VNone VNone VNone VNone VNone
                        VNone VNone VNone VNone
                        (VList [SecretParam "DB_PASSWORD"]))
      RuntimeOptions_default "secrets" secrets).
    simpl in Hclaim.
    assert (Hin : ("secrets", secrets) = ("secrets", secrets)) by reflexivity.
    specialize (Hclaim ltac:(tauto) eq_refl).
    vm_compute in Hclaim. discriminate Hclaim.
Qed.

(** C1, amended. Merge contract of
    [RuntimeOptions._asdict_with_global_options], for an instance of any
    option class. For every field declared on [RuntimeOptions]: when the
    per-function value is not [None], the merged dictionary holds that
    value as [dataclasses.asdict] renders it, whatever the global record
    holds, and a reset sentinel is passed through as it is; when it is
    [None], the merged dictionary holds the value of the global record,
    rendered the same way, [None] included. Every trigger-specific field
    has its own value, rendered. The rendering leaves a value with no
    dataclass instance inside as it is. *)
Theorem merge_contract {A : Type} `{Fields A} (self : A) (g : RuntimeOptions) :
  NoDup (dict_keys (asdict self)) ->
  let merged := RuntimeOptions_asdict_with_global_options self g in
  (forall k f, In (k, f) RuntimeOptions_fields ->
     let local := f (runtime self) in
     (is_None local = false ->
        dict_get k merged = Some (asdict_inner local))
     /\ (is_None local = false -> plain local = true ->
        dict_get k merged = Some local)
     /\ (forall d, local = VSentinel d ->
        dict_get k merged = Some (VSentinel d))
     /\ (is_None local = true ->
        dict_get k merged = Some (asdict_inner (f g)))
     /\ (is_None local = true -> plain (f g) = true ->
        dict_get k merged = Some (f g)))
  /\ (forall k v, In (k, v) (specific_fields self) ->
        dict_get k merged = Some (asdict_inner v)
        /\ (plain v = true -> dict_get k merged = Some v))
  /\ (forall k, ~ In k RuntimeOptions_field_names ->
        dict_get k merged = dict_get k (asdict self)).
Proof.
  intros Hnd merged. split; [|split].
  - intros k f Hin local.
    pose proof (merged_get_base self g Hnd k f Hin) as Hm.
    fold merged in Hm. fold local in Hm.
    repeat split.
    + intros Hl. now rewrite Hl in Hm.
    + intros Hl Hp. rewrite Hl in Hm. now rewrite asdict_inner_plain in Hm.
    + intros d Hd. rewrite Hd in Hm. exact Hm.
    + intros Hl. now rewrite Hl in Hm.
    + intros Hl Hp. rewrite Hl in Hm. now rewrite asdict_inner_plain in Hm.
  - intros k v Hin.
    destruct (asdict_get_specific self k v Hnd Hin) as [Hget Hnotbase].
    assert (Hm : dict_get k merged = Some (asdict_inner v)).
    { unfold merged. rewrite (merged_get_specific self g Hnd k Hnotbase).
      exact Hget. }
    split; [exact Hm|]. intros Hp. now rewrite asdict_inner_plain in Hm.
  - intros k Hn. now apply merged_get_specific.
Qed.

Lemma merge_contract_witness :
  let self :=
    mkPubSubOptions
      (mkRuntimeOptions VNone (VInt 512) VNone VNone VNone VNone VNone
                        VNone VNone VNone VNone VNone USE_DEFAULT)
      (Some true) "hello-world" in
  let g :=
    mkRuntimeOptions (VStr "us-central1") (VInt 256) VNone VNone VNone VNone
                     VNone VNone VNone VNone VNone VNone (VList [VStr "KEY"]) in
  let merged := RuntimeOptions_asdict_with_global_options self g in
  dict_get "memory" merged = Some (VInt 512)
  /\ dict_get "secrets" merged = Some USE_DEFAULT
  /\ dict_get "region" merged = Some (VStr "us-central1")
  /\ dict_get "cpu" merged = Some VNone
  /\ dict_get "topic" merged = Some (VStr "hello-world").
Proof.
  intros self g merged.
  destruct (merge_contract self g (asdict_distinct_PubSubOptions self))
    as (Hbase & Hspecific & _).
  refine (conj _ (conj _ (conj _ (conj _ _)))).
  - destruct (Hbase "memory" memory) as (_ & H2 & _); [simpl; tauto|].
    exact (H2 eq_refl eq_refl).
  - destruct (Hbase "secrets" secrets) as (_ & _ & H3 & _); [simpl; tauto|].
    exact (H3 _ eq_refl).
  - destruct (Hbase "region" region) as (_ & _ & _ & _ & H5); [simpl; tauto|].
    exact (H5 eq_refl eq_refl).
  - destruct (Hbase "cpu" cpu) as (_ & _ & _ & _ & H5); [simpl; tauto|].
    exact (H5 eq_refl eq_refl).
  - refine (proj2 (Hspecific "topic" (VStr "hello-world") _) eq_refl).
    simpl. tauto.
Defined.

(** [HttpsOptions] removes [cors] from what the base method returns. *)
Lemma https_merge_drops_cors (self : HttpsOptions) (g : RuntimeOptions) :
  dict_get "cors" (asdict_with_global_options self g) = None.
Proof. apply dict_get_del_eq. Qed.

(** ** Secrets *)

Lemma secret_envs_of_sentinel_instance (d : string) :
  secret_envs_of (VSentinel d) = VList [].
Proof. reflexivity. Qed.

(** C2. The code does not keep the reset sentinel on
    [secretEnvironmentVariables]: [options.secrets is util.Sentinel]
    compares with the class, which no instance is, so [USE_DEFAULT] (and
    every instance of the sentinel class) leaves the empty list that
    [secret_envs] starts with. Evaluated on [RuntimeOptions(secrets =
    USE_DEFAULT)._endpoint(func_name = "f")] with the initial global
    record. *)
Theorem reset_secrets_become_empty_list :
  (forall d, secret_envs_of (VSentinel d) = VList [])
  /\ exists ep,
       RuntimeOptions_endpoint
         (mkRuntimeOptions VNone VNone VNone VNone VNone VNone VNone
                           VNone VNone VNone VNone VNone USE_DEFAULT)
         RuntimeOptions_default [("func_name", VStr "f")] = Ok ep
       /\ secretEnvironmentVariables ep = VList []
       /\ isinstance_Sentinel (secretEnvironmentVariables ep) = false.
Proof.
  split; [exact secret_envs_of_sentinel_instance|].
  eexists. split; [vm_compute; reflexivity|]. split; reflexivity.
Qed.

(** The same on every record whose merged [secrets] is an instance of the
    sentinel class, for a class that keeps the base merge. *)
Lemma sentinel_secrets_lost {A : Type} `{OptionsClass A}
    (self : A) (g : RuntimeOptions) (kwargs : dict) (ep : ManifestEndpoint)
    (d : string) :
  asdict_with_global_options self g =
    RuntimeOptions_asdict_with_global_options self g ->
  NoDup (dict_keys (asdict self)) ->
  secrets (runtime self) = VSentinel d ->
  RuntimeOptions_endpoint self g kwargs = Ok ep ->
  secretEnvironmentVariables ep = VList [].
Proof.
  intros Hm Hnd Hs. unfold RuntimeOptions_endpoint.
  destruct (dict_item "func_name" kwargs) as [fn|]; simpl; [|discriminate].
  destruct (assert (negb (is_None fn))); simpl; [|discriminate].
  destruct (vpc_of _ _); simpl; [|discriminate].
  intros Hep. injection Hep as <-. simpl.
  unfold kwarg. rewrite Hm.
  rewrite (merged_get_base self g Hnd "secrets" secrets) by (simpl; tauto).
  rewrite Hs. reflexivity.
Qed.

(** ** The global default record *)

(** C3, as stated, fails: a call that passes no [cpu] leaves ["gcf_gen1"]
    on the new global record, not [None]. *)
Lemma set_global_options_cpu_counterexample :
  ~ (forall (kwargs : global_kwargs) (old : RuntimeOptions),
       kw_cpu kwargs = None -> cpu (set_global_options kwargs old) = VNone).
Proof.
  intros Hclaim.
  specialize (Hclaim
    (mkGlobalKwargs None None None None None None None
                    None None None None None None)
    RuntimeOptions_default eq_refl).
  discriminate Hclaim.
Qed.

(** The parameters of [set_global_options] with the field each one fills. *)
Definition global_params
    : list (string * (global_kwargs -> option value)
            * (RuntimeOptions -> value)) :=
  [ ("region", kw_region, region);
    ("memory", kw_memory, memory);
    ("timeout_sec", kw_timeout_sec, timeout_sec);
    ("min_instances", kw_min_instances, min_instances);
    ("max_instances", kw_max_instances, max_instances);
    ("concurrency", kw_concurrency, concurrency);
    ("cpu", kw_cpu, cpu);
    ("vpc_connector", kw_vpc_connector, vpc_connector);
    ("vpc_connector_egress_settings", kw_vpc_connector_egress_settings,
     vpc_connector_egress_settings);
    ("service_account", kw_service_account, service_account);
    ("ingress", kw_ingress, ingress);
    ("labels", kw_labels, labels);
    ("secrets", kw_secrets, secrets) ].

(** C3, amended. [set_global_options] replaces the global record wholesale:
    the new record does not depend on the old one, a field whose argument
    is passed holds that argument, and a field whose argument is not passed
    is [None], except [cpu], which is ["gcf_gen1"]. *)
Theorem set_global_options_replaces (kwargs : global_kwargs) :
  (forall old old',
     set_global_options kwargs old = set_global_options kwargs old')
  /\ (forall old name kw f, In (name, kw, f) global_params ->
       (forall v, kw kwargs = Some v ->
          f (set_global_options kwargs old) = v)
       /\ (kw kwargs = None ->
          f (set_global_options kwargs old) =
          if String.eqb name "cpu" then VStr "gcf_gen1" else VNone)).
Proof.
  split; [reflexivity|].
  intros old name kw f Hin. unfold global_params in Hin. simpl in Hin.
  repeat (destruct Hin as [Hin|Hin];
          [injection Hin as <- <- <-; simpl; unfold param;
           split; [intros v Hv | intros Hv]; rewrite Hv; reflexivity|]).
  contradiction.
Qed.

Lemma set_global_options_replaces_witness :
  let kwargs :=
    mkGlobalKwargs (Some (VStr "europe-west1")) None None None None None None
                   None None None None None None in
  let old :=
    mkRuntimeOptions VNone (VInt 512) VNone VNone VNone VNone (VInt 2)
                     VNone VNone VNone VNone VNone VNone in
  region (set_global_options kwargs old) = VStr "europe-west1"
  /\ memory (set_global_options kwargs old) = VNone
  /\ cpu (set_global_options kwargs old) = VStr "gcf_gen1".
Proof.
  intros kwargs old.
  destruct (set_global_options_replaces kwargs) as [_ Hfields].
  refine (conj _ (conj _ _)).
  - destruct (Hfields old "region" kw_region region) as [Hset _];
      [simpl; tauto|].
    exact (Hset _ eq_refl).
  - destruct (Hfields old "memory" kw_memory memory) as [_ Hunset];
      [simpl; tauto|].
    exact (Hunset eq_refl).
  - destruct (Hfields old "cpu" kw_cpu cpu) as [_ Hunset];
      [simpl; tauto|].
    exact (Hunset eq_refl).
Defined.

(** ** Manifest entries *)

(** The declared type of [vpc_connector_egress_settings]: [None] or a member
    of [VpcEgressSetting]. *)
Definition egress_typed (r : RuntimeOptions) : bool :=
  match vpc_connector_egress_settings r with
  | VNone | VEnum _ _ => true
  | _ => false
  end.

(** [RuntimeOptions._endpoint] returns an entry, with no event trigger,
    when it is given a function name and the egress settings have their
    declared type. *)
Lemma RuntimeOptions_endpoint_returns {A : Type} `{OptionsClass A}
    (self : A) (g : RuntimeOptions) (kwargs : dict) (func_name : value) :
  asdict_with_global_options self g =
    RuntimeOptions_asdict_with_global_options self g ->
  NoDup (dict_keys (asdict self)) ->
  dict_get "func_name" kwargs = Some func_name ->
  is_None func_name = false ->
  egress_typed (runtime self) = true ->
  egress_typed g = true ->
  exists ep, RuntimeOptions_endpoint self g kwargs = Ok ep
             /\ entryPoint ep = func_name
             /\ eventTrigger ep = None.
Proof.
  intros Hm Hnd Hfn Hnn Hes Heg. unfold RuntimeOptions_endpoint, dict_item.
  rewrite Hfn. simpl. rewrite Hnn. simpl.
  rewrite Hm.
  assert (Hv : exists v,
    vpc_of (kwarg "vpc_connector"
              (RuntimeOptions_asdict_with_global_options self g))
           (kwarg "vpc_connector_egress_settings"
              (RuntimeOptions_asdict_with_global_options self g)) = Ok v).
  { unfold kwarg.
    rewrite (merged_get_base self g Hnd "vpc_connector" vpc_connector)
      by (simpl; tauto).
    rewrite (merged_get_base self g Hnd "vpc_connector_egress_settings"
                             vpc_connector_egress_settings)
      by (simpl; tauto).
    unfold vpc_of.
    match goal with |- context [negb (is_None ?c)] =>
      destruct (negb (is_None c)) end; [|eauto].
    unfold egress_typed in Hes, Heg.
    destruct (vpc_connector_egress_settings (runtime self));
      try discriminate; simpl; eauto.
    destruct (vpc_connector_egress_settings g);
      try discriminate; simpl; eauto. }
  destruct Hv as [v Hv]. rewrite Hv. simpl.
  eexists. split; [reflexivity|]. split; reflexivity.
Qed.

Lemma DatabaseOptions_keeps_base_merge (self : DatabaseOptions)
    (g : RuntimeOptions) :
  asdict_with_global_options self g =
    RuntimeOptions_asdict_with_global_options self g.
Proof. cbv [asdict_with_global_options DatabaseOptions_Class]. reflexivity. Qed.

Lemma PubSubOptions_keeps_base_merge (self : PubSubOptions)
    (g : RuntimeOptions) :
  asdict_with_global_options self g =
    RuntimeOptions_asdict_with_global_options self g.
Proof. cbv [asdict_with_global_options PubSubOptions_Class]. reflexivity. Qed.

(** C5. The manifest entry of a database trigger, built with a function
    name and an event type: it carries an event trigger in which [instance]
    is under the path-pattern filters when its value contains ['*'] and
    under the exact filters otherwise (an absent [instance] counts as
    ["*"]), never under both, and in which [ref] is under the path-pattern
    filters only, holding [reference] without the ['/'] characters at its
    two ends. *)
Theorem database_filters (self : DatabaseOptions) (g : RuntimeOptions)
    (kwargs : dict) (func_name event_type : value) :
  dict_get "func_name" kwargs = Some func_name ->
  is_None func_name = false ->
  dict_get "event_type" kwargs = Some event_type ->
  is_None event_type = false ->
  egress_typed (database_runtime self) = true ->
  egress_typed g = true ->
  exists ep t,
    DatabaseOptions_endpoint self g kwargs = Ok ep
    /\ eventTrigger ep = Some t
    /\ eventType t = event_type
    /\ (forall i, instance self = Some i ->
         if contains_char "*"%char i
         then dict_get "instance" (eventFilterPathPatterns t) = Some (VStr i)
              /\ dict_get "instance" (eventFilters t) = None
         else dict_get "instance" (eventFilters t) = Some (VStr i)
              /\ dict_get "instance" (eventFilterPathPatterns t) = None)
    /\ (instance self = None ->
         dict_get "instance" (eventFilterPathPatterns t) = Some (VStr "*")
         /\ dict_get "instance" (eventFilters t) = None)
    /\ dict_get "ref" (eventFilters t) = None
    /\ exists ref,
         dict_get "ref" (eventFilterPathPatterns t) = Some (VStr ref)
         /\ ref = strip is_slash (reference self)
         /\ (exists pre suf,
               reference self = (pre ++ ref ++ suf)%string
               /\ forallb is_slash (list_ascii_of_string pre) = true
               /\ forallb is_slash (list_ascii_of_string suf) = true)
         /\ first_char ref <> Some "/"%char
         /\ last_char ref <> Some "/"%char.
Proof.
  intros Hfn Hnn Het Hen Hes Heg.
  destruct (RuntimeOptions_endpoint_returns self g kwargs func_name
              (DatabaseOptions_keeps_base_merge self g)
              (asdict_distinct_DatabaseOptions self) Hfn Hnn Hes Heg)
    as [base [Hbase _]].
  exists (with_eventTrigger base (DatabaseOptions_event_trigger self event_type)),
         (DatabaseOptions_event_trigger self event_type).
  split.
  { unfold DatabaseOptions_endpoint, dict_item. rewrite Het. cbn [bind].
    rewrite Hen. cbn [negb assert bind]. rewrite Hbase. reflexivity. }
  split; [reflexivity|].
  unfold DatabaseOptions_event_trigger.
  split; [now destruct (contains_char _ _)|].
  split.
  { intros i Hi. rewrite Hi. destruct (contains_char "*" i); simpl; auto. }
  split.
  { intros Hi. rewrite Hi. simpl. auto. }
  split; [now destruct (contains_char _ _)|].
  exists (strip is_slash (reference self)).
  split; [now destruct (contains_char _ _)|].
  split; [reflexivity|].
  destruct (strip_spec is_slash (reference self))
    as (pre & suf & Hs & Hpre & Hsuf & Hfirst & Hlast).
  split; [exists pre, suf; auto|].
  split; intros Hc; [apply Hfirst in Hc | apply Hlast in Hc]; discriminate Hc.
Qed.

Lemma database_filters_witness :
  let kwargs := [("func_name", VStr "on_write");
                 ("event_type", VStr "google.firebase.database.ref.v1.written")] in
  let wild := mkDatabaseOptions RuntimeOptions_default "/foo/bar/" (Some "prod-*") in
  let exact := mkDatabaseOptions RuntimeOptions_default "/foo/bar/" (Some "prod-1") in
  (exists ep t,
     DatabaseOptions_endpoint wild RuntimeOptions_default kwargs = Ok ep
     /\ eventTrigger ep = Some t
     /\ dict_get "instance" (eventFilterPathPatterns t) = Some (VStr "prod-*")
     /\ dict_get "instance" (eventFilters t) = None
     /\ dict_get "ref" (eventFilterPathPatterns t) = Some (VStr "foo/bar"))
  /\ (exists ep t,
     DatabaseOptions_endpoint exact RuntimeOptions_default kwargs = Ok ep
     /\ eventTrigger ep = Some t
     /\ dict_get "instance" (eventFilters t) = Some (VStr "prod-1")
     /\ dict_get "instance" (eventFilterPathPatterns t) = None
     /\ dict_get "ref" (eventFilterPathPatterns t) = Some (VStr "foo/bar")).
Proof.
  intros kwargs wild exact. split.
  - destruct (database_filters wild RuntimeOptions_default kwargs
                (VStr "on_write")
                (VStr "google.firebase.database.ref.v1.written")
                eq_refl eq_refl eq_refl eq_refl eq_refl eq_refl)
      as (ep & t & Hep & Ht & _ & Hi & _ & _ & ref & Href & Hstrip & _).
    exists ep, t. specialize (Hi "prod-*" eq_refl). simpl in Hi.
    destruct Hi as [Hp He]. rewrite Hstrip in Href.
    refine (conj Hep (conj Ht (conj Hp (conj He Href)))).
  - destruct (database_filters exact RuntimeOptions_default kwargs
                (VStr "on_write")
                (VStr "google.firebase.database.ref.v1.written")
                eq_refl eq_refl eq_refl eq_refl eq_refl eq_refl)
      as (ep & t & Hep & Ht & _ & Hi & _ & _ & ref & Href & Hstrip & _).
    exists ep, t. specialize (Hi "prod-1" eq_refl). simpl in Hi.
    destruct Hi as [He Hp]. rewrite Hstrip in Href.
    refine (conj Hep (conj Ht (conj He (conj Hp Href)))).
Defined.

(** C4. The manifest entry of a Pub/Sub function is the base entry:
    [PubSubOptions] inherits [RuntimeOptions._endpoint], which builds no
    event trigger and reads neither [topic] nor [retry]; the decorator
    passes no event type. Evaluated on
    [on_message_published(topic = "hello-world")] applied to a function
    named [example]. *)
Theorem pubsub_endpoint_has_no_event_trigger :
  (forall options g func_name,
     match PubSub.on_message_published options g func_name with
     | Ok ep => eventTrigger ep = None
     | Raise _ => True
     end)
  /\ PubSub.on_message_published
       (mkPubSubOptions RuntimeOptions_default (Some true) "hello-world")
       RuntimeOptions_default "example"
     = Ok (mkManifestEndpoint (VStr "example") VNone VNone VNone VNone VNone
                              VNone VNone VNone VNone VNone (VList []) VNone
                              None).
Proof.
  split; [|vm_compute; reflexivity].
  intros options g func_name.
  unfold PubSub.on_message_published, PubSubOptions_endpoint,
    RuntimeOptions_endpoint.
  destruct (dict_item _ _); simpl; auto.
  destruct (assert _); simpl; auto.
  destruct (vpc_of _ _); simpl; auto.
Qed.

End OptionsSpec.

(* ================================================================== *)
(** * Properties of pubsub.py *)
(* ================================================================== *)

Module PubSubSpec.
Import Py PyFacts PubSub.

(** The keys of a dictionary are pairwise different. *)
Fixpoint distinct (ks : list string) : bool :=
  match ks with
  | [] => true
  | k :: ks' => negb (existsb (String.eqb k) ks') && distinct ks'
  end.

Lemma distinct_NoDup (ks : list string) : distinct ks = true -> NoDup ks.
Proof.
  induction ks as [|k ks IH]; simpl; intros Hd; constructor.
  - apply andb_prop in Hd as [Hk _]. intros Hin.
    apply OptionsSpec.existsb_eqb_In in Hin. rewrite Hin in Hk. discriminate.
  - apply IH. now apply andb_prop in Hd as [_ Hd].
Qed.

Lemma keys_set (k k' : string) (v : value) (d : dict) :
  In k (dict_keys (dict_set k' v d)) -> k = k' \/ In k (dict_keys d).
Proof.
  induction d as [|[k0 v0] d IH]; simpl.
  - intros [<-|[]]. auto.
  - destruct (String.eqb k' k0) eqn:E; simpl; intros [Hk|Hk]; auto.
    destruct (IH Hk); auto.
Qed.

Lemma keys_del (k k' : string) (d : dict) :
  In k (dict_keys (dict_del k' d)) -> k <> k' /\ In k (dict_keys d).
Proof.
  induction d as [|[k0 v0] d IH]; simpl; [tauto|].
  destruct (String.eqb k' k0) eqn:E; simpl.
  - intros Hk. destruct (IH Hk). auto.
  - intros [Hk|Hk].
    + subst k0. apply String.eqb_neq in E. auto.
    + destruct (IH Hk). auto.
Qed.

Lemma dict_mem_true (k : string) (d : dict) :
  dict_mem k d = true -> exists v, dict_get k d = Some v.
Proof. unfold dict_mem. destruct (dict_get k d); [eauto | discriminate]. Qed.

Lemma dict_mem_false (k : string) (d : dict) :
  dict_mem k d = false -> dict_get k d = None.
Proof. unfold dict_mem. destruct (dict_get k d); [discriminate | auto]. Qed.

(** [{"data": x, **attrs}] *)
Lemma event_dict_get (attrs : dict) (x : value) (k : string) :
  NoDup (dict_keys attrs) ->
  dict_get k (dict_update [("data", x)] attrs) =
  match dict_get k attrs with
  | Some v => Some v
  | None => if String.eqb k "data" then Some x else None
  end.
Proof. intros Hnd. now rewrite dict_get_update. Qed.

Lemma bind_Ok {A B : Type} (c : result A) (k : A -> result B) (b : B) :
  bind c k = Ok b -> exists a, c = Ok a /\ k a = Ok b.
Proof. destruct c; simpl; [eauto | discriminate]. Qed.

(** The keys a Pub/Sub message has on the wire. *)
Definition wire_keys : list string :=
  ["data"; "attributes"; "messageId"; "message_id";
   "publishTime"; "publish_time"; "orderingKey"].

(** [dataclasses.asdict] of a message: the attributes the object has. *)
Definition Message_asdict (m : Message) : dict :=
  [("message_id", message_id m); ("publish_time", publish_time m);
   ("attributes", attributes m); ("data", data m);
   ("ordering_key", ordering_key m)].

(** The message dictionary of a raw event *)
Definition wire_message (raw : RawEvent) : option dict :=
  match raw_data raw with
  | VDict d =>
      match dict_get "message" d with
      | Some (VDict message_dict) => Some message_dict
      | _ => None
      end
  | _ => None
  end.

Ltac dict_get_simpl :=
  repeat first
    [ rewrite dict_get_set_eq
    | rewrite dict_get_set_ne by discriminate
    | rewrite dict_get_del_eq
    | rewrite dict_get_del_ne by discriminate ].

(** [message_dict] as [_message_handler] leaves it before it builds the
    message. *)
Definition cleaned (message_dict : dict) (publish_time : datetime) : dict :=
  let message_dict :=
    dict_set "publish_time" (VDatetime publish_time) message_dict in
  let message_dict := dict_del "messageId" message_dict in
  let message_dict := dict_del "publishTime" message_dict in
  let message_dict := dict_del "orderingKey" message_dict in
  dict_set "attributes"
           (dict_get_default "attributes" message_dict (VDict []))
           message_dict.

Lemma cleaned_keys (md : dict) (pt : datetime) (k : string) :
  forallb (fun k => existsb (String.eqb k) wire_keys) (dict_keys md) = true ->
  In k (dict_keys (cleaned md pt)) ->
  In k ["attributes"; "publish_time"; "message_id"; "data"].
Proof.
  intros Hwire Hk. unfold cleaned in Hk.
  apply keys_set in Hk as [->|Hk]; [simpl; auto|].
  apply keys_del in Hk as [Hn1 Hk].
  apply keys_del in Hk as [Hn2 Hk].
  apply keys_del in Hk as [Hn3 Hk].
  apply keys_set in Hk as [->|Hk]; [simpl; auto|].
  rewrite forallb_forall in Hwire. apply Hwire in Hk.
  apply OptionsSpec.existsb_eqb_In in Hk. simpl in Hk. simpl.
  intuition congruence.
Qed.

Lemma Message_call_cleaned (md : dict) (pt : datetime) (mid dv : value) :
  forallb (fun k => existsb (String.eqb k) wire_keys) (dict_keys md) = true ->
  dict_get "message_id" md = Some mid ->
  dict_get "data" md = Some dv ->
  Message_call (cleaned md pt) (dict_get_default "orderingKey" md VNone) =
  Ok {| message_id := mid;
        publish_time := VDatetime pt;
        attributes := dict_get_default "attributes" md (VDict []);
        data := dv;
        ordering_key := dict_get_default "orderingKey" md VNone |}.
Proof.
  intros Hwire Hmid Hdata. unfold Message_call.
  assert (Hno : dict_get "ordering_key" (cleaned md pt) = None).
  { apply dict_get_not_key. intros Hin.
    apply (cleaned_keys md pt _ Hwire) in Hin. simpl in Hin.
    intuition discriminate. }
  unfold dict_mem. rewrite Hno. unfold Message_init.
  assert (Hkeys :
    forallb (fun k => existsb (String.eqb k) Message_fields)
            (dict_keys (cleaned md pt
                        ++ [("ordering_key",
                             dict_get_default "orderingKey" md VNone)])%list)
    = true).
  { apply forallb_forall. intros k Hk. unfold dict_keys in Hk.
    rewrite map_app in Hk. apply in_app_or in Hk as [Hk|Hk].
    - apply (cleaned_keys md pt _ Hwire) in Hk.
      apply OptionsSpec.existsb_eqb_In. simpl in *. intuition.
    - simpl in Hk. destruct Hk as [<-|[]]. reflexivity. }
  rewrite Hkeys. rewrite !dict_get_app. rewrite Hno. unfold cleaned.
  dict_get_simpl. rewrite Hmid, Hdata.
  unfold dict_get_default. dict_get_simpl. reflexivity.
Qed.

Section WithLibrary.
Context {L : Library}.

(** A string that [strptime] accepts *)
Definition parses (o : option value) : bool :=
  match o with
  | Some (VStr s) =>
      match strptime s with Some _ => true | None => false end
  | _ => false
  end.

(** A string that [strptime] rejects *)
Definition malformed (o : option value) : bool :=
  match o with
  | Some (VStr s) =>
      match strptime s with Some _ => false | None => true end
  | _ => false
  end.

(** The raw event is a cloud event: attribute names are pairwise
    different and ["data"] is not one of them. *)
Definition cloud_event (raw : RawEvent) : bool :=
  distinct (dict_keys (raw_attributes raw))
  && negb (dict_mem "data" (raw_attributes raw)).

(** A well-formed message envelope: the metadata the adaptor reads is
    there with a timestamp that parses, the data holds a subscription and
    a message, and the message has wire keys only, with its snake-case
    identifier, a publish time that parses, and a payload. *)
Definition well_formed (raw : RawEvent) : bool :=
  cloud_event raw
  && parses (dict_get "time" (raw_attributes raw))
  && dict_mem "id" (raw_attributes raw)
  && dict_mem "source" (raw_attributes raw)
  && dict_mem "specversion" (raw_attributes raw)
  && dict_mem "type" (raw_attributes raw)
  && match raw_data raw with
     | VDict d =>
         dict_mem "subscription" d
         && match dict_get "message" d with
            | Some (VDict message_dict) =>
                forallb (fun k => existsb (String.eqb k) wire_keys)
                        (dict_keys message_dict)
                && dict_mem "message_id" message_dict
                && parses (dict_get "publish_time" message_dict)
                && dict_mem "data" message_dict
            | _ => false
            end
     | _ => false
     end.

(** A timestamp the adaptor parses is a string that does not parse. *)
Definition timestamp_malformed (raw : RawEvent) : bool :=
  malformed (dict_get "time" (raw_attributes raw))
  || match wire_message raw with
     | Some message_dict => malformed (dict_get "publish_time" message_dict)
     | None => false
     end.

(** A field the adaptor requires is not there. *)
Definition required_missing (raw : RawEvent) : bool :=
  negb (dict_mem "time" (raw_attributes raw))
  || negb (dict_mem "id" (raw_attributes raw))
  || negb (dict_mem "source" (raw_attributes raw))
  || negb (dict_mem "specversion" (raw_attributes raw))
  || negb (dict_mem "type" (raw_attributes raw))
  || match raw_data raw with
     | VDict d =>
         negb (dict_mem "subscription" d)
         || match dict_get "message" d with
            | Some (VDict message_dict) =>
                negb (dict_mem "message_id" message_dict)
                || negb (dict_mem "publish_time" message_dict)
                || negb (dict_mem "data" message_dict)
            | _ => true
            end
     | _ => true
     end.

(** The payload is there and does not decode to JSON. *)
Definition payload_not_json (raw : RawEvent) : bool :=
  match wire_message raw with
  | Some message_dict =>
      match dict_get "data" message_dict with
      | Some x =>
          negb (is_None x)
          && match loads_b64 x with Ok _ => false | Raise _ => true end
      | None => false
      end
  | None => false
  end.

(** The event the adaptor builds from a well-formed envelope. *)
Lemma typed_event_well_formed (raw : RawEvent) :
  well_formed raw = true ->
  exists d message_dict T t P pt,
    raw_data raw = VDict d
    /\ dict_get "message" d = Some (VDict message_dict)
    /\ dict_get "time" (raw_attributes raw) = Some (VStr T)
    /\ strptime T = Some t
    /\ dict_get "publish_time" message_dict = Some (VStr P)
    /\ strptime P = Some pt
    /\ typed_event raw =
       Ok {| event_data :=
               {| message :=
                    {| message_id :=
                         dict_get_default "message_id" message_dict VNone;
                       publish_time := VDatetime pt;
                       attributes :=
                         dict_get_default "attributes" message_dict (VDict []);
                       data := dict_get_default "data" message_dict VNone;
                       ordering_key :=
                         dict_get_default "orderingKey" message_dict VNone |};
                  subscription := dict_get_default "subscription" d VNone |};
             event_id := dict_get_default "id" (raw_attributes raw) VNone;
             event_source :=
               dict_get_default "source" (raw_attributes raw) VNone;
             event_specversion :=
               dict_get_default "specversion" (raw_attributes raw) VNone;
             event_subject :=
               dict_get_default "subject" (raw_attributes raw) VNone;
             event_time := VDatetime t;
             event_type :=
               dict_get_default "type" (raw_attributes raw) VNone |}.
Proof.
  destruct raw as [attrs rd]. unfold well_formed, cloud_event.
  cbn [raw_attributes raw_data]. intros Hwf.
  apply andb_prop in Hwf as [Hwf Hdata].
  apply andb_prop in Hwf as [Hwf Htype].
  apply andb_prop in Hwf as [Hwf Hspec].
  apply andb_prop in Hwf as [Hwf Hsource].
  apply andb_prop in Hwf as [Hwf Hid].
  apply andb_prop in Hwf as [Hwf Htime].
  apply andb_prop in Hwf as [Hnd Hnodata].
  apply distinct_NoDup in Hnd.
  apply negb_true_iff, dict_mem_false in Hnodata.
  destruct rd as [| | | | | |d| | | | | |]; try discriminate.
  apply andb_prop in Hdata as [Hsub Hmsg].
  destruct (dict_get "message" d) as [[| | | | | |md| | | | | |]|] eqn:Em;
    try discriminate.
  apply andb_prop in Hmsg as [Hmsg Hpayload].
  apply andb_prop in Hmsg as [Hmsg Hpt].
  apply andb_prop in Hmsg as [Hwire Hmid].
  unfold parses in Htime, Hpt.
  destruct (dict_get "time" attrs) as [[| | | |T| | | | | | | |]|] eqn:Et;
    try discriminate.
  destruct (strptime T) as [t|] eqn:EsT; try discriminate.
  destruct (dict_get "publish_time" md) as [[| | | |P| | | | | | | |]|] eqn:Ep;
    try discriminate.
  destruct (strptime P) as [pt|] eqn:EsP; try discriminate.
  apply dict_mem_true in Hid as [id Hid], Hsource as [source Hsource],
    Hspec as [specversion Hspec], Htype as [type Htype],
    Hsub as [sub Hsub], Hmid as [mid Hmid], Hpayload as [dv Hpayload].
  exists d, md, T, t, P, pt.
  repeat (split; [reflexivity || assumption|]).
  unfold typed_event. cbn [raw_attributes raw_data].
  unfold dict_item, subscript, dict_item.
  rewrite !event_dict_get by exact Hnd.
  rewrite Hnodata, Et. cbn [String.eqb Ascii.eqb Bool.eqb bind].
  rewrite Em. cbn [bind strptime_value]. rewrite EsT. cbn [bind].
  rewrite Ep. cbn [bind strptime_value]. rewrite EsP. cbn [bind].
  pose proof (Message_call_cleaned md pt mid dv Hwire Hmid Hpayload) as Hcall.
  cbv beta zeta delta [cleaned] in Hcall.
  unfold dict_pop_value, dict_mem. dict_get_simpl.
  change (match dict_get "orderingKey" md with
          | Some v => v
          | None => VNone
          end) with (dict_get_default "orderingKey" md VNone).
  rewrite Hcall. cbn [bind]. rewrite Hsub. cbn [bind].
  unfold dict_get_default. dict_get_simpl.
  rewrite !event_dict_get by exact Hnd.
  rewrite Hid, Hsource, Hspec, Htype, Hmid, Hpayload, Hsub. cbn [bind].
  destruct (dict_get "subject" attrs); reflexivity.
Qed.

Lemma strptime_value_Ok (x : value) (t : datetime) :
  strptime_value x = Ok t -> exists s, x = VStr s /\ strptime s = Some t.
Proof.
  destruct x; simpl; try discriminate.
  destruct (strptime s) eqn:E; [|discriminate].
  intros Ht. injection Ht as <-. eauto.
Qed.

Lemma Message_call_Ok (md : dict) (pt : datetime) (ok : value) (m : Message) :
  Message_call (cleaned md pt) ok = Ok m ->
  dict_mem "message_id" md = true /\ dict_mem "data" md = true.
Proof.
  unfold Message_call, Message_init.
  destruct (dict_mem "ordering_key" (cleaned md pt)); [discriminate|].
  destruct (forallb _ _); [|discriminate].
  rewrite !dict_get_app. unfold cleaned. dict_get_simpl.
  unfold dict_mem.
  destruct (dict_get "message_id" md); [|simpl; discriminate].
  destruct (dict_get "data" md); [auto|simpl; discriminate].
Qed.

(** What a raw event must have for the adaptor to reach the handler. *)
Lemma typed_event_Ok_inv (raw : RawEvent) (ev : CloudEvent) :
  cloud_event raw = true ->
  typed_event raw = Ok ev ->
  timestamp_malformed raw = false /\ required_missing raw = false.
Proof.
  destruct raw as [attrs rd]. unfold cloud_event, typed_event.
  cbn [raw_attributes raw_data]. intros Hce Hev.
  apply andb_prop in Hce as [Hnd Hnodata].
  apply distinct_NoDup in Hnd.
  apply negb_true_iff, dict_mem_false in Hnodata.
  unfold dict_item in Hev.
  rewrite !event_dict_get in Hev by exact Hnd.
  rewrite Hnodata in Hev. cbn [String.eqb Ascii.eqb Bool.eqb bind] in Hev.
  apply bind_Ok in Hev as [mv [Hmv Hev]].
  destruct rd as [| | | | | |d| | | | | |]; try discriminate.
  unfold subscript, dict_item in Hmv.
  destruct (dict_get "message" d) as [mv'|] eqn:Em; [|discriminate].
  injection Hmv as ->.
  apply bind_Ok in Hev as [t [Ht Hev]].
  destruct (dict_get "time" attrs) as [tv|] eqn:Et; [|discriminate].
  cbn [bind] in Ht. apply strptime_value_Ok in Ht as [T [-> EsT]].
  apply bind_Ok in Hev as [pt [Hpt Hev]].
  destruct mv as [| | | | | |md| | | | | |]; try discriminate.
  unfold subscript, dict_item in Hpt.
  destruct (dict_get "publish_time" md) as [pv|] eqn:Ep; [|discriminate].
  cbn [bind] in Hpt. apply strptime_value_Ok in Hpt as [P [-> EsP]].
  apply bind_Ok in Hev as [m [Hm Hev]].
  apply Message_call_Ok in Hm as [Hmid Hpayload].
  apply bind_Ok in Hev as [sub [Hsub Hev]].
  unfold subscript, dict_item in Hsub.
  destruct (dict_get "subscription" d) as [sv|] eqn:Es; [|discriminate].
  apply bind_Ok in Hev as [id [Hid Hev]].
  apply bind_Ok in Hev as [source [Hsource Hev]].
  apply bind_Ok in Hev as [specversion [Hspec Hev]].
  apply bind_Ok in Hev as [time [_ Hev]].
  apply bind_Ok in Hev as [type [Htype _]].
  unfold dict_item in Hid, Hsource, Hspec, Htype.
  rewrite dict_get_set_ne in Hid, Hsource, Hspec, Htype by discriminate.
  rewrite event_dict_get in Hid, Hsource, Hspec, Htype by exact Hnd.
  unfold timestamp_malformed, required_missing, wire_message, malformed,
    dict_mem.
  cbn [raw_attributes raw_data].
  rewrite Et, EsT, Em, Ep, EsP, Es.
  unfold dict_mem in Hmid, Hpayload.
  destruct (dict_get "message_id" md); [|discriminate].
  destruct (dict_get "data" md); [|discriminate].
  destruct (dict_get "id" attrs); [|discriminate].
  destruct (dict_get "source" attrs); [|discriminate].
  destruct (dict_get "specversion" attrs); [|discriminate].
  destruct (dict_get "type" attrs); [|discriminate].
  split; reflexivity.
Qed.

(** C7, amended. For a raw cloud event with a timestamp that does not
    parse, or without a field the adaptor requires, [_message_handler]
    raises and the handler is not called. A payload that is not
    base64-encoded JSON does not stop the adaptation: on an otherwise
    well-formed envelope the handler is called with the complete typed
    event, and reading [json] on its message raises [ValueError]. *)
Theorem adaptation_failure (raw : RawEvent) :
  cloud_event raw = true ->
  (timestamp_malformed raw || required_missing raw = true ->
     exists e, typed_event raw = Raise e
               /\ forall (S : Type) (func : CloudEvent -> S -> result S) s,
                    _message_handler func raw s = Raise e)
  /\ (well_formed raw = true -> payload_not_json raw = true ->
       exists ev, typed_event raw = Ok ev
                  /\ (forall (S : Type) (func : CloudEvent -> S -> result S) s,
                        _message_handler func raw s = func ev s)
                  /\ Message_json (message (event_data ev)) = Raise ValueError).
Proof.
  intros Hce. split.
  - intros Hbad. destruct (typed_event raw) as [ev|e] eqn:Hev.
    + destruct (typed_event_Ok_inv raw ev Hce Hev) as [H1 H2].
      rewrite H1, H2 in Hbad. discriminate.
    + exists e. split; [reflexivity|].
      intros S func s. unfold _message_handler. now rewrite Hev.
  - intros Hwf Hpayload.
    destruct (typed_event_well_formed raw Hwf)
      as (d & md & T & t & P & pt & Hd & Em & _ & _ & _ & _ & Hev).
    eexists. split; [exact Hev|]. split.
    + intros S func s. unfold _message_handler. now rewrite Hev.
    + cbn [event_data message]. unfold Message_json. cbn [data].
      unfold payload_not_json, wire_message in Hpayload.
      rewrite Hd, Em in Hpayload. unfold dict_get_default.
      destruct (dict_get "data" md) as [x|]; [|discriminate].
      apply andb_prop in Hpayload as [Hx Hl]. rewrite Hx.
      destruct (loads_b64 x); [discriminate|reflexivity].
Qed.

(** The midnight that starts 2022 in UTC *)
Definition utc_2022 : datetime := mkDatetime 2022 1 1 0 0 0 0 0.

(** C6. Round trip of the adaptation. A well-formed envelope whose
    message carries [orderingKey] ["k1"], [messageId] ["m1"] and
    [publishTime] ["2022-01-01T00:00:00.000000+00:00"] beside their
    snake-case forms, and the base64 text of the JSON object with [x]
    equal to 1 as [data], with a library that parses this timestamp to
    UTC midnight of 1 January 2022 and decodes this payload to that
    object: the handler is called with an event whose message has
    [ordering_key] ["k1"], the parsed [publish_time], a [json] that
    yields the object, and no [messageId] or [publishTime] attribute. *)
Theorem pubsub_round_trip (raw : RawEvent) (message_dict : dict) :
  well_formed raw = true ->
  wire_message raw = Some message_dict ->
  dict_get "orderingKey" message_dict = Some (VStr "k1") ->
  dict_get "messageId" message_dict = Some (VStr "m1") ->
  dict_get "message_id" message_dict = Some (VStr "m1") ->
  dict_get "publishTime" message_dict =
    Some (VStr "2022-01-01T00:00:00.000000+00:00") ->
  dict_get "publish_time" message_dict =
    Some (VStr "2022-01-01T00:00:00.000000+00:00") ->
  dict_get "data" message_dict = Some (VStr "eyJ4IjoxfQ==") ->
  strptime "2022-01-01T00:00:00.000000+00:00" = Some utc_2022 ->
  loads_b64 (VStr "eyJ4IjoxfQ==") = Ok (VDict [("x", VInt 1)]) ->
  exists ev,
    typed_event raw = Ok ev
    /\ (forall (S : Type) (func : CloudEvent -> S -> result S) s,
          _message_handler func raw s = func ev s)
    /\ ordering_key (message (event_data ev)) = VStr "k1"
    /\ message_id (message (event_data ev)) = VStr "m1"
    /\ publish_time (message (event_data ev)) = VDatetime utc_2022
    /\ Message_json (message (event_data ev)) = Ok (VDict [("x", VInt 1)])
    /\ dict_get "messageId" (Message_asdict (message (event_data ev))) = None
    /\ dict_get "publishTime" (Message_asdict (message (event_data ev))) = None.
Proof.
  intros Hwf Hwire Hok Hcid Hmid Hcpt Hpt Hdata Hparse Hjson.
  destruct (typed_event_well_formed raw Hwf)
    as (d & md & T & t & P & pt & Hd & Em & _ & _ & Ep & EsP & Hev).
  unfold wire_message in Hwire. rewrite Hd, Em in Hwire.
  injection Hwire as ->.
  rewrite Hpt in Ep. injection Ep as <-.
  rewrite Hparse in EsP. injection EsP as <-.
  eexists. split; [exact Hev|]. split.
  { intros S func s. unfold _message_handler. now rewrite Hev. }
  cbn [event_data message ordering_key message_id publish_time].
  unfold Message_json, dict_get_default. cbn [data].
  rewrite Hok, Hmid, Hdata. cbn [is_None negb]. rewrite Hjson.
  repeat split; reflexivity.
Qed.

(** C10. A well-formed envelope whose message has no [orderingKey]: the
    adaptation succeeds, the handler is called, and the message it
    receives has [ordering_key] [None]. *)
Theorem missing_ordering_key (raw : RawEvent) (message_dict : dict) :
  well_formed raw = true ->
  wire_message raw = Some message_dict ->
  dict_get "orderingKey" message_dict = None ->
  exists ev,
    typed_event raw = Ok ev
    /\ (forall (S : Type) (func : CloudEvent -> S -> result S) s,
          _message_handler func raw s = func ev s)
    /\ ordering_key (message (event_data ev)) = VNone.
Proof.
  intros Hwf Hwire Hok.
  destruct (typed_event_well_formed raw Hwf)
    as (d & md & T & t & P & pt & Hd & Em & _ & _ & _ & _ & Hev).
  unfold wire_message in Hwire. rewrite Hd, Em in Hwire.
  injection Hwire as ->.
  eexists. split; [exact Hev|]. split.
  { intros S func s. unfold _message_handler. now rewrite Hev. }
  cbn [event_data message ordering_key]. unfold dict_get_default.
  now rewrite Hok.
Qed.
End WithLibrary.

(** ** The example envelope *)

Definition quote : string := String (ascii_of_nat 34) EmptyString.

(** The JSON text of the object with [x] equal to 1 *)
Definition json_x1 : string := "{" ++ quote ++ "x" ++ quote ++ ":1}".

Definition midnight : string := "2022-01-01T00:00:00.000000+00:00".

(** The library on the inputs of the examples: it parses [midnight],
    decodes the base64 text of [json_x1] and loads [json_x1], and rejects
    every other input. *)
Definition example_library : Library :=
  {| strptime := fun s =>
       if String.eqb s midnight then Some utc_2022 else None;
     b64decode := fun s =>
       if String.eqb s "eyJ4IjoxfQ==" then Some json_x1 else None;
     decode_utf8 := fun bytes => Some bytes;
     json_loads := fun text =>
       if String.eqb text json_x1 then Some (VDict [("x", VInt 1)])
       else None |}.

Definition example_attributes (time : string) : dict :=
  [("id", VStr "e1");
   ("source", VStr "//pubsub.googleapis.com/projects/p/topics/t");
   ("specversion", VStr "1.0");
   ("type", VStr "google.cloud.pubsub.topic.v1.messagePublished");
   ("time", VStr time)].

Definition example_raw (time : string) (message_dict : dict) : RawEvent :=
  mkRawEvent (example_attributes time)
             (VDict [("message", VDict message_dict);
                     ("subscription", VStr "projects/p/subscriptions/s")]).

Definition example_message (payload : string) : dict :=
  [("data", VStr payload);
   ("messageId", VStr "m1"); ("message_id", VStr "m1");
   ("publishTime", VStr midnight); ("publish_time", VStr midnight);
   ("orderingKey", VStr "k1")].

Definition unordered_message : dict :=
  [("data", VStr "eyJ4IjoxfQ==");
   ("messageId", VStr "m1"); ("message_id", VStr "m1");
   ("publishTime", VStr midnight); ("publish_time", VStr midnight)].

Lemma pubsub_round_trip_witness :
  exists ev,
    typed_event (L := example_library)
                (example_raw midnight (example_message "eyJ4IjoxfQ==")) = Ok ev
    /\ ordering_key (message (event_data ev)) = VStr "k1"
    /\ publish_time (message (event_data ev)) = VDatetime utc_2022
    /\ Message_json (L := example_library) (message (event_data ev))
       = Ok (VDict [("x", VInt 1)]).
Proof.
  destruct (pubsub_round_trip (L := example_library)
              (example_raw midnight (example_message "eyJ4IjoxfQ=="))
              (example_message "eyJ4IjoxfQ==")
              eq_refl eq_refl eq_refl eq_refl eq_refl eq_refl eq_refl eq_refl
              eq_refl eq_refl)
    as (ev & Hev & _ & Hok & _ & Hpt & Hjson & _).
  exists ev. exact (conj Hev (conj Hok (conj Hpt Hjson))).
Defined.

Lemma missing_ordering_key_witness :
  exists ev,
    typed_event (L := example_library)
                (example_raw midnight unordered_message) = Ok ev
    /\ ordering_key (message (event_data ev)) = VNone.
Proof.
  destruct (missing_ordering_key (L := example_library)
              (example_raw midnight unordered_message) unordered_message
              eq_refl eq_refl eq_refl)
    as (ev & Hev & _ & Hok).
  exists ev. exact (conj Hev Hok).
Defined.

(** C7, as stated, fails: with a payload that is not base64-encoded JSON
    and everything else in place, the adaptor does not raise and the
    handler is called. *)
Lemma adaptation_payload_counterexample :
  ~ (forall (L : Library) (raw : RawEvent),
       cloud_event raw = true ->
       timestamp_malformed raw || required_missing raw
         || payload_not_json raw = true ->
       exists e,
         forall (S : Type) (func : CloudEvent -> S -> result S) s,
           _message_handler func raw s = Raise e).
Proof.
  intros Hclaim.
  destruct (Hclaim example_library
                   (example_raw midnight (example_message "not json"))
                   eq_refl eq_refl) as [e He].
  specialize (He unit (fun _ s => Ok s) tt).
  vm_compute in He. discriminate He.
Qed.

Lemma adaptation_failure_witness :
  (exists e,
     typed_event (L := example_library)
                 (example_raw "yesterday" (example_message "eyJ4IjoxfQ=="))
     = Raise e)
  /\ (exists ev,
       typed_event (L := example_library)
                   (example_raw midnight (example_message "not json")) = Ok ev
       /\ Message_json (L := example_library) (message (event_data ev))
          = Raise ValueError).
Proof.
  split.
  - destruct (adaptation_failure (L := example_library)
                (example_raw "yesterday" (example_message "eyJ4IjoxfQ=="))
                eq_refl) as [Hfail _].
    destruct (Hfail eq_refl) as [e [He _]]. exists e. exact He.
  - destruct (adaptation_failure (L := example_library)
                (example_raw midnight (example_message "not json"))
                eq_refl) as [_ Hlazy].
    destruct (Hlazy eq_refl eq_refl) as [ev [Hev [_ Hjson]]].
    exists ev. exact (conj Hev Hjson).
Defined.

End PubSubSpec.

(* ================================================================== *)
(** * Properties of private/util.py *)
(* ================================================================== *)

Module UtilSpec.
Import Py PyFacts Util.

(** ** The shape of a callable request *)

(** The header without its parameters: the text before the first [;]. *)
Definition media_type (content_type : string) : string :=
  match index_char ";"%char content_type with
  | Some i => take i content_type
  | None => content_type
  end.

(** The same, with the whitespace around it removed when parameters
    follow. *)
Definition trimmed_media_type (content_type : string) : string :=
  match index_char ";"%char content_type with
  | Some i => strip is_space (take i content_type)
  | None => content_type
  end.

(** The body is a JSON object with the key [data] and no other key. *)
Definition only_data (request : Request) : Prop :=
  exists d, json request = Ok (VDict d)
            /\ dict_mem "data" d = true
            /\ forall k, In k (dict_keys d) -> k = "data".

(** The condition of C8. [normalise] is what is done to the text before the
    [;] ahead of the comparison: nothing, or the removal of surrounding
    whitespace. *)
Definition shape_as_claimed (normalise : string -> string)
    (request : Request) : Prop :=
  method request = "POST"
  /\ (exists ct, headers_get "Content-Type" (headers request) = Some ct
                 /\ lower (normalise (media_type ct)) = "application/json")
  /\ only_data request.

(** The condition the code checks. *)
Definition shape_checked (request : Request) : Prop :=
  method request = "POST"
  /\ (exists ct, headers_get "Content-Type" (headers request) = Some ct
                 /\ lower (trimmed_media_type ct) = "application/json")
  /\ only_data request.

Lemma valid_method_spec (request : Request) :
  _on_call_valid_method request = true <-> method request = "POST".
Proof.
  unfold _on_call_valid_method.
  destruct (String.eqb (method request) "POST") eqn:E; simpl.
  - apply String.eqb_eq in E. tauto.
  - apply String.eqb_neq in E. split; [discriminate | tauto].
Qed.

Lemma valid_content_type_spec (request : Request) :
  _on_call_valid_content_type request = true <->
  exists ct, headers_get "Content-Type" (headers request) = Some ct
             /\ lower (trimmed_media_type ct) = "application/json".
Proof.
  unfold _on_call_valid_content_type, trimmed_media_type.
  destruct (headers_get "Content-Type" (headers request)) as [ct|].
  - destruct (index_char ";" ct) as [i|] eqn:Ei; cbn [Nat.leb].
    + destruct (String.eqb (lower (strip is_space (take i ct)))
                           "application/json") eqn:E; cbn [negb].
      * apply String.eqb_eq in E. split; [intros _|reflexivity].
        exists ct. rewrite Ei. auto.
      * apply String.eqb_neq in E. split; [discriminate|].
        intros [ct' [Hct Hl]]. injection Hct as <-. rewrite Ei in Hl.
        contradiction.
    + destruct (String.eqb (lower ct) "application/json") eqn:E; cbn [negb].
      * apply String.eqb_eq in E. split; [intros _|reflexivity].
        exists ct. rewrite Ei. auto.
      * apply String.eqb_neq in E. split; [discriminate|].
        intros [ct' [Hct Hl]]. injection Hct as <-. rewrite Ei in Hl.
        contradiction.
  - split; [discriminate|]. intros [ct [Hct _]]. discriminate.
Qed.

Lemma no_extra_keys (keys : list string) :
  List.length (filter (fun key => negb (String.eqb key "data")) keys) = 0%nat
  <-> forall k, In k keys -> k = "data".
Proof.
  induction keys as [|k keys IH]; simpl.
  - split; [intros _ k []|reflexivity].
  - destruct (String.eqb k "data") eqn:E; simpl.
    + apply String.eqb_eq in E. subst k. rewrite IH.
      split; [intros Hk k [<-|Hin]; auto | intros Hk k Hin; auto].
    + apply String.eqb_neq in E. split; [discriminate|].
      intros Hk. exfalso. apply E. apply Hk. auto.
Qed.

Lemma valid_body_spec (request : Request) :
  _on_call_valid_body request = Ok true <-> only_data request.
Proof.
  unfold _on_call_valid_body, only_data.
  destruct (json request) as [j|e]; cbn [bind].
  - destruct j; cbn [is_None contains keys_of bind negb];
      try (split; [discriminate | intros [d [Hd _]]; discriminate]).
    + (* a string *)
      split; [|intros [d' [Hd _]]; discriminate].
      destruct (substring_of "data" s); discriminate.
    + (* a list *)
      split; [|intros [d' [Hd _]]; discriminate].
      destruct (existsb (is_the_str "data") l); discriminate.
    + (* a dictionary *)
      destruct (dict_mem "data" d) eqn:Em; cbn [negb].
      * destruct (Nat.eqb _ 0) eqn:El; cbn [negb].
        -- apply Nat.eqb_eq in El.
           pose proof (proj1 (no_extra_keys _) El) as Hkeys.
           split; [intros _; exists d; auto | reflexivity].
        -- split; [discriminate|].
           intros [d' [Hd [_ Hk]]]. injection Hd as <-.
           apply (proj2 (no_extra_keys _)) in Hk. apply Nat.eqb_neq in El.
           contradiction.
      * split; [discriminate|].
        intros [d' [Hd [Hm _]]]. injection Hd as <-. congruence.
  - split; [discriminate | intros [d [Hd _]]; discriminate].
Qed.

(** C8, as stated, fails. With whitespace between the media type and the
    [;], the text before the [;] is not ["application/json"], and the
    request is accepted. Reading the claim with the whitespace around the
    media type ignored does not save it: a header with no [;] and a
    trailing space is rejected. *)
Lemma shape_whitespace_counterexample :
  ~ (forall request,
       valid_on_call_request request = Ok true
       <-> shape_as_claimed (fun s => s) request)
  /\ ~ (forall request,
         valid_on_call_request request = Ok true
         <-> shape_as_claimed (strip is_space) request).
Proof.
  split; intros Hclaim.
  - destruct (Hclaim
      (mkRequest "POST"
                 [("Content-Type", "application/json ;charset=utf-8")]
                 (Ok (VDict [("data", VInt 1)])))) as [Hcode _].
    destruct (Hcode eq_refl) as (_ & [ct [Hct Hl]] & _).
    injection Hct as <-. discriminate Hl.
  - destruct (Hclaim
      (mkRequest "POST" [("Content-Type", "application/json ")]
                 (Ok (VDict [("data", VInt 1)])))) as [_ Hspec].
    assert (Hv : valid_on_call_request
      (mkRequest "POST" [("Content-Type", "application/json ")]
                 (Ok (VDict [("data", VInt 1)]))) = Ok true).
    { apply Hspec. split; [reflexivity|]. split.
      - exists "application/json ". split; reflexivity.
      - exists [("data", VInt 1)]. split; [reflexivity|].
        split; [reflexivity|]. intros k [<-|[]]. reflexivity. }
    discriminate Hv.
Qed.

(** C8, amended. [valid_on_call_request] returns [True] exactly when the
    method is POST, the Content-Type header, cut at its first [;] and then
    stripped of surrounding whitespace when it has one and taken whole
    when it has none, is ["application/json"] up to letter case, and the
    parsed body is an object with the key [data] and no other key; a body
    with another key makes it return [False]. *)
Theorem valid_on_call_request_spec (request : Request) :
  (valid_on_call_request request = Ok true <-> shape_checked request)
  /\ (forall d k, json request = Ok (VDict d) ->
       In k (dict_keys d) -> k <> "data" ->
       valid_on_call_request request = Ok false).
Proof.
  split.
  - unfold valid_on_call_request, shape_checked.
    rewrite <- valid_method_spec, <- valid_content_type_spec,
      <- valid_body_spec.
    destruct (_on_call_valid_method request);
      [|split; [discriminate | intros [H _]; discriminate]].
    destruct (_on_call_valid_content_type request);
      [|split; [discriminate | intros [_ [H _]]; discriminate]].
    destruct (_on_call_valid_body request) as [[|]|e]; cbn [bind];
      split; auto; try discriminate; intros [_ [_ H]]; discriminate.
  - intros d k Hj Hk Hne. unfold valid_on_call_request.
    destruct (_on_call_valid_method request); [|reflexivity].
    destruct (_on_call_valid_content_type request); [|reflexivity].
    assert (Hb : _on_call_valid_body request = Ok false).
    { unfold _on_call_valid_body. rewrite Hj.
      cbn [bind is_None contains keys_of negb].
      destruct (dict_mem "data" d); [|reflexivity]. cbn [negb].
      destruct (Nat.eqb _ 0) eqn:El; [|reflexivity].
      apply Nat.eqb_eq in El.
      pose proof (proj1 (no_extra_keys _) El k Hk). contradiction. }
    rewrite Hb. reflexivity.
Qed.

Example accepted_request :
  valid_on_call_request
    (mkRequest "POST" [("Content-Type", "application/json; charset=utf-8")]
               (Ok (VDict [("data", VDict [("a", VInt 1)])]))) = Ok true.
Proof. reflexivity. Qed.

Example rejected_method :
  valid_on_call_request
    (mkRequest "GET" [("Content-Type", "application/json")]
               (Ok (VDict [("data", VInt 1)]))) = Ok false.
Proof. reflexivity. Qed.

Example string_body_raises :
  valid_on_call_request
    (mkRequest "POST" [("Content-Type", "application/json")]
               (Ok (VStr "data"))) = Raise AttributeError.
Proof. reflexivity. Qed.

Lemma valid_on_call_request_spec_witness :
  valid_on_call_request
    (mkRequest "POST" [("Content-Type", "Application/JSON; charset=utf-8")]
               (Ok (VDict [("data", VDict [("a", VInt 1)]);
                           ("extra", VInt 1)]))) = Ok false.
Proof.
  destruct (valid_on_call_request_spec
    (mkRequest "POST" [("Content-Type", "Application/JSON; charset=utf-8")]
               (Ok (VDict [("data", VDict [("a", VInt 1)]);
                           ("extra", VInt 1)])))) as [_ Hextra].
  apply (Hextra _ "extra" eq_refl).
  - simpl. auto.
  - discriminate.
Defined.

(** ** Token verification *)

Section WithVerifiers.
Context {V : Verifiers}.

(** What [_on_call_check_auth_token] returns: it never raises. *)
Lemma check_auth_token_returns (request : Request) :
  _on_call_check_auth_token request =
  Ok match headers_get "Authorization" (headers request) with
     | None => VNone
     | Some authorization =>
         if startswith authorization "Bearer " then
           match verify_id_token (remove_all "Bearer " authorization) with
           | Ok auth_token => auth_token
           | Raise _ => INVALID_member
           end
         else INVALID_member
     end.
Proof.
  unfold _on_call_check_auth_token.
  destruct (headers_get "Authorization" (headers request)) as [a|]; auto.
  destruct (startswith a "Bearer "); cbn [negb]; auto.
  destruct (verify_id_token _); reflexivity.
Qed.

Lemma check_app_token_returns (request : Request) :
  _on_call_check_app_token request =
  Ok match headers_get "X-Firebase-AppCheck" (headers request) with
     | None => VNone
     | Some app_check =>
         match verify_token app_check with
         | Ok app_token => app_token
         | Raise _ => INVALID_member
         end
     end.
Proof.
  unfold _on_call_check_app_token.
  destruct (headers_get "X-Firebase-AppCheck" (headers request)) as [a|];
    auto.
  destruct (verify_token _); reflexivity.
Qed.

(** C9. [on_call_check_tokens] returns a verdict on every request,
    whatever the verifiers do. For the auth token: no [Authorization]
    header gives [MISSING]; a header that does not start with
    ["Bearer "], or whose token the verifier raises on, gives [INVALID]
    with no claims; a token for which the verifier returns a dictionary
    of claims gives [VALID] with these claims. For the app-check token
    the same holds on the [X-Firebase-AppCheck] header, which has no
    prefix. *)
Theorem check_tokens_verdict (request : Request) :
  exists v,
    on_call_check_tokens request = Ok v
    /\ (headers_get "Authorization" (headers request) = None ->
         auth v = MISSING /\ auth_token v = VNone)
    /\ (forall a, headers_get "Authorization" (headers request) = Some a ->
         startswith a "Bearer " = false ->
         auth v = INVALID /\ auth_token v = VNone)
    /\ (forall a e, headers_get "Authorization" (headers request) = Some a ->
         startswith a "Bearer " = true ->
         verify_id_token (remove_all "Bearer " a) = Raise e ->
         auth v = INVALID /\ auth_token v = VNone)
    /\ (forall a claims,
         headers_get "Authorization" (headers request) = Some a ->
         startswith a "Bearer " = true ->
         verify_id_token (remove_all "Bearer " a) = Ok (VDict claims) ->
         auth v = VALID /\ auth_token v = VDict claims)
    /\ (headers_get "X-Firebase-AppCheck" (headers request) = None ->
         app v = MISSING /\ app_token v = VNone)
    /\ (forall t e,
         headers_get "X-Firebase-AppCheck" (headers request) = Some t ->
         verify_token t = Raise e ->
         app v = INVALID /\ app_token v = VNone)
    /\ (forall t claims,
         headers_get "X-Firebase-AppCheck" (headers request) = Some t ->
         verify_token t = Ok (VDict claims) ->
         app v = VALID /\ app_token v = VDict claims).
Proof.
  unfold on_call_check_tokens.
  rewrite check_auth_token_returns, check_app_token_returns. cbn [bind].
  destruct (headers_get "Authorization" (headers request)) as [a|];
    [destruct (startswith a "Bearer ") eqn:Hs;
     [destruct (verify_id_token (remove_all "Bearer " a))
        as [[| | | | | | | | | | | |]|] eqn:Hv|]|];
    (destruct (headers_get "X-Firebase-AppCheck" (headers request))
       as [tok|];
     [destruct (verify_token tok) as [[| | | | | | | | | | | |]|] eqn:Hv'|]);
    cbn; eexists; (split; [reflexivity|]);
    repeat split; intros;
    repeat match goal with
           | H : Some _ = Some _ |- _ => injection H as <-
           | H : None = Some _ |- _ => discriminate H
           | H : Some _ = None |- _ => discriminate H
           end;
    cbn; congruence.
Qed.
End WithVerifiers.

(** Verifiers that reject every token. *)
Definition rejecting : Verifiers :=
  {| verify_id_token := fun _ => Raise (Exception "invalid token");
     verify_token := fun _ => Raise (Exception "invalid token") |}.

Lemma check_tokens_verdict_witness :
  (exists v,
     on_call_check_tokens (V := rejecting)
       (mkRequest "POST" [("Authorization", "Bearer badtoken")] (Ok VNone))
     = Ok v
     /\ auth v = INVALID /\ auth_token v = VNone)
  /\ (exists v,
       on_call_check_tokens (V := rejecting)
         (mkRequest "POST" [] (Ok VNone)) = Ok v
       /\ auth v = MISSING).
Proof.
  split.
  - destruct (check_tokens_verdict (V := rejecting)
       (mkRequest "POST" [("Authorization", "Bearer badtoken")] (Ok VNone)))
      as (v & Hv & _ & _ & Hraise & _).
    exists v. split; [exact Hv|].
    exact (Hraise "Bearer badtoken" (Exception "invalid token")
                  eq_refl eq_refl eq_refl).
  - destruct (check_tokens_verdict (V := rejecting)
       (mkRequest "POST" [] (Ok VNone)))
      as (v & Hv & Hmissing & _).
    exists v. split; [exact Hv|]. exact (proj1 (Hmissing eq_refl)).
Defined.

End UtilSpec.


(* ================================================================== *)
(** * More of options.py: the entry as a whole *)
(* ================================================================== *)

Module OptionsExtra.
Import Py PyFacts Options OptionsSpec.

Lemma keys_set_present (k : string) (v : value) (d : dict) :
  In k (dict_keys d) -> dict_keys (dict_set k v d) = dict_keys d.
Proof.
  induction d as [|[k' v'] d IH]; simpl; [tauto|].
  intros Hin. destruct (String.eqb k k') eqn:E; simpl; [reflexivity|].
  f_equal. apply IH. destruct Hin as [->|Hin]; [|exact Hin].
  rewrite String.eqb_refl in E. discriminate.
Qed.

Lemma keys_set_absent (k : string) (v : value) (d : dict) :
  ~ In k (dict_keys d) -> dict_keys (dict_set k v d) = (dict_keys d ++ [k])%list.
Proof.
  induction d as [|[k' v'] d IH]; simpl; [reflexivity|].
  intros Hn. destruct (String.eqb k k') eqn:E; simpl.
  - apply String.eqb_eq in E. subst. tauto.
  - f_equal. apply IH. tauto.
Qed.

Lemma keys_update_present (d1 d2 : dict) :
  incl (dict_keys d2) (dict_keys d1) ->
  dict_keys (dict_update d1 d2) = dict_keys d1.
Proof.
  unfold dict_update. revert d1.
  induction d2 as [|[k v] d2 IH]; intros d1 Hincl; simpl; [reflexivity|].
  assert (Hk : In k (dict_keys d1)) by (apply Hincl; simpl; auto).
  rewrite IH; rewrite (keys_set_present k v d1 Hk); auto.
  intros x Hx. apply Hincl. simpl. auto.
Qed.

Lemma keys_update_absent (d1 d2 : dict) :
  NoDup (dict_keys d1 ++ dict_keys d2) ->
  dict_keys (dict_update d1 d2) = (dict_keys d1 ++ dict_keys d2)%list.
Proof.
  unfold dict_update. revert d1.
  induction d2 as [|[k v] d2 IH]; intros d1 Hnd; simpl.
  - now rewrite app_nil_r.
  - assert (Hk : ~ In k (dict_keys d1)).
    { intros Hin. apply NoDup_remove_2 in Hnd. apply Hnd.
      apply in_or_app. auto. }
    rewrite IH; rewrite (keys_set_absent k v d1 Hk).
    + now rewrite <- app_assoc.
    + rewrite <- app_assoc. exact Hnd.
Qed.

Lemma keys_fallback_loop (p g : dict) (ks : list string) (m : dict) :
  incl ks (dict_keys m) ->
  dict_keys (fold_left (fallback_step p g) ks m) = dict_keys m.
Proof.
  revert m. induction ks as [|key ks IH]; intros m Hincl; simpl; auto.
  assert (Hstep : dict_keys (fallback_step p g m key) = dict_keys m).
  { unfold fallback_step. destruct (dict_get key p); auto.
    destruct (is_None v && dict_mem key g); auto.
    destruct (dict_get key g); auto.
    apply keys_set_present. apply Hincl. simpl. auto. }
  rewrite IH; rewrite Hstep; auto.
  intros x Hx. apply Hincl. simpl. auto.
Qed.

Lemma asdict_keys {A : Type} `{Fields A} (self : A) :
  dict_keys (asdict self) =
  (RuntimeOptions_field_names ++ dict_keys (specific_fields self))%list.
Proof.
  unfold asdict, dict_keys. rewrite map_app, map_map. simpl.
  f_equal.
Qed.

Lemma merged_keys {A : Type} `{Fields A} (self : A) (g : RuntimeOptions) :
  NoDup (dict_keys (asdict self)) ->
  dict_keys (RuntimeOptions_asdict_with_global_options self g) =
  dict_keys (asdict self).
Proof.
  intros Hnd. unfold RuntimeOptions_asdict_with_global_options.
  assert (Hu : dict_keys (dict_update (RuntimeOptions_asdict g) (asdict self))
               = dict_keys (asdict self)).
  { unfold asdict at 1, dict_update. rewrite fold_left_app.
    fold (dict_update (RuntimeOptions_asdict g)
                      (RuntimeOptions_asdict (runtime self))).
    match goal with |- dict_keys (fold_left ?f ?l ?a) = _ =>
      change (fold_left f l a) with (dict_update a l) end.
    rewrite asdict_keys in *.
    rewrite keys_update_absent.
    - rewrite keys_update_present by (intros x Hx; exact Hx).
      unfold dict_keys. rewrite map_map. reflexivity.
    - rewrite keys_update_present by (intros x Hx; exact Hx).
      unfold dict_keys at 2. rewrite map_map. exact Hnd. }
  rewrite keys_fallback_loop; [exact Hu|].
  rewrite Hu. intros x Hx. exact Hx.
Qed.

(** X1. The merged dictionary has the fields of the class of [self], each
    once and in declaration order: the merge adds no key and loses none,
    so the constructor call that follows it is given exactly the keyword
    arguments the class declares. *)
Theorem merged_fields_kept {A : Type} `{Fields A} (self : A)
    (g : RuntimeOptions) :
  NoDup (dict_keys (asdict self)) ->
  dict_keys (RuntimeOptions_asdict_with_global_options self g) =
    (RuntimeOptions_field_names ++ dict_keys (specific_fields self))%list
  /\ NoDup (dict_keys (RuntimeOptions_asdict_with_global_options self g)).
Proof.
  intros Hnd. rewrite merged_keys by exact Hnd. split; [apply asdict_keys|exact Hnd].
Qed.

Lemma merged_fields_kept_witness :
  dict_keys (RuntimeOptions_asdict_with_global_options
               (mkDatabaseOptions RuntimeOptions_default "/a" None)
               (mkRuntimeOptions (VStr "us-east1") VNone VNone VNone VNone
                                 VNone VNone VNone VNone VNone VNone VNone VNone))
  = (RuntimeOptions_field_names ++ ["reference"; "instance"])%list.
Proof.
  exact (proj1 (merged_fields_kept
                  (mkDatabaseOptions RuntimeOptions_default "/a" None) _
                  (asdict_distinct_DatabaseOptions _))).
Defined.

(** The value the merge picks for a base field: the per-function value
    unless it is [None], the value of the global record then. *)
Definition merged_value (f : RuntimeOptions -> value)
    (local g : RuntimeOptions) : value :=
  if is_None (f local) then f g else f local.

(** The entry of a base field in the merged dictionary: the value the merge
    picks, as [dataclasses.asdict] renders it. *)
Definition resolved (f : RuntimeOptions -> value)
    (local g : RuntimeOptions) : value :=
  asdict_inner (if is_None (f local) then f g else f local).

(** The class hands the base fields of the base merge on to [_endpoint]. *)
Definition keeps_base_fields {A : Type} `{OptionsClass A}
    (self : A) (g : RuntimeOptions) : Prop :=
  forall k, In k RuntimeOptions_field_names ->
    dict_get k (asdict_with_global_options self g) =
    dict_get k (RuntimeOptions_asdict_with_global_options self g).

Lemma keeps_base_fields_base {A : Type} `{OptionsClass A}
    (self : A) (g : RuntimeOptions) :
  asdict_with_global_options self g =
    RuntimeOptions_asdict_with_global_options self g ->
  keeps_base_fields self g.
Proof. intros Hm k _. now rewrite Hm. Qed.

Lemma keeps_base_fields_Https (self : HttpsOptions) (g : RuntimeOptions) :
  keeps_base_fields self g.
Proof.
  intros k Hk. cbv [asdict_with_global_options HttpsOptions_Class].
  unfold HttpsOptions_asdict_with_global_options.
  apply dict_get_del_ne. intros ->. simpl in Hk. intuition discriminate.
Qed.

Lemma kwarg_merged {A : Type} `{OptionsClass A} (self : A)
    (g : RuntimeOptions) (k : string) (f : RuntimeOptions -> value) :
  keeps_base_fields self g ->
  NoDup (dict_keys (asdict self)) ->
  In (k, f) RuntimeOptions_fields ->
  kwarg k (asdict_with_global_options self g) = resolved f (runtime self) g.
Proof.
  intros Hk Hnd Hin. unfold kwarg.
  rewrite (Hk k (field_name_in k f Hin)).
  now rewrite (merged_get_base self g Hnd k f Hin).
Qed.

Ltac in_fields := simpl; tauto.

(** What [RuntimeOptions._endpoint] has done when it returns. *)
Lemma endpoint_Ok_inv {A : Type} `{OptionsClass A} (self : A)
    (g : RuntimeOptions) (kwargs : dict) (ep : ManifestEndpoint) :
  RuntimeOptions_endpoint self g kwargs = Ok ep ->
  exists func_name v,
    dict_get "func_name" kwargs = Some func_name
    /\ is_None func_name = false
    /\ vpc_of (kwarg "vpc_connector" (asdict_with_global_options self g))
              (kwarg "vpc_connector_egress_settings"
                     (asdict_with_global_options self g)) = Ok v
    /\ ep = (let options :=
               options_of_dict (asdict_with_global_options self g) in
             mkManifestEndpoint
               func_name (region_of (region options)) (memory options)
               (labels options) (max_instances options)
               (min_instances options) (concurrency options)
               (service_account options) (timeout_sec options) (cpu options)
               (ingress options) (secret_envs_of (secrets options)) v None).
Proof.
  unfold RuntimeOptions_endpoint, dict_item.
  destruct (dict_get "func_name" kwargs) as [fn|]; cbn [bind]; [|discriminate].
  destruct (is_None fn) eqn:En; cbn [negb assert bind]; [discriminate|].
  destruct (vpc_of _ _) as [v|] eqn:Ev; cbn [bind]; [|discriminate].
  intros Hep. injection Hep as <-. exists fn, v. auto.
Qed.

(** X2. Every scalar setting of a manifest entry is the entry of its option
    in the merged dictionary: the value the merge picks (the per-function
    value when it is not [None], the reset sentinel included, and the value
    of the global record otherwise) as [dataclasses.asdict] renders it. The
    rendering turns a dataclass instance, such as a parameter expression,
    into the dictionary of its fields, and leaves a value with no dataclass
    instance inside as it is, so for such a value the setting is the picked
    value itself. The region is the rendered region, as it stands when it
    is a list, inside a one-element list when it is a single value, and
    absent when no record sets it. *)
Theorem endpoint_fields_resolved {A : Type} `{OptionsClass A} (self : A)
    (g : RuntimeOptions) (kwargs : dict) (ep : ManifestEndpoint) :
  keeps_base_fields self g ->
  NoDup (dict_keys (asdict self)) ->
  RuntimeOptions_endpoint self g kwargs = Ok ep ->
  let r := runtime self in
  let rendered f := asdict_inner (merged_value f r g) in
  availableMemoryMb ep = rendered memory
  /\ timeoutSeconds ep = rendered timeout_sec
  /\ minInstances ep = rendered min_instances
  /\ maxInstances ep = rendered max_instances
  /\ endpoint_concurrency ep = rendered concurrency
  /\ endpoint_cpu ep = rendered cpu
  /\ serviceAccountEmail ep = rendered service_account
  /\ ingressSettings ep = rendered ingress
  /\ endpoint_labels ep = rendered labels
  /\ endpoint_region ep =
     match rendered region with
     | VList l => VList l
     | VNone => VNone
     | single => VList [single]
     end
  /\ (forall f, plain (merged_value f r g) = true ->
        rendered f = merged_value f r g).
Proof.
  intros Hk Hnd Hep r rendered.
  apply endpoint_Ok_inv in Hep as (fn & v & _ & _ & _ & ->).
  cbn [availableMemoryMb timeoutSeconds minInstances maxInstances
       endpoint_concurrency endpoint_cpu serviceAccountEmail ingressSettings
       endpoint_labels endpoint_region options_of_dict
       memory timeout_sec min_instances max_instances concurrency cpu
       service_account ingress labels region].
  rewrite (kwarg_merged self g "memory" memory Hk Hnd) by in_fields.
  rewrite (kwarg_merged self g "timeout_sec" timeout_sec Hk Hnd) by in_fields.
  rewrite (kwarg_merged self g "min_instances" min_instances Hk Hnd) by in_fields.
  rewrite (kwarg_merged self g "max_instances" max_instances Hk Hnd) by in_fields.
  rewrite (kwarg_merged self g "concurrency" concurrency Hk Hnd) by in_fields.
  rewrite (kwarg_merged self g "cpu" cpu Hk Hnd) by in_fields.
  rewrite (kwarg_merged self g "service_account" service_account Hk Hnd)
    by in_fields.
  rewrite (kwarg_merged self g "ingress" ingress Hk Hnd) by in_fields.
  rewrite (kwarg_merged self g "labels" labels Hk Hnd) by in_fields.
  rewrite (kwarg_merged self g "region" region Hk Hnd) by in_fields.
  repeat (split; [reflexivity|]). split.
  - unfold region_of. subst r rendered. cbv beta.
    change (asdict_inner (merged_value region (runtime self) g))
      with (resolved region (runtime self) g).
    now destruct (resolved region (runtime self) g).
  - intros f Hp. subst rendered. cbv beta. now apply asdict_inner_plain.
Qed.

Lemma endpoint_fields_resolved_witness :
  let self :=
    mkHttpsOptions
      (mkRuntimeOptions VNone USE_DEFAULT VNone VNone (VInt 3) VNone VNone
                        VNone VNone VNone VNone VNone VNone)
      (VStr "public") (CorsOptions (VStr "*") VNone) in
  let g :=
    mkRuntimeOptions (VStr "europe-west1") (VInt 512) (VInt 60) VNone
                     (VInt 10) VNone VNone VNone VNone VNone VNone VNone VNone in
  exists ep,
    RuntimeOptions_endpoint self g [("func_name", VStr "hello")] = Ok ep
    /\ availableMemoryMb ep = USE_DEFAULT
    /\ timeoutSeconds ep = VInt 60
    /\ maxInstances ep = VInt 3
    /\ endpoint_region ep = VList [VStr "europe-west1"].
Proof.
  intros self g. eexists. split; [vm_compute; reflexivity|].
  match goal with |- context [availableMemoryMb ?e] =>
    pose proof (endpoint_fields_resolved self g [("func_name", VStr "hello")] e
                  (keeps_base_fields_Https self g)
                  (asdict_distinct_HttpsOptions self) eq_refl)
      as (Hmem & Htime & _ & Hmax & _ & _ & _ & _ & _ & Hregion & _)
  end.
  exact (conj Hmem (conj Htime (conj Hmax Hregion))).
Defined.

Lemma keys_del_filter (k : string) (d : dict) :
  dict_keys (dict_del k d) =
  filter (fun k' => negb (String.eqb k k')) (dict_keys d).
Proof.
  induction d as [|[k' v'] d IH]; simpl; auto.
  destruct (String.eqb k k'); simpl; now rewrite IH.
Qed.

(** X3. For an HTTPS function the merge is the base merge with the key
    [cors] taken out and nothing else changed: the keys left are the base
    fields and [invoker], and each of them has the entry of the base
    merge. *)
Theorem https_merge_is_base_without_cors (self : HttpsOptions)
    (g : RuntimeOptions) :
  dict_keys (asdict_with_global_options self g) =
    (RuntimeOptions_field_names ++ ["invoker"])%list
  /\ dict_get "cors" (asdict_with_global_options self g) = None
  /\ (forall k, k <> "cors" ->
        dict_get k (asdict_with_global_options self g) =
        dict_get k (RuntimeOptions_asdict_with_global_options self g))
  /\ dict_get "invoker" (asdict_with_global_options self g) =
       Some (asdict_inner (invoker self)).
Proof.
  cbv [asdict_with_global_options HttpsOptions_Class].
  unfold HttpsOptions_asdict_with_global_options.
  split; [|split; [|split]].
  - rewrite keys_del_filter,
      (merged_keys self g (asdict_distinct_HttpsOptions self)).
    reflexivity.
  - apply dict_get_del_eq.
  - intros k Hk. now apply dict_get_del_ne.
  - rewrite dict_get_del_ne by discriminate.
    rewrite (merged_get_specific self g (asdict_distinct_HttpsOptions self))
      by (simpl; intuition discriminate).
    reflexivity.
Qed.

Lemma https_merge_is_base_without_cors_witness :
  dict_get "region"
    (asdict_with_global_options
       (mkHttpsOptions RuntimeOptions_default (VStr "public")
                       (CorsOptions (VStr "*") VNone))
       (mkRuntimeOptions (VStr "us-east1") VNone VNone VNone VNone VNone
                         VNone VNone VNone VNone VNone VNone VNone))
  = dict_get "region"
      (RuntimeOptions_asdict_with_global_options
         (mkHttpsOptions RuntimeOptions_default (VStr "public")
                         (CorsOptions (VStr "*") VNone))
         (mkRuntimeOptions (VStr "us-east1") VNone VNone VNone VNone VNone
                           VNone VNone VNone VNone VNone VNone VNone)).
Proof.
  apply (proj1 (proj2 (proj2 (https_merge_is_base_without_cors _ _)))).
  discriminate.
Defined.

(** X4. The preconditions of the entry builders. Without a [func_name]
    keyword [RuntimeOptions._endpoint] raises [KeyError], and with
    [func_name = None] it fails its assertion. [DatabaseOptions._endpoint]
    checks [event_type] in the same way and does so first, whatever
    [func_name] is. *)
Theorem endpoint_preconditions {A : Type} `{OptionsClass A} (self : A)
    (db : DatabaseOptions) (g : RuntimeOptions) (kwargs : dict) :
  (dict_get "func_name" kwargs = None ->
     RuntimeOptions_endpoint self g kwargs = Raise (KeyError "func_name"))
  /\ (dict_get "func_name" kwargs = Some VNone ->
     RuntimeOptions_endpoint self g kwargs = Raise AssertionError)
  /\ (dict_get "event_type" kwargs = None ->
     DatabaseOptions_endpoint db g kwargs = Raise (KeyError "event_type"))
  /\ (dict_get "event_type" kwargs = Some VNone ->
     DatabaseOptions_endpoint db g kwargs = Raise AssertionError)
  /\ (forall t, dict_get "event_type" kwargs = Some t -> is_None t = false ->
      dict_get "func_name" kwargs = None ->
      DatabaseOptions_endpoint db g kwargs = Raise (KeyError "func_name")).
Proof.
  unfold DatabaseOptions_endpoint, RuntimeOptions_endpoint, dict_item.
  repeat split.
  - intros ->. reflexivity.
  - intros ->. reflexivity.
  - intros ->. reflexivity.
  - intros ->. reflexivity.
  - intros t -> Ht ->. cbn [bind]. rewrite Ht. reflexivity.
Qed.

Lemma endpoint_preconditions_witness :
  DatabaseOptions_endpoint
    (mkDatabaseOptions RuntimeOptions_default "/a" None)
    RuntimeOptions_default [("event_type", VStr "written")]
  = Raise (KeyError "func_name").
Proof.
  exact (proj2 (proj2 (proj2 (proj2
    (endpoint_preconditions
       RuntimeOptions_default
       (mkDatabaseOptions RuntimeOptions_default "/a" None)
       RuntimeOptions_default [("event_type", VStr "written")]))))
    (VStr "written") eq_refl eq_refl eq_refl).
Defined.

(** After [dataclasses.asdict] no element of [secrets] is an instance of
    [SecretParam], so [convert_secret] binds each element as it is. *)
Lemma convert_secret_rendered (x : value) :
  convert_secret (asdict_inner x) = VDict [("key", asdict_inner x)].
Proof. destruct x; reflexivity. Qed.

(** X5. The secret bindings of an entry. When no record sets [secrets] the
    entry has the empty list, not an absent value. When the value the merge
    picks for [secrets] is a list, the entry has one binding per secret, in
    order, each a dictionary with the single key [key] that holds the
    secret as [dataclasses.asdict] renders it. A secret given as a string
    is bound under that string. A secret given as a [SecretParam] is bound
    under the dictionary of the parameter's fields and not under its name:
    the merge has rendered it before [convert_secret] tests for
    [SecretParam], so the test never succeeds. *)
Theorem secret_bindings {A : Type} `{OptionsClass A} (self : A)
    (g : RuntimeOptions) (kwargs : dict) (ep : ManifestEndpoint) :
  keeps_base_fields self g ->
  NoDup (dict_keys (asdict self)) ->
  RuntimeOptions_endpoint self g kwargs = Ok ep ->
  let picked := merged_value secrets (runtime self) g in
  (is_None picked = true -> secretEnvironmentVariables ep = VList [])
  /\ (forall l, picked = VList l ->
      exists envs,
        secretEnvironmentVariables ep = VList envs
        /\ List.length envs = List.length l
        /\ (forall i x, nth_error l i = Some x ->
              nth_error envs i = Some (VDict [("key", asdict_inner x)]))
        /\ (forall i name, nth_error l i = Some (VStr name) ->
              nth_error envs i = Some (VDict [("key", VStr name)]))
        /\ (forall i name, nth_error l i = Some (SecretParam name) ->
              nth_error envs i =
              Some (VDict [("key", VDict [("name", VStr name);
                                          ("label", VNone);
                                          ("description", VNone);
                                          ("immutable", VNone)])]))).
Proof.
  intros Hk Hnd Hep picked.
  apply endpoint_Ok_inv in Hep as (fn & v & _ & _ & _ & ->).
  cbn [secretEnvironmentVariables options_of_dict secrets].
  rewrite (kwarg_merged self g "secrets" secrets Hk Hnd) by in_fields.
  change (resolved secrets (runtime self) g) with (asdict_inner picked).
  split.
  - intros Hn. unfold secret_envs_of.
    now rewrite is_None_asdict_inner, Hn.
  - intros l ->. exists (map convert_secret (map asdict_inner l)).
    assert (Hnth : forall i x, nth_error l i = Some x ->
              nth_error (map convert_secret (map asdict_inner l)) i
              = Some (VDict [("key", asdict_inner x)])).
    { intros i x Hx.
      now rewrite nth_error_map, nth_error_map, Hx; cbn [option_map];
        rewrite convert_secret_rendered. }
    split; [|split; [|split; [|split]]].
    + reflexivity.
    + now rewrite !length_map.
    + exact Hnth.
    + intros i name Hx. exact (Hnth i _ Hx).
    + intros i name Hx. exact (Hnth i _ Hx).
Qed.

Lemma RuntimeOptions_keeps_base_merge (self : RuntimeOptions)
    (g : RuntimeOptions) :
  asdict_with_global_options self g =
    RuntimeOptions_asdict_with_global_options self g.
Proof. cbv [asdict_with_global_options RuntimeOptions_Class]. reflexivity. Qed.

Lemma secret_bindings_witness :
  exists ep envs,
    RuntimeOptions_endpoint
      (mkRuntimeOptions VNone VNone VNone VNone VNone VNone VNone VNone
                        VNone VNone VNone VNone
                        (VList [VStr "API_KEY"; SecretParam "DB_PASSWORD"]))
      RuntimeOptions_default [("func_name", VStr "f")] = Ok ep
    /\ secretEnvironmentVariables ep = VList envs
    /\ List.length envs = 2%nat
    /\ nth_error envs 0 = Some (VDict [("key", VStr "API_KEY")])
    /\ nth_error envs 1 =
       Some (VDict [("key", VDict [("name", VStr "DB_PASSWORD");
                                   ("label", VNone);
                                   ("description", VNone);
                                   ("immutable", VNone)])]).
Proof.
  eexists.
  match goal with |- exists envs, ?c = Ok ?e /\ _ =>
    assert (Hep : c = Ok e) by (vm_compute; reflexivity);
    destruct (proj2 (secret_bindings _ _ _ e
      (keeps_base_fields_base _ _ (RuntimeOptions_keeps_base_merge _ _))
      (asdict_distinct_RuntimeOptions _) Hep) _ eq_refl)
      as (envs & Henvs & Hlen & _ & Hstr & Hparam)
  end.
  exists envs.
  exact (conj Hep (conj Henvs (conj Hlen
          (conj (Hstr 0%nat _ eq_refl) (Hparam 1%nat _ eq_refl))))).
Defined.

(** X6. The VPC settings of an entry, for a function name that is given.
    Without a merged connector the entry has no [vpc], and an egress
    setting alone is dropped. With a connector and no egress setting the
    [vpc] holds the connector only; with an egress setting that is an
    enumeration member it holds the member's value as well. With a
    connector and an egress setting that is no enumeration member, such as
    a plain string, building the entry raises [AttributeError]. *)
Theorem vpc_settings {A : Type} `{OptionsClass A} (self : A)
    (g : RuntimeOptions) (kwargs : dict) (func_name : value) :
  keeps_base_fields self g ->
  NoDup (dict_keys (asdict self)) ->
  dict_get "func_name" kwargs = Some func_name ->
  is_None func_name = false ->
  let connector := resolved vpc_connector (runtime self) g in
  let egress := resolved vpc_connector_egress_settings (runtime self) g in
  (is_None connector = true ->
     exists ep, RuntimeOptions_endpoint self g kwargs = Ok ep
                /\ vpc ep = VNone)
  /\ (is_None connector = false -> is_None egress = true ->
     exists ep, RuntimeOptions_endpoint self g kwargs = Ok ep
                /\ vpc ep = VDict [("connector", connector)])
  /\ (is_None connector = false ->
      forall cls v, egress = VEnum cls v ->
      exists ep, RuntimeOptions_endpoint self g kwargs = Ok ep
                 /\ vpc ep = VDict [("connector", connector);
                                    ("egressSettings", v)])
  /\ (is_None connector = false -> is_None egress = false ->
      (forall cls v, egress <> VEnum cls v) ->
      RuntimeOptions_endpoint self g kwargs = Raise AttributeError).
Proof.
  intros Hk Hnd Hfn Hnn connector egress.
  unfold RuntimeOptions_endpoint, dict_item. rewrite Hfn. cbn [bind].
  rewrite Hnn. cbn [negb assert bind options_of_dict vpc_connector
                    vpc_connector_egress_settings].
  rewrite (kwarg_merged self g "vpc_connector" vpc_connector Hk Hnd)
    by in_fields.
  rewrite (kwarg_merged self g "vpc_connector_egress_settings"
                        vpc_connector_egress_settings Hk Hnd) by in_fields.
  fold connector egress. unfold vpc_of.
  split; [|split; [|split]].
  - intros ->. cbn [negb bind]. eexists. split; reflexivity.
  - intros -> ->. cbn [negb bind]. eexists. split; reflexivity.
  - intros -> cls v ->. cbn [negb is_None enum_value bind].
    eexists. split; reflexivity.
  - intros -> He Hne. rewrite He. cbn [negb].
    destruct egress; try reflexivity; try discriminate.
    exfalso. eapply Hne. reflexivity.
Qed.

Lemma vpc_settings_witness :
  (exists ep,
     RuntimeOptions_endpoint
       (mkRuntimeOptions VNone VNone VNone VNone VNone VNone VNone
                         (VStr "my-connector") ALL_TRAFFIC VNone VNone VNone
                         VNone)
       RuntimeOptions_default [("func_name", VStr "f")] = Ok ep
     /\ vpc ep = VDict [("connector", VStr "my-connector");
                        ("egressSettings", VStr "ALL_TRAFFIC")])
  /\ RuntimeOptions_endpoint
       (mkRuntimeOptions VNone VNone VNone VNone VNone VNone VNone
                         (VStr "my-connector") (VStr "ALL_TRAFFIC") VNone
                         VNone VNone VNone)
       RuntimeOptions_default [("func_name", VStr "f")]
     = Raise AttributeError.
Proof.
  pose (enum :=
    mkRuntimeOptions VNone VNone VNone VNone VNone VNone VNone
                     (VStr "my-connector") ALL_TRAFFIC VNone VNone VNone
                     VNone).
  pose (plain_string :=
    mkRuntimeOptions VNone VNone VNone VNone VNone VNone VNone
                     (VStr "my-connector") (VStr "ALL_TRAFFIC") VNone
                     VNone VNone VNone).
  split.
  - exact (proj1 (proj2 (proj2
      (vpc_settings enum RuntimeOptions_default [("func_name", VStr "f")]
         (VStr "f")
         (keeps_base_fields_base _ _ (RuntimeOptions_keeps_base_merge _ _))
         (asdict_distinct_RuntimeOptions _) eq_refl eq_refl)))
      eq_refl "VpcEgressSetting" (VStr "ALL_TRAFFIC") eq_refl).
  - apply (proj2 (proj2 (proj2
      (vpc_settings plain_string RuntimeOptions_default
         [("func_name", VStr "f")] (VStr "f")
         (keeps_base_fields_base _ _ (RuntimeOptions_keeps_base_merge _ _))
         (asdict_distinct_RuntimeOptions _) eq_refl eq_refl)))
      eq_refl eq_refl).
    intros cls v. discriminate.
Defined.

(** X7. How the global [cpu] reaches the entries. Under the record the
    module starts with, a function that sets no [cpu] has no [cpu] in its
    entry. After any call of [set_global_options] that passes no [cpu],
    the same function has ["gcf_gen1"], and a function that sets its own
    [cpu] keeps it. *)
Theorem global_cpu_reaches_entries {A : Type} `{OptionsClass A} (self : A)
    (kwargs : global_kwargs) (old : RuntimeOptions) (call : dict) :
  (forall g, keeps_base_fields self g) ->
  NoDup (dict_keys (asdict self)) ->
  kw_cpu kwargs = None ->
  (cpu (runtime self) = VNone ->
     (forall ep, RuntimeOptions_endpoint self RuntimeOptions_default call
                 = Ok ep -> endpoint_cpu ep = VNone)
     /\ (forall ep, RuntimeOptions_endpoint
                      self (set_global_options kwargs old) call = Ok ep ->
         endpoint_cpu ep = VStr "gcf_gen1"))
  /\ (is_None (cpu (runtime self)) = false ->
      forall ep, RuntimeOptions_endpoint
                   self (set_global_options kwargs old) call = Ok ep ->
      endpoint_cpu ep = asdict_inner (cpu (runtime self))).
Proof.
  intros Hk Hnd Hkw.
  assert (Hcpu : forall g ep,
            RuntimeOptions_endpoint self g call = Ok ep ->
            endpoint_cpu ep = resolved cpu (runtime self) g).
  { intros g ep Hep.
    apply endpoint_Ok_inv in Hep as (fn & v & _ & _ & _ & ->).
    cbn [endpoint_cpu options_of_dict cpu].
    apply (kwarg_merged self g "cpu" cpu (Hk g) Hnd). in_fields. }
  split.
  - intros Hnone. split; intros ep Hep; rewrite (Hcpu _ _ Hep);
      unfold resolved; rewrite Hnone; cbn [is_None].
    + reflexivity.
    + unfold set_global_options. cbn [cpu]. now rewrite Hkw.
  - intros Hset ep Hep. rewrite (Hcpu _ _ Hep). unfold resolved.
    now rewrite Hset.
Qed.

Lemma global_cpu_reaches_entries_witness :
  exists ep,
    RuntimeOptions_endpoint
      (mkPubSubOptions RuntimeOptions_default None "topic")
      (set_global_options
         (mkGlobalKwargs (Some (VStr "us-east1")) None None None None None
                         None None None None None None None)
         RuntimeOptions_default)
      [("func_name", VStr "f")] = Ok ep
    /\ endpoint_cpu ep = VStr "gcf_gen1".
Proof.
  eexists.
  match goal with |- ?c = Ok ?e /\ _ =>
    assert (Hep : c = Ok e) by (vm_compute; reflexivity)
  end.
  split; [exact Hep|].
  exact (proj2 (proj1
    (global_cpu_reaches_entries
       (mkPubSubOptions RuntimeOptions_default None "topic")
       (mkGlobalKwargs (Some (VStr "us-east1")) None None None None None
                       None None None None None None None)
       RuntimeOptions_default [("func_name", VStr "f")]
       (fun g => keeps_base_fields_base _ g
                   (PubSubOptions_keeps_base_merge _ g))
       (asdict_distinct_PubSubOptions _) eq_refl) eq_refl) _ Hep).
Defined.

(** What [dataclasses.asdict] returns has no dataclass instance inside. *)
Fixpoint plain_asdict_inner (v : value) : plain (asdict_inner v) = true.
Proof.
  destruct v; simpl; try reflexivity.
  - induction l as [|x l IH]; simpl; [reflexivity|].
    now rewrite plain_asdict_inner, IH.
  - induction d as [|[k x] d IH]; simpl; [reflexivity|].
    now rewrite plain_asdict_inner, IH.
  - induction fields as [|[k x] d IH]; simpl; [reflexivity|].
    now rewrite plain_asdict_inner, IH.
  - now rewrite !plain_asdict_inner.
Qed.

Lemma plain_region_of (x : value) :
  plain x = true -> plain (region_of x) = true.
Proof.
  destruct x; simpl; intros Hp; try discriminate; rewrite ?Hp; auto.
Qed.

Lemma plain_secret_envs_of (x : value) :
  plain x = true -> plain (secret_envs_of x) = true.
Proof.
  destruct x; simpl; intros Hp; try reflexivity; try discriminate.
  induction l as [|s l IH]; simpl in *; [reflexivity|].
  apply andb_prop in Hp as [Hs Hl]. rewrite (IH Hl), andb_true_r.
  destruct s; simpl in *; rewrite ?Hs; auto.
Qed.

(** The value of an enumeration member has no dataclass instance inside. *)
Definition member_value_plain (x : value) : bool :=
  match x with
  | VEnum _ v => plain v
  | _ => true
  end.

Lemma plain_vpc_of (connector egress v : value) :
  plain connector = true -> member_value_plain egress = true ->
  vpc_of connector egress = Ok v -> plain v = true.
Proof.
  unfold vpc_of. intros Hc He.
  destruct (is_None connector); cbn [negb].
  - intros Hv. injection Hv as <-. reflexivity.
  - destruct (is_None egress); cbn [negb].
    + intros Hv. injection Hv as <-. simpl. now rewrite Hc.
    + destruct egress; cbn [enum_value bind]; try discriminate.
      intros Hv. injection Hv as <-. simpl in *. now rewrite Hc, He.
Qed.

Lemma member_value_plain_resolved (local g : RuntimeOptions) :
  member_value_plain (vpc_connector_egress_settings local) = true ->
  member_value_plain (vpc_connector_egress_settings g) = true ->
  member_value_plain (resolved vpc_connector_egress_settings local g) = true.
Proof.
  unfold resolved. intros Hl Hg.
  destruct (vpc_connector_egress_settings local); simpl in *; auto;
    try (clear; induction l; simpl; auto);
    destruct (vpc_connector_egress_settings g); simpl in *; auto.
Qed.

(** X8. The entry of a database trigger is the base entry of the same
    record and keyword arguments with the event trigger added and no other
    field changed, for a function name and an egress member value that
    hold no dataclass instance. The trigger has the event type of the
    call and never asks for retries. *)
Theorem database_entry_extends_base (self : DatabaseOptions)
    (g : RuntimeOptions) (kwargs : dict) (ep : ManifestEndpoint) :
  DatabaseOptions_endpoint self g kwargs = Ok ep ->
  (forall fn, dict_get "func_name" kwargs = Some fn -> plain fn = true) ->
  member_value_plain (vpc_connector_egress_settings (database_runtime self))
    = true ->
  member_value_plain (vpc_connector_egress_settings g) = true ->
  exists base t,
    RuntimeOptions_endpoint self g kwargs = Ok base
    /\ eventTrigger base = None
    /\ dict_get "event_type" kwargs = Some (eventType t)
    /\ eventTrigger_retry t = false
    /\ ep = mkManifestEndpoint
              (entryPoint base) (endpoint_region base)
              (availableMemoryMb base) (endpoint_labels base)
              (maxInstances base) (minInstances base)
              (endpoint_concurrency base) (serviceAccountEmail base)
              (timeoutSeconds base) (endpoint_cpu base)
              (ingressSettings base) (secretEnvironmentVariables base)
              (vpc base) (Some t).
Proof.
  unfold DatabaseOptions_endpoint, dict_item. intros Hep Hfn Hes Heg.
  destruct (dict_get "event_type" kwargs) as [et|] eqn:Eet;
    cbn [bind] in Hep; [|discriminate].
  destruct (is_None et); cbn [negb assert bind] in Hep; [discriminate|].
  destruct (RuntimeOptions_endpoint self g kwargs) as [base|] eqn:Ebase;
    cbn [bind] in Hep; [|discriminate].
  injection Hep as <-.
  exists base, (DatabaseOptions_event_trigger self et).
  split; [reflexivity|].
  pose proof (keeps_base_fields_base self g
                (DatabaseOptions_keeps_base_merge self g)) as Hk.
  pose proof (asdict_distinct_DatabaseOptions self) as Hnd.
  apply endpoint_Ok_inv in Ebase as (fn & v & Hf & _ & Hv & ->).
  rewrite (kwarg_merged self g "vpc_connector" vpc_connector Hk Hnd) in Hv
    by in_fields.
  rewrite (kwarg_merged self g "vpc_connector_egress_settings"
                        vpc_connector_egress_settings Hk Hnd) in Hv
    by in_fields.
  apply plain_vpc_of in Hv;
    [|apply plain_asdict_inner
     |now apply (member_value_plain_resolved (database_runtime self) g)].
  split; [reflexivity|]. split.
  { unfold DatabaseOptions_event_trigger.
    now destruct (contains_char _ _). }
  split.
  { unfold DatabaseOptions_event_trigger.
    now destruct (contains_char _ _). }
  unfold with_eventTrigger.
  cbn [entryPoint endpoint_region availableMemoryMb endpoint_labels
       maxInstances minInstances endpoint_concurrency serviceAccountEmail
       timeoutSeconds endpoint_cpu ingressSettings
       secretEnvironmentVariables vpc options_of_dict
       memory timeout_sec min_instances max_instances concurrency cpu
       service_account ingress labels region secrets].
  rewrite (kwarg_merged self g "memory" memory Hk Hnd) by in_fields.
  rewrite (kwarg_merged self g "timeout_sec" timeout_sec Hk Hnd) by in_fields.
  rewrite (kwarg_merged self g "min_instances" min_instances Hk Hnd) by in_fields.
  rewrite (kwarg_merged self g "max_instances" max_instances Hk Hnd) by in_fields.
  rewrite (kwarg_merged self g "concurrency" concurrency Hk Hnd) by in_fields.
  rewrite (kwarg_merged self g "cpu" cpu Hk Hnd) by in_fields.
  rewrite (kwarg_merged self g "service_account" service_account Hk Hnd)
    by in_fields.
  rewrite (kwarg_merged self g "ingress" ingress Hk Hnd) by in_fields.
  rewrite (kwarg_merged self g "labels" labels Hk Hnd) by in_fields.
  rewrite (kwarg_merged self g "region" region Hk Hnd) by in_fields.
  rewrite (kwarg_merged self g "secrets" secrets Hk Hnd) by in_fields.
  unfold resolved.
  rewrite !(asdict_inner_plain (asdict_inner _)) by apply plain_asdict_inner.
  rewrite (asdict_inner_plain fn) by (apply Hfn; exact Hf).
  rewrite (asdict_inner_plain v) by exact Hv.
  rewrite (asdict_inner_plain (region_of _))
    by (apply plain_region_of, plain_asdict_inner).
  rewrite (asdict_inner_plain (secret_envs_of _))
    by (apply plain_secret_envs_of, plain_asdict_inner).
  reflexivity.
Qed.

Lemma database_entry_extends_base_witness :
  exists ep base t,
    DatabaseOptions_endpoint
      (mkDatabaseOptions
         (mkRuntimeOptions (VStr "us-east1") (VInt 256) VNone VNone VNone
                           VNone VNone VNone VNone VNone VNone VNone
                           (VList [VStr "KEY"]))
         "/rooms/{id}" (Some "db-1"))
      RuntimeOptions_default
      [("func_name", VStr "on_room"); ("event_type", VStr "created")] = Ok ep
    /\ RuntimeOptions_endpoint
         (mkDatabaseOptions
            (mkRuntimeOptions (VStr "us-east1") (VInt 256) VNone VNone VNone
                              VNone VNone VNone VNone VNone VNone VNone
                              (VList [VStr "KEY"]))
            "/rooms/{id}" (Some "db-1"))
         RuntimeOptions_default
         [("func_name", VStr "on_room"); ("event_type", VStr "created")]
       = Ok base
    /\ eventTrigger ep = Some t
    /\ secretEnvironmentVariables ep = secretEnvironmentVariables base
    /\ endpoint_region ep = endpoint_region base.
Proof.
  eexists.
  match goal with |- exists base t, ?c = Ok ?e /\ _ =>
    assert (Hep : c = Ok e) by (vm_compute; reflexivity);
    destruct (database_entry_extends_base _ _ _ e Hep) as
      (base & t & Hbase & _ & _ & _ & Heq)
  end.
  - intros fn Hfn. injection Hfn as <-. reflexivity.
  - reflexivity.
  - reflexivity.
  - exists base, t. split; [exact Hep|]. split; [exact Hbase|].
    split; [|split].
    + exact (f_equal eventTrigger Heq).
    + exact (f_equal secretEnvironmentVariables Heq).
    + exact (f_equal endpoint_region Heq).
Defined.

End OptionsExtra.


(* ================================================================== *)
(** * More of private/util.py *)
(* ================================================================== *)

Module UtilMore.
Import Py.

(** The [RuntimeError] of a dictionary iterator: its next step after the
    dictionary changed size raises it. *)
Definition RuntimeError : exn :=
  Exception "RuntimeError: dictionary changed size during iteration".

(** The loop [for key in obj] of [prune_nones], on the entries still to
    visit: what is left of them and the exception raised, if any. [del
    obj[key]] takes the entry out, and the step of the iterator that
    follows raises. A nested dictionary is pruned in place, so what the
    nested call leaves is what the entry holds afterwards. *)
Definition prune_entries (prune_nones : value -> value * option exn) :=
  fix loop (entries : list (string * value))
      : list (string * value) * option exn :=
    match entries with
    | [] => ([], None)
    | (key, x) :: rest =>
        if is_None x then (rest, Some RuntimeError)
        else if isinstance_dict x then
          match prune_nones x with
          | (x', Some e) => ((key, x') :: rest, Some e)
          | (x', None) =>
              let (rest', r) := loop rest in ((key, x') :: rest', r)
          end
        else let (rest', r) := loop rest in ((key, x) :: rest', r)
    end.

(** [prune_nones] on a value that is a dictionary *)
Fixpoint prune_value (obj : value) : value * option exn :=
  match obj with
  | VDict d =>
      let (d', r) := prune_entries prune_value d in (VDict d', r)
  | _ => (obj, None)
  end.

(** [prune_nones(obj)]: the dictionary [obj] as the call leaves it, and
    what the call returns or raises. *)
Definition prune_nones (obj : dict) : dict * result dict :=
  let (final, r) := prune_entries prune_value obj in
  (final, match r with None => Ok final | Some e => Raise e end).

(** [class FirebaseConfig] *)
Record FirebaseConfig : Type := mkFirebaseConfig {
  storage_bucket : value
}.

(** What [firebase_config] reads of its surroundings: [os.getenv], the
    text of a file that [open] and [read] give or the exception they
    raise, and [json.loads], with [None] for the exception it raises. *)
Class Environment : Type := {
  getenv : string -> option string;
  read_file : string -> result string;
  loads : string -> option value
}.

(** [x.get(k)] *)
Definition get_method (x : value) (k : string) : result value :=
  match x with
  | VDict d => Ok (match dict_get k d with Some v => v | None => VNone end)
  | _ => Raise AttributeError
  end.

Definition firebase_config {E : Environment} : result (option FirebaseConfig) :=
  match getenv "FIREBASE_CONFIG" with
  | None => Ok None
  | Some config_file =>
      if String.eqb config_file "" then Ok None
      else
        json_str <-
          (if startswith config_file "{" then Ok config_file
           else try_except (read_file config_file)
                           (fun err => Raise ValueError)) ;;
        json_data <-
          match loads json_str with
          | Some v => Ok v
          | None => Raise ValueError
          end ;;
        bucket <- get_method json_data "storageBucket" ;;
        Ok (Some (mkFirebaseConfig bucket))
  end.

End UtilMore.

Module UtilExtra.
Import Py PyFacts Util UtilSpec UtilMore.

(** No [None] is the value of a key, in the dictionary or in a dictionary
    nested in it as the value of a key. *)
Fixpoint none_free (v : value) : bool :=
  match v with
  | VDict d =>
      forallb (fun kv => negb (is_None (snd kv)) && none_free (snd kv)) d
  | _ => true
  end.

(** The number of keys whose value is [None], nested dictionaries
    included. *)
Fixpoint count_nones (v : value) : nat :=
  match v with
  | VDict d =>
      list_sum (map (fun kv => if is_None (snd kv) then 1%nat
                               else count_nones (snd kv)) d)
  | _ => 0%nat
  end.

Definition prune_outcome (v : value) : Prop :=
  if none_free v then prune_value v = (v, None)
  else exists v', prune_value v = (v', Some RuntimeError)
                  /\ count_nones v = S (count_nones v').

Lemma none_free_cons (k : string) (x : value) (rest : list (string * value)) :
  none_free (VDict ((k, x) :: rest)) =
  negb (is_None x) && none_free x && none_free (VDict rest).
Proof. reflexivity. Qed.

Lemma count_nones_cons (k : string) (x : value)
    (rest : list (string * value)) :
  count_nones (VDict ((k, x) :: rest)) =
  ((if is_None x then 1 else count_nones x) + count_nones (VDict rest))%nat.
Proof. reflexivity. Qed.

Lemma prune_entries_cons (k : string) (x : value)
    (rest : list (string * value)) :
  prune_entries prune_value ((k, x) :: rest) =
  if is_None x then (rest, Some RuntimeError)
  else if isinstance_dict x then
    match prune_value x with
    | (x', Some e) => ((k, x') :: rest, Some e)
    | (x', None) =>
        let (rest', r) := prune_entries prune_value rest in
        ((k, x') :: rest', r)
    end
  else let (rest', r) := prune_entries prune_value rest in
       ((k, x) :: rest', r).
Proof. reflexivity. Qed.

Lemma prune_entries_outcome (d : list (string * value)) :
  Forall (fun kv => prune_outcome (snd kv)) d ->
  if none_free (VDict d) then prune_entries prune_value d = (d, None)
  else exists d', prune_entries prune_value d = (d', Some RuntimeError)
                  /\ count_nones (VDict d) = S (count_nones (VDict d')).
Proof.
  induction 1 as [|[key x] rest Hx _ IH]; [reflexivity|].
  rewrite none_free_cons, count_nones_cons, prune_entries_cons.
  cbn [snd] in Hx. unfold prune_outcome in Hx.
  destruct (is_None x) eqn:En; cbn [negb andb].
  - exists rest. split; reflexivity.
  - destruct (isinstance_dict x) eqn:Ed.
    + destruct (none_free x) eqn:Ex; cbn [andb].
      * rewrite Hx.
        destruct (none_free (VDict rest)).
        -- rewrite IH. reflexivity.
        -- destruct IH as [d' [Hd' Hc]]. rewrite Hd'.
           exists ((key, x) :: d'). split; [reflexivity|].
           rewrite count_nones_cons, En, Hc. lia.
      * destruct Hx as [x' [Hx' Hc]]. rewrite Hx'.
        exists ((key, x') :: rest). split; [reflexivity|].
        assert (En' : is_None x' = false).
        { destruct x; try discriminate. cbn [prune_value] in Hx'.
          destruct (prune_entries prune_value d). injection Hx' as <- _.
          reflexivity. }
        rewrite count_nones_cons, En', Hc. lia.
    + assert (Hf : none_free x = true) by (destruct x; auto; discriminate).
      assert (Hz : count_nones x = 0%nat) by (destruct x; auto; discriminate).
      rewrite Hf. cbn [andb].
      destruct (none_free (VDict rest)).
      * rewrite IH. reflexivity.
      * destruct IH as [d' [Hd' Hc]]. rewrite Hd'.
        exists ((key, x) :: d'). split; [reflexivity|].
        rewrite count_nones_cons, En, Hc. lia.
Qed.

Fixpoint prune_value_outcome (v : value) : prune_outcome v.
Proof.
  destruct v; try reflexivity.
  unfold prune_outcome.
  assert (Hall : Forall (fun kv => prune_outcome (snd kv)) d).
  { induction d as [|[k x] d IH]; constructor; [|exact IH].
    apply prune_value_outcome. }
  pose proof (prune_entries_outcome d Hall) as Hd.
  destruct (none_free (VDict d)).
  - cbn [prune_value]. now rewrite Hd.
  - destruct Hd as [d' [Hd' Hc]]. exists (VDict d').
    cbn [prune_value]. rewrite Hd'. auto.
Qed.

(** X9. [prune_nones] returns exactly when no key of the dictionary, or of
    a dictionary nested in it, has the value [None], and then it returns
    the dictionary as it was: the call never returns a dictionary from
    which it removed something. *)
Theorem prune_nones_returns (obj : dict) :
  (none_free (VDict obj) = true -> prune_nones obj = (obj, Ok obj))
  /\ (forall final returned,
        prune_nones obj = (final, Ok returned) ->
        none_free (VDict obj) = true /\ final = obj /\ returned = obj).
Proof.
  pose proof (prune_value_outcome (VDict obj)) as Ho.
  unfold prune_outcome in Ho. unfold prune_nones.
  cbn [prune_value] in Ho.
  destruct (none_free (VDict obj)).
  - destruct (prune_entries prune_value obj) as [d r].
    injection Ho as -> ->. split; [reflexivity|].
    intros final returned Hr. injection Hr as <- <-. auto.
  - destruct Ho as [v' [Hv' _]].
    destruct (prune_entries prune_value obj) as [d r].
    injection Hv' as _ ->. split; [discriminate|].
    intros final returned Hr. discriminate Hr.
Qed.

Lemma prune_nones_returns_witness :
  prune_nones [("a", VInt 1); ("b", VDict [("c", VList [VNone])])]
  = ([("a", VInt 1); ("b", VDict [("c", VList [VNone])])],
     Ok [("a", VInt 1); ("b", VDict [("c", VList [VNone])])]).
Proof.
  exact (proj1 (prune_nones_returns
                  [("a", VInt 1); ("b", VDict [("c", VList [VNone])])])
               eq_refl).
Defined.

(** X10. When some key, at the top or in a nested dictionary, has the
    value [None], [prune_nones] raises the [RuntimeError] of the
    dictionary iterator, having removed one such key and no more: the
    dictionary it leaves has exactly one [None] fewer. *)
Theorem prune_nones_raises (obj : dict) :
  none_free (VDict obj) = false ->
  exists final,
    prune_nones obj = (final, Raise RuntimeError)
    /\ count_nones (VDict obj) = S (count_nones (VDict final)).
Proof.
  intros Hn. pose proof (prune_value_outcome (VDict obj)) as Ho.
  unfold prune_outcome in Ho. rewrite Hn in Ho.
  destruct Ho as [v' [Hv' Hc]]. cbn [prune_value] in Hv'.
  unfold prune_nones.
  destruct (prune_entries prune_value obj) as [d r].
  injection Hv' as <- ->. exists d. auto.
Qed.

Lemma prune_nones_raises_witness :
  exists final,
    prune_nones [("a", VNone); ("b", VNone)] = (final, Raise RuntimeError)
    /\ count_nones (VDict final) = 1%nat.
Proof.
  destruct (prune_nones_raises [("a", VNone); ("b", VNone)] eq_refl)
    as [final [Hf Hc]].
  exists final. split; [exact Hf|].
  cbn in Hc. injection Hc as Hc. symmetry. exact Hc.
Defined.

(** ** [firebase_config] *)

(** X11. The outcomes of [firebase_config]. It returns no configuration
    exactly when [FIREBASE_CONFIG] is unset or empty. Otherwise the text it
    parses is the variable itself when that starts with an opening brace,
    and what the file the variable names holds when it does not; a file
    that cannot be read gives [ValueError]. A text that [json.loads]
    rejects gives [ValueError]. A text that parses to a JSON object gives
    the configuration whose bucket is the [storageBucket] entry of that
    object, or [None] when the object has none. A text that parses to
    anything else gives [AttributeError]. *)
Theorem firebase_config_outcomes {E : Environment} :
  (firebase_config = Ok None <->
     getenv "FIREBASE_CONFIG" = None \/ getenv "FIREBASE_CONFIG" = Some "")
  /\ (forall config_file,
        getenv "FIREBASE_CONFIG" = Some config_file -> config_file <> "" ->
        (forall err, startswith config_file "{" = false ->
           read_file config_file = Raise err ->
           firebase_config = Raise ValueError)
        /\ (forall text,
              (startswith config_file "{" = true /\ text = config_file)
              \/ (startswith config_file "{" = false
                  /\ read_file config_file = Ok text) ->
              (loads text = None -> firebase_config = Raise ValueError)
              /\ (forall d, loads text = Some (VDict d) ->
                    firebase_config =
                    Ok (Some (mkFirebaseConfig
                                match dict_get "storageBucket" d with
                                | Some b => b
                                | None => VNone
                                end)))
              /\ (forall v, loads text = Some v ->
                    isinstance_dict v = false ->
                    firebase_config = Raise AttributeError))).
Proof.
  unfold firebase_config. split.
  - destruct (getenv "FIREBASE_CONFIG") as [config_file|] eqn:Eg;
      [|split; auto].
    destruct (String.eqb config_file "") eqn:Ee.
    { apply String.eqb_eq in Ee. subst. split; auto. }
    apply String.eqb_neq in Ee.
    split.
    + intros Hc. exfalso.
      destruct (startswith config_file "{"); cbn [bind] in Hc.
      * destruct (loads config_file) as [v|]; cbn [bind] in Hc;
          [|discriminate].
        destruct v; cbn [get_method bind] in Hc; discriminate.
      * destruct (read_file config_file) as [text|err];
          cbn [try_except bind] in Hc; [|discriminate].
        destruct (loads text) as [v|]; cbn [bind] in Hc; [|discriminate].
        destruct v; cbn [get_method bind] in Hc; discriminate.
    + intros [Hc|Hc]; [discriminate|]. injection Hc as ->. now destruct Ee.
  - intros config_file -> Hne. apply String.eqb_neq in Hne. rewrite Hne.
    split.
    + intros err -> ->. reflexivity.
    + intros text Htext.
      assert (Hstr : (if startswith config_file "{" then Ok config_file
                      else try_except (read_file config_file)
                                      (fun _ => Raise ValueError))
                     = Ok text).
      { destruct Htext as [[-> ->]|[-> ->]]; reflexivity. }
      rewrite Hstr. cbn [bind]. split; [|split].
      * intros ->. reflexivity.
      * intros d ->. reflexivity.
      * intros v -> Hv. destruct v; try reflexivity. discriminate Hv.
Qed.

(** Surroundings where [FIREBASE_CONFIG] names a file that holds a JSON
    object with a bucket. *)
Definition file_environment : Environment :=
  {| getenv := fun name =>
       if String.eqb name "FIREBASE_CONFIG" then Some "/etc/firebase.json"
       else None;
     read_file := fun path =>
       if String.eqb path "/etc/firebase.json" then Ok "{bucket}"
       else Raise (Exception "FileNotFoundError");
     loads := fun text =>
       if String.eqb text "{bucket}"
       then Some (VDict [("storageBucket", VStr "my-bucket")])
       else None |}.

Lemma firebase_config_outcomes_witness :
  @firebase_config file_environment
  = Ok (Some (mkFirebaseConfig (VStr "my-bucket"))).
Proof.
  destruct (proj2 (@firebase_config_outcomes file_environment)
              "/etc/firebase.json" eq_refl ltac:(discriminate))
    as [_ Htext].
  destruct (Htext "{bucket}" (or_intror (conj eq_refl eq_refl)))
    as (_ & Hobject & _).
  exact (Hobject [("storageBucket", VStr "my-bucket")] eq_refl).
Defined.

(** X12. A configuration given inline, as a text that starts with an
    opening brace, is never looked up as a file: two surroundings with the
    same variable and the same JSON parser give the same outcome, whatever
    their files hold. *)
Theorem inline_config_reads_no_file (E1 E2 : Environment) (config : string) :
  @getenv E1 "FIREBASE_CONFIG" = Some config ->
  @getenv E2 "FIREBASE_CONFIG" = Some config ->
  (forall text, @loads E1 text = @loads E2 text) ->
  startswith config "{" = true ->
  @firebase_config E1 = @firebase_config E2.
Proof.
  intros H1 H2 Hl Hs. unfold firebase_config.
  rewrite H1, H2, Hs. destruct (String.eqb config ""); [reflexivity|].
  cbn [bind]. now rewrite Hl.
Qed.

(** Surroundings with an inline configuration and files that either fail
    or hold another bucket. *)
Definition inline_environment (files : string -> result string)
    : Environment :=
  {| getenv := fun name =>
       if String.eqb name "FIREBASE_CONFIG" then Some "{inline}" else None;
     read_file := files;
     loads := fun text =>
       if String.eqb text "{inline}"
       then Some (VDict [("storageBucket", VStr "bucket-1")])
       else Some (VDict [("storageBucket", VStr "bucket-2")]) |}.

Lemma inline_config_reads_no_file_witness :
  @firebase_config (inline_environment (fun _ => Raise (Exception "no file")))
  = @firebase_config (inline_environment (fun _ => Ok "other")).
Proof.
  exact (inline_config_reads_no_file
           (inline_environment (fun _ => Raise (Exception "no file")))
           (inline_environment (fun _ => Ok "other"))
           "{inline}" eq_refl eq_refl (fun _ => eq_refl) eq_refl).
Defined.

(** ** The shape check: when it raises *)

(** The body makes the shape check raise [e]: the parser raises [e]; or
    the body is a number or a boolean, on which the test for the key
    [data] raises [TypeError]; or it is a string or a list that contains
    ["data"], on which asking for the keys raises [AttributeError]. *)
Definition body_raises (request : Request) (e : exn) : Prop :=
  json request = Raise e
  \/ exists j, json request = Ok j
       /\ match j with
          | VNone | VDict _ => False
          | VStr s => substring_of "data" s = true /\ e = AttributeError
          | VList l =>
              existsb (is_the_str "data") l = true /\ e = AttributeError
          | _ => e = TypeError
          end.

Lemma valid_body_raises (request : Request) (e : exn) :
  _on_call_valid_body request = Raise e <-> body_raises request e.
Proof.
  unfold _on_call_valid_body, body_raises.
  destruct (json request) as [j|e']; cbn [bind].
  - destruct j; cbn [is_None contains keys_of bind negb];
      try (split;
           [intros He; injection He as <-; right; eexists; split;
            [reflexivity|reflexivity]
           |intros [He|[j0 [Hj He]]]; [discriminate|];
            injection Hj as <-; now subst]);
      try (split; [discriminate|];
           intros [He|[j0 [Hj He]]]; [discriminate|];
           injection Hj as <-; contradiction).
    + (* a string *)
      destruct (substring_of "data" s) eqn:Es; cbn [negb].
      * split;
          [intros He; injection He as <-; right; eexists;
           split; [reflexivity|split; [exact Es|reflexivity]]|].
        intros [He|[j0 [Hj He]]]; [discriminate|].
        injection Hj as <-. destruct He as [_ ->]. reflexivity.
      * split; [discriminate|].
        intros [He|[j0 [Hj He]]]; [discriminate|].
        injection Hj as <-. destruct He as [He _]. congruence.
    + (* a list *)
      destruct (existsb (is_the_str "data") l) eqn:Es; cbn [negb].
      * split;
          [intros He; injection He as <-; right; eexists;
           split; [reflexivity|split; [exact Es|reflexivity]]|].
        intros [He|[j0 [Hj He]]]; [discriminate|].
        injection Hj as <-. destruct He as [_ ->]. reflexivity.
      * split; [discriminate|].
        intros [He|[j0 [Hj He]]]; [discriminate|].
        injection Hj as <-. destruct He as [He _]. congruence.
    + (* a dictionary *)
      split.
      * destruct (dict_mem "data" d); cbn [negb]; [|discriminate].
        destruct (negb _); discriminate.
      * intros [He|[j0 [Hj He]]]; [discriminate|].
        injection Hj as <-. contradiction.
  - split.
    + intros He. injection He as <-. auto.
    + intros [He|[j0 [Hj _]]]; [now injection He as <-|discriminate].
Qed.

(** X13. [valid_on_call_request] raises [e] exactly when the method is
    POST, the content type passes, and the body raises [e] in the body
    check. So a request with another method or content type gets [False]
    even when its body cannot be parsed, and a JSON body that is the
    string ["data"] or a number makes the check raise instead of returning
    [False]. *)
Theorem shape_validation_raises (request : Request) (e : exn) :
  valid_on_call_request request = Raise e <->
  method request = "POST"
  /\ (exists ct, headers_get "Content-Type" (headers request) = Some ct
                 /\ lower (trimmed_media_type ct) = "application/json")
  /\ body_raises request e.
Proof.
  rewrite <- valid_method_spec, <- valid_content_type_spec,
    <- valid_body_raises.
  unfold valid_on_call_request.
  destruct (_on_call_valid_method request);
    [|split; [discriminate|intros [Hm _]; discriminate]].
  destruct (_on_call_valid_content_type request);
    [|split; [discriminate|intros [_ [Hc _]]; discriminate]].
  destruct (_on_call_valid_body request) as [[|]|e']; cbn [bind].
  - split; [discriminate|intros [_ [_ Hb]]; discriminate].
  - split; [discriminate|intros [_ [_ Hb]]; discriminate].
  - split; [intros He; injection He as <-; auto|].
    intros [_ [_ Hb]]. exact Hb.
Qed.

Lemma shape_validation_raises_witness :
  valid_on_call_request
    (mkRequest "POST" [("Content-Type", "application/json")] (Ok (VInt 7)))
  = Raise TypeError.
Proof.
  apply (proj2 (shape_validation_raises
    (mkRequest "POST" [("Content-Type", "application/json")] (Ok (VInt 7)))
    TypeError)).
  split; [reflexivity|]. split.
  - exists "application/json". split; reflexivity.
  - right. exists (VInt 7). split; reflexivity.
Defined.

(** ** Token verification: the verdict as a whole *)

(** The state and the claims that [on_call_check_tokens] records for what
    a token check returned. *)
Definition verdict_of (returned : value) : OnCallTokenState * value :=
  if is_None returned then (MISSING, VNone)
  else if isinstance_dict returned then (VALID, returned)
  else (INVALID, VNone).

Lemma prefix_keeps_chars (c : ascii) (p s : string) :
  String.prefix p s = true -> contains_char c p = true ->
  contains_char c s = true.
Proof.
  revert s. induction p as [|a p IH]; intros s; simpl.
  - intros _ Hc. discriminate Hc.
  - destruct s as [|b s]; simpl; [discriminate|].
    destruct (Ascii.ascii_dec a b) as [->|Hne]; [|discriminate].
    intros Hp Hc. destruct (Ascii.eqb c b); simpl in *; auto.
Qed.

Lemma remove_all_no_space (s : string) :
  contains_char " " s = false -> remove_all_from "Bearer " 0 s = s.
Proof.
  induction s as [|c s IH]; [reflexivity|].
  intros Hc. cbn [remove_all_from].
  destruct (String.prefix "Bearer " (String c s)) eqn:Ep.
  - apply (prefix_keeps_chars " ") in Ep; [congruence|reflexivity].
  - f_equal. apply IH. simpl in Hc. now apply orb_false_elim in Hc as [_ Hc].
Qed.

Lemma verdict_of_claims (returned : value) :
  (fst (verdict_of returned) = VALID <->
     isinstance_dict (snd (verdict_of returned)) = true)
  /\ (fst (verdict_of returned) <> VALID -> snd (verdict_of returned) = VNone).
Proof.
  destruct returned; cbn; (split; [split|]); intros; try reflexivity;
    try discriminate; congruence.
Qed.

Section WithVerifiers.
Context {V : Verifiers}.

Lemma check_tokens_closed_form (request : Request) :
  on_call_check_tokens request =
  Ok (let auth_returned :=
        match headers_get "Authorization" (headers request) with
        | None => VNone
        | Some authorization =>
            if startswith authorization "Bearer " then
              match verify_id_token (remove_all "Bearer " authorization) with
              | Ok auth_token => auth_token
              | Raise _ => INVALID_member
              end
            else INVALID_member
        end in
      let app_returned :=
        match headers_get "X-Firebase-AppCheck" (headers request) with
        | None => VNone
        | Some app_check =>
            match verify_token app_check with
            | Ok app_token => app_token
            | Raise _ => INVALID_member
            end
        end in
      mkVerification (fst (verdict_of app_returned))
                     (snd (verdict_of app_returned))
                     (fst (verdict_of auth_returned))
                     (snd (verdict_of auth_returned))).
Proof.
  unfold on_call_check_tokens.
  rewrite check_auth_token_returns, check_app_token_returns. cbn [bind].
  cbv zeta. unfold verdict_of. f_equal.
  repeat match goal with
         | |- context [is_None ?x] => destruct (is_None x)
         | |- context [isinstance_dict ?x] => destruct (isinstance_dict x)
         end; reflexivity.
Qed.

(** X14. In every verdict, claims are attached to a token exactly when
    its state is [VALID], and they are then a dictionary; in the two other
    states the claims are [None]. This holds for the auth token and for
    the app-check token, whatever the verifiers return or raise. *)
Theorem claims_only_when_valid (request : Request)
    (v : OnCallTokenVerification) :
  on_call_check_tokens request = Ok v ->
  (auth v = VALID <-> isinstance_dict (auth_token v) = true)
  /\ (auth v <> VALID -> auth_token v = VNone)
  /\ (app v = VALID <-> isinstance_dict (app_token v) = true)
  /\ (app v <> VALID -> app_token v = VNone).
Proof.
  rewrite check_tokens_closed_form. cbv zeta. intros Hv. injection Hv as <-.
  cbn [auth auth_token app app_token].
  split; [apply verdict_of_claims|]. split; [apply verdict_of_claims|].
  split; apply verdict_of_claims.
Qed.

(** X15. What a verifier returns decides the state, not only whether it
    raises. For a bearer token on which the verifier returns [None], the
    verdict is [MISSING] although the header is there; when it returns a
    value that is neither [None] nor a dictionary, the verdict is
    [INVALID] and the value is not kept. *)
Theorem verifier_return_decides (request : Request) (authorization : string)
    (returned : value) (v : OnCallTokenVerification) :
  headers_get "Authorization" (headers request) = Some authorization ->
  startswith authorization "Bearer " = true ->
  verify_id_token (remove_all "Bearer " authorization) = Ok returned ->
  on_call_check_tokens request = Ok v ->
  (returned = VNone -> auth v = MISSING /\ auth_token v = VNone)
  /\ (is_None returned = false -> isinstance_dict returned = false ->
      auth v = INVALID /\ auth_token v = VNone).
Proof.
  intros Ha Hs Hr. rewrite check_tokens_closed_form. cbv zeta.
  rewrite Ha, Hs, Hr. intros Hv. injection Hv as <-.
  cbn [auth auth_token]. unfold verdict_of. split.
  - intros ->. split; reflexivity.
  - intros -> ->. split; reflexivity.
Qed.

(** X16. The token the verifier is asked about. For an [Authorization]
    header made of ["Bearer "] and a token without a space, the verifier
    receives exactly that token: claims it returns make the auth state
    [VALID] with these claims, and an exception it raises makes the state
    [INVALID]. *)
Theorem bearer_token_is_verified (request : Request) (token : string) :
  headers_get "Authorization" (headers request) = Some ("Bearer " ++ token) ->
  contains_char " " token = false ->
  exists v,
    on_call_check_tokens request = Ok v
    /\ (forall claims, verify_id_token token = Ok (VDict claims) ->
          auth v = VALID /\ auth_token v = VDict claims)
    /\ (forall e, verify_id_token token = Raise e ->
          auth v = INVALID /\ auth_token v = VNone).
Proof.
  intros Ha Hc. rewrite check_tokens_closed_form. cbv zeta. rewrite Ha.
  assert (Hs : startswith ("Bearer " ++ token) "Bearer " = true).
  { unfold startswith. simpl. now destruct token. }
  assert (Hr : remove_all "Bearer " ("Bearer " ++ token) = token).
  { unfold remove_all. cbn [append remove_all_from].
    assert (Hp : String.prefix "Bearer " ("Bearer " ++ token) = true)
      by exact Hs.
    cbn [append] in Hp. rewrite Hp.
    cbn [String.length Nat.sub remove_all_from].
    now apply remove_all_no_space. }
  rewrite Hs, Hr. eexists. split; [reflexivity|].
  cbn [auth auth_token]. split.
  - intros claims ->. split; reflexivity.
  - intros e ->. split; reflexivity.
Qed.
End WithVerifiers.

(** Verifiers that accept the token ["good"] only, and return [None] on
    the token ["odd"]. *)
Definition example_verifiers : Verifiers :=
  {| verify_id_token := fun token =>
       if String.eqb token "good" then Ok (VDict [("uid", VStr "u1")])
       else if String.eqb token "odd" then Ok VNone
       else Raise (Exception "invalid token");
     verify_token := fun token => Raise (Exception "invalid token") |}.

Lemma claims_only_when_valid_witness :
  exists v,
    on_call_check_tokens (V := example_verifiers)
      (mkRequest "POST" [("Authorization", "Bearer good");
                         ("X-Firebase-AppCheck", "bad")] (Ok VNone)) = Ok v
    /\ (app v <> VALID -> app_token v = VNone).
Proof.
  eexists.
  match goal with |- ?c = Ok ?x /\ _ =>
    assert (Hv : c = Ok x) by (vm_compute; reflexivity)
  end.
  split; [exact Hv|].
  exact (proj2 (proj2 (proj2
    (claims_only_when_valid (V := example_verifiers) _ _ Hv)))).
Defined.

Lemma verifier_return_decides_witness :
  exists v,
    on_call_check_tokens (V := example_verifiers)
      (mkRequest "POST" [("Authorization", "Bearer odd")] (Ok VNone)) = Ok v
    /\ auth v = MISSING.
Proof.
  eexists.
  match goal with |- ?c = Ok ?x /\ _ =>
    assert (Hv : c = Ok x) by (vm_compute; reflexivity)
  end.
  split; [exact Hv|].
  exact (proj1 (proj1
    (verifier_return_decides (V := example_verifiers)
       (mkRequest "POST" [("Authorization", "Bearer odd")] (Ok VNone))
       "Bearer odd" VNone _ eq_refl eq_refl eq_refl Hv) eq_refl)).
Defined.

Lemma bearer_token_is_verified_witness :
  exists v,
    on_call_check_tokens (V := example_verifiers)
      (mkRequest "POST" [("Authorization", "Bearer good")] (Ok VNone)) = Ok v
    /\ auth v = VALID
    /\ auth_token v = VDict [("uid", VStr "u1")].
Proof.
  destruct (bearer_token_is_verified (V := example_verifiers)
              (mkRequest "POST" [("Authorization", "Bearer good")] (Ok VNone))
              "good" eq_refl eq_refl) as (v & Hv & Hvalid & _).
  exists v. split; [exact Hv|]. exact (Hvalid _ eq_refl).
Defined.

End UtilExtra.


(* ================================================================== *)
(** * More of pubsub.py *)
(* ================================================================== *)

Module PubSubExtra.
Import Py PyFacts PubSub PubSubSpec.

Lemma keys_kept_set (k k' : string) (v : value) (d : dict) :
  In k (dict_keys d) -> In k (dict_keys (dict_set k' v d)).
Proof.
  induction d as [|[k0 v0] d IH]; simpl; [tauto|].
  destruct (String.eqb k' k0); simpl; tauto.
Qed.

Lemma keys_kept_del (k k' : string) (d : dict) :
  In k (dict_keys d) -> k <> k' -> In k (dict_keys (dict_del k' d)).
Proof.
  induction d as [|[k0 v0] d IH]; simpl; [tauto|].
  intros [Hk|Hk] Hne.
  - subst k0. apply not_eq_sym, String.eqb_neq in Hne. rewrite Hne.
    simpl. auto.
  - destruct (String.eqb k' k0); simpl; auto.
Qed.

(** The constructor call accepts a message only when all its keys are
    wire keys. *)
Lemma Message_call_Ok_keys (md : dict) (pt : datetime) (ok : value)
    (m : Message) :
  Message_call (cleaned md pt) ok = Ok m ->
  forallb (fun k => existsb (String.eqb k) wire_keys) (dict_keys md) = true.
Proof.
  unfold Message_call, Message_init.
  destruct (dict_mem "ordering_key" (cleaned md pt)) eqn:Em; [discriminate|].
  destruct (forallb _ (dict_keys (cleaned md pt ++ _)%list)) eqn:Ef;
    [|discriminate].
  intros _. apply forallb_forall. intros k Hk.
  apply OptionsSpec.existsb_eqb_In.
  destruct (String.eqb k "messageId") eqn:E1;
    [apply String.eqb_eq in E1; subst; simpl; tauto|].
  destruct (String.eqb k "publishTime") eqn:E2;
    [apply String.eqb_eq in E2; subst; simpl; tauto|].
  destruct (String.eqb k "orderingKey") eqn:E3;
    [apply String.eqb_eq in E3; subst; simpl; tauto|].
  apply String.eqb_neq in E1, E2, E3.
  assert (Hc : In k (dict_keys (cleaned md pt))).
  { unfold cleaned. apply keys_kept_set.
    repeat (apply keys_kept_del; [|assumption]).
    now apply keys_kept_set. }
  rewrite forallb_forall in Ef.
  assert (Hf : In k (dict_keys (cleaned md pt
                                ++ [("ordering_key", ok)])%list)).
  { unfold dict_keys. rewrite map_app. apply in_or_app. auto. }
  apply Ef, OptionsSpec.existsb_eqb_In in Hf.
  assert (Hno : k <> "ordering_key").
  { intros ->. apply dict_get_key in Hc as [v Hv].
    unfold dict_mem in Em. rewrite Hv in Em. discriminate. }
  simpl in Hf. simpl. intuition.
Qed.

Section WithLibrary.
Context {L : Library}.

Lemma typed_event_Ok_well_formed (raw : RawEvent) (ev : CloudEvent) :
  cloud_event raw = true ->
  typed_event raw = Ok ev ->
  well_formed raw = true.
Proof.
  intros Hce Hev. unfold well_formed. rewrite Hce.
  destruct raw as [attrs rd]. unfold cloud_event, typed_event in *.
  cbn [raw_attributes raw_data] in *.
  apply andb_prop in Hce as [Hnd Hnodata].
  apply distinct_NoDup in Hnd.
  apply negb_true_iff, dict_mem_false in Hnodata.
  unfold dict_item in Hev.
  rewrite !event_dict_get in Hev by exact Hnd.
  rewrite Hnodata in Hev. cbn [String.eqb Ascii.eqb Bool.eqb bind] in Hev.
  apply bind_Ok in Hev as [mv [Hmv Hev]].
  destruct rd as [| | | | | |d| | | | | |]; try discriminate.
  unfold subscript, dict_item in Hmv.
  destruct (dict_get "message" d) as [mv'|] eqn:Em; [|discriminate].
  injection Hmv as ->.
  apply bind_Ok in Hev as [t [Ht Hev]].
  destruct (dict_get "time" attrs) as [tv|] eqn:Et; [|discriminate].
  cbn [bind] in Ht. apply strptime_value_Ok in Ht as [T [-> EsT]].
  apply bind_Ok in Hev as [pt [Hpt Hev]].
  destruct mv as [| | | | | |md| | | | | |]; try discriminate.
  unfold subscript, dict_item in Hpt.
  destruct (dict_get "publish_time" md) as [pv|] eqn:Ep; [|discriminate].
  cbn [bind] in Hpt. apply strptime_value_Ok in Hpt as [P [-> EsP]].
  apply bind_Ok in Hev as [m [Hm Hev]].
  pose proof (Message_call_Ok_keys md pt _ m Hm) as Hkeys.
  apply Message_call_Ok in Hm as [Hmid Hpayload].
  apply bind_Ok in Hev as [sub [Hsub Hev]].
  unfold subscript, dict_item in Hsub.
  destruct (dict_get "subscription" d) as [sv|] eqn:Es; [|discriminate].
  apply bind_Ok in Hev as [id [Hid Hev]].
  apply bind_Ok in Hev as [source [Hsource Hev]].
  apply bind_Ok in Hev as [specversion [Hspec Hev]].
  apply bind_Ok in Hev as [time [_ Hev]].
  apply bind_Ok in Hev as [type [Htype _]].
  unfold dict_item in Hid, Hsource, Hspec, Htype.
  rewrite dict_get_set_ne in Hid, Hsource, Hspec, Htype by discriminate.
  rewrite event_dict_get in Hid, Hsource, Hspec, Htype by exact Hnd.
  unfold parses. rewrite EsT, EsP, Hkeys, Hmid, Hpayload.
  unfold dict_mem. rewrite Es.
  destruct (dict_get "id" attrs); [|discriminate].
  destruct (dict_get "source" attrs); [|discriminate].
  destruct (dict_get "specversion" attrs); [|discriminate].
  destruct (dict_get "type" attrs); [|discriminate].
  reflexivity.
Qed.

(** X17. For a raw cloud event, the adaptation reaches the handler exactly
    when the envelope is well formed: the metadata [id], [source],
    [specversion] and [type] are there, [time] is a string that parses,
    the data is a dictionary with a subscription and a message dictionary,
    and the message has [message_id], [data], a [publish_time] string that
    parses, and no key outside the seven wire keys. In particular a
    message with any other key, the snake-case [ordering_key] included, is
    rejected. *)
Theorem adaptation_succeeds_iff (raw : RawEvent) :
  cloud_event raw = true ->
  ((exists ev, typed_event raw = Ok ev) <-> well_formed raw = true).
Proof.
  intros Hce. split.
  - intros [ev Hev]. now apply (typed_event_Ok_well_formed raw ev).
  - intros Hwf.
    destruct (typed_event_well_formed raw Hwf)
      as (d & md & T & t & P & pt & _ & _ & _ & _ & _ & _ & Hev).
    eauto.
Qed.

(** X18. What the handler receives from a well-formed envelope. The
    message attributes are the ones on the wire, or the empty dictionary
    when the message has none; the payload is the [data] of the wire
    message, not decoded; the subscription and the metadata [id],
    [source], [specversion] and [type] are the ones of the raw event, and
    the subject is [None] when the raw event has none. *)
Theorem handler_receives (raw : RawEvent) :
  well_formed raw = true ->
  exists ev d message_dict,
    typed_event raw = Ok ev
    /\ raw_data raw = VDict d
    /\ dict_get "message" d = Some (VDict message_dict)
    /\ (dict_get "attributes" message_dict = None ->
        attributes (message (event_data ev)) = VDict [])
    /\ (forall a, dict_get "attributes" message_dict = Some a ->
        attributes (message (event_data ev)) = a)
    /\ dict_get "data" message_dict = Some (data (message (event_data ev)))
    /\ dict_get "message_id" message_dict
       = Some (message_id (message (event_data ev)))
    /\ dict_get "subscription" d = Some (subscription (event_data ev))
    /\ dict_get "id" (raw_attributes raw) = Some (event_id ev)
    /\ dict_get "source" (raw_attributes raw) = Some (event_source ev)
    /\ dict_get "specversion" (raw_attributes raw)
       = Some (event_specversion ev)
    /\ dict_get "type" (raw_attributes raw) = Some (event_type ev)
    /\ (dict_get "subject" (raw_attributes raw) = None ->
        event_subject ev = VNone)
    /\ (forall s, dict_get "subject" (raw_attributes raw) = Some s ->
        event_subject ev = s).
Proof.
  intros Hwf.
  destruct (typed_event_well_formed raw Hwf)
    as (d & md & T & t & P & pt & Hd & Em & _ & _ & _ & _ & Hev).
  eexists. exists d, md. split; [exact Hev|]. split; [exact Hd|].
  split; [exact Em|].
  unfold well_formed in Hwf. rewrite Hd, Em in Hwf.
  repeat match type of Hwf with
         | (_ && _)%bool = true =>
             let H := fresh "Hw" in apply andb_prop in Hwf as [Hwf H]
         end.
  repeat match goal with
         | H : (_ && _)%bool = true |- _ =>
             let H' := fresh "Hw" in apply andb_prop in H as [H H']
         end.
  repeat match goal with
         | H : dict_mem _ _ = true |- _ =>
             apply dict_mem_true in H as [? H]
         end.
  cbn [event_data message attributes data message_id subscription event_id
       event_source event_specversion event_type event_subject].
  unfold dict_get_default.
  repeat match goal with
         | H : dict_get _ _ = Some _ |- _ => rewrite H
         end.
  repeat split; try reflexivity.
  - now intros ->.
  - now intros a ->.
  - now intros ->.
  - now intros s ->.
Qed.

(** X19. The outcomes of the property [json]. It yields [None] for a
    message whose data is [None]; it raises nothing but [ValueError]; and
    a value it yields otherwise is what [json.loads] gives on the UTF-8
    text of the base64-decoded data. *)
Theorem json_outcomes (m : Message) :
  (data m = VNone -> Message_json m = Ok VNone)
  /\ (forall e, Message_json m = Raise e -> e = ValueError)
  /\ (forall j, Message_json m = Ok j ->
        (data m = VNone /\ j = VNone)
        \/ exists s bytes text,
             data m = VStr s /\ b64decode s = Some bytes
             /\ decode_utf8 bytes = Some text /\ json_loads text = Some j).
Proof.
  unfold Message_json. split; [intros ->; reflexivity|].
  destruct (data m) as [| | | |s| | | | | | | |];
    cbn [is_None negb loads_b64 try_except];
    try (split; [intros e He; now injection He as <-|discriminate]).
  - split; [discriminate|]. intros j Hj. injection Hj as <-. auto.
  - destruct (b64decode s) as [bytes|] eqn:Eb;
      [|split; [intros e He; now injection He as <-|discriminate]].
    destruct (decode_utf8 bytes) as [text|] eqn:Ed;
      [|split; [intros e He; now injection He as <-|discriminate]].
    destruct (json_loads text) as [v|] eqn:Ej;
      [|split; [intros e He; now injection He as <-|discriminate]].
    split; [discriminate|]. intros j Hj. injection Hj as <-.
    right. exists s, bytes, text. auto.
Qed.
End WithLibrary.

Definition bare_message : dict :=
  [("data", VStr "eyJ4IjoxfQ=="); ("message_id", VStr "m1");
   ("publish_time", VStr midnight)].

Lemma adaptation_succeeds_iff_witness :
  (exists ev,
     typed_event (L := example_library) (example_raw midnight bare_message)
     = Ok ev)
  /\ ~ (exists ev,
          typed_event (L := example_library)
            (example_raw midnight
               (("ordering_key", VStr "k1") :: bare_message)) = Ok ev).
Proof.
  split.
  - exact (proj2 (adaptation_succeeds_iff (L := example_library)
                    (example_raw midnight bare_message) eq_refl) eq_refl).
  - intros Hev.
    apply (proj1 (adaptation_succeeds_iff (L := example_library)
                    (example_raw midnight
                       (("ordering_key", VStr "k1") :: bare_message))
                    eq_refl)) in Hev.
    discriminate Hev.
Defined.

Lemma json_outcomes_witness :
  Message_json (L := example_library)
    (mkMessage (VStr "m1") (VDatetime utc_2022) (VDict []) VNone VNone)
  = Ok VNone.
Proof.
  exact (proj1 (json_outcomes (L := example_library)
    (mkMessage (VStr "m1") (VDatetime utc_2022) (VDict []) VNone VNone))
    eq_refl).
Defined.

Lemma handler_receives_witness :
  exists ev,
    typed_event (L := example_library) (example_raw midnight bare_message)
    = Ok ev
    /\ attributes (message (event_data ev)) = VDict []
    /\ event_subject ev = VNone.
Proof.
  destruct (handler_receives (L := example_library)
              (example_raw midnight bare_message) eq_refl)
    as (ev & d & md & Hev & Hd & Hm & Hattr & _ & _ & _ & _ & _ & _ & _ & _
        & Hsubject & _).
  exists ev. split; [exact Hev|].
  injection Hd as <-. injection Hm as <-.
  exact (conj (Hattr eq_refl) (Hsubject eq_refl)).
Defined.

End PubSubExtra.
